(** * Blinko MCP server: the remote note client and the tool dispatcher

    A shallow embedding of [blinko.ts] (the [BlinkoClient] class) and of the
    [CallToolRequestSchema] handler of [index.ts], followed by the properties
    of the adapter that are established on it.

    - JavaScript values that reach the handler are JSON values; numbers are
      IEEE-754 doubles ([spec_float]).
    - What the engine computes and the repository does not ([Number] on a
      string, number printing, [Date], [Response.json]) is a [Runtime]
      parameter.
    - [String(x)] and [Number(x)] throw where the engine throws: on an
      object that has a key [toString] of its own.
    - [async] code runs in a small monad that logs every [fetch] and carries
      the thrown value. *)

From Stdlib Require Import ZArith NArith List String Ascii Bool Lia.
From Stdlib Require Import Floats.SpecFloat.
From Stdlib Require Import DecimalString.
Import ListNotations.

Local Open Scope list_scope.
Local Open Scope string_scope.
Set Warnings "-register-all".

(* ================================================================= *)
(** ** JavaScript numbers *)

(** A JavaScript number is a binary64 value. *)
Definition number : Type := spec_float.

Definition NaN : number := S754_nan.
Definition Infinity : number := S754_infinity false.

(** The double nearest to an integer literal of the source. *)
Definition num (z : Z) : number := binary_normalize 53 1024 z 0 false.

(** [isNaN(x)] on a number. *)
Definition isNaN (x : number) : bool :=
  match x with S754_nan => true | _ => false end.

(** [Number.isFinite(x)]: neither NaN nor an infinity. *)
Definition isFinite (x : number) : bool :=
  match x with S754_zero _ | S754_finite _ _ _ => true | _ => false end.

(** [ToBoolean] on a number: [+0], [-0] and NaN are falsy. *)
Definition truthy_number (x : number) : bool :=
  match x with S754_zero _ | S754_nan => false | _ => true end.

(** [a === b] on two numbers (IEEE equality: [-0 === 0], NaN differs
    from itself). *)
Definition strict_eq_number (a b : number) : bool := SFeqb a b.

(** Decimal digits of a natural number, as [`${n}`] prints an integer. *)
Definition decimal (n : N) : string := NilZero.string_of_uint (N.to_uint n).

(* ================================================================= *)
(** ** JSON values and JavaScript objects *)

(** A value parsed from JSON, or built by the handler from such values.
    An object keeps its keys in insertion order. *)
Inductive json : Type :=
| JNull
| JBool (b : bool)
| JNum (n : number)
| JStr (s : string)
| JArr (items : list json)
| JObj (fields : list (string * json)).

Definition object : Type := list (string * json).

(** Induction on a JSON value that reaches the items of an array and the
    values of an object. *)
Section JsonInduction.

Variable P : json -> Prop.
Hypothesis P_null : P JNull.
Hypothesis P_bool : forall b, P (JBool b).
Hypothesis P_num : forall n, P (JNum n).
Hypothesis P_str : forall s, P (JStr s).
Hypothesis P_arr : forall items, Forall P items -> P (JArr items).
Hypothesis P_obj :
  forall fields, Forall (fun kv => P (snd kv)) fields -> P (JObj fields).

Fixpoint json_induction (v : json) : P v :=
  match v with
  | JNull => P_null
  | JBool b => P_bool b
  | JNum n => P_num n
  | JStr s => P_str s
  | JArr items =>
      P_arr items
        ((fix all (l : list json) : Forall P l :=
            match l with
            | [] => Forall_nil P
            | x :: rest => Forall_cons x (json_induction x) (all rest)
            end) items)
  | JObj fields =>
      P_obj fields
        ((fix all (l : list (string * json))
            : Forall (fun kv => P (snd kv)) l :=
            match l with
            | [] => Forall_nil _
            | kv :: rest =>
                Forall_cons kv (json_induction (snd kv)) (all rest)
            end) fields)
  end.

End JsonInduction.

(** [o[k]]: [None] stands for [undefined]. *)
Fixpoint get (o : object) (k : string) : option json :=
  match o with
  | [] => None
  | (k', v) :: rest => if String.eqb k' k then Some v else get rest k
  end.

(** [o[k] = v]: an existing key keeps its place, a new key goes last. *)
Fixpoint set (o : object) (k : string) (v : json) : object :=
  match o with
  | [] => [(k, v)]
  | (k', v') :: rest =>
      if String.eqb k' k then (k', v) :: rest else (k', v') :: set rest k v
  end.

(** [{...base, ...o}]: the own properties of [o], assigned in order. *)
Definition spread (base o : object) : object :=
  fold_left (fun acc kv => set acc (fst kv) (snd kv)) o base.

Definition keys (o : object) : list string := map fst o.

(** [request.params.arguments?.k] and the destructuring of
    [request.params.arguments || {}]: both read [undefined] when the bag or
    the key is absent. *)
Definition arg (arguments : option object) (k : string) : option json :=
  match arguments with
  | None => None
  | Some o => get o k
  end.

(* ================================================================= *)
(** ** What the engine provides *)

(** [Note] of blinko.ts (the fields the server reads, with their declared
    types). *)
Record Note : Type := mkNote {
  note_id : number;
  note_type : number;
  note_content : string;
  note_isArchived : bool;
  note_isRecycle : bool;
  note_isShare : bool;
  note_isTop : bool;
  note_isReviewed : bool;
  note_createdAt : string;
  note_updatedAt : string
}.

(** [ShareNoteResult] of blinko.ts; [None] is [undefined] or [null]. *)
Record ShareNoteResult : Type := mkShareNoteResult {
  share_id : number;
  share_isShare : bool;
  share_sharePassword : option string;
  share_shareEncryptedUrl : option string
}.

(** The parts of the JavaScript engine the code calls and does not define.
    - [StringToNumber] is [Number(s)] on a string, [NumberToString] is
      [String(n)] on a number.
    - [Date_parse s] is the time value of [new Date(s)], [None] when the
      string is not recognised as a date (time value NaN);
      [Date_localeString t] is [toLocaleString()] at a valid time value.
    - [json_notes], [json_note] and [json_share] are [await resp.json()] at
      the type the client declares for it, which is trusted as the source
      trusts it; [None] when [json()] rejects, and [json_rejection] is then
      the reason it rejects with. *)
Record Runtime : Type := mkRuntime {
  StringToNumber : string -> number;
  NumberToString : number -> string;
  Date_parse : string -> option Z;
  Date_localeString : Z -> string;
  json_notes : string -> option (list Note);
  json_note : string -> option Note;
  json_share : string -> option ShareNoteResult;
  json_rejection : string -> string
}.

(* ================================================================= *)
(** ** Thrown values *)

(** A thrown value: [Error m] is [throw new Error(m)] of the source;
    [TypeError] is the TypeError of the engine when a value cannot be
    converted to a primitive; [Rejected r] is a rejection that comes from
    the engine with reason [r] ([fetch] that cannot reach the host,
    [json()] on a malformed body). *)
Inductive exn : Type :=
| Error (message : string)
| TypeError
| Rejected (reason : string).

(* ================================================================= *)
(** ** Coercions *)

Section Coercions.

Variable rt : Runtime.

(** [String(v)] at a defined value. An array prints its elements joined
    by commas, with [null] elements printed as nothing. An object whose
    own keys include [toString] cannot be converted: the value under that
    key comes from JSON and is not callable, and the inherited [valueOf]
    gives the object back, so the engine throws a TypeError. Any other
    object prints as ["[object Object]"]. *)
Fixpoint ToString (v : json) : exn + string :=
  match v with
  | JNull => inr "null"
  | JBool true => inr "true"
  | JBool false => inr "false"
  | JNum n => inr (NumberToString rt n)
  | JStr s => inr s
  | JArr items =>
      (fix join (l : list json) : exn + string :=
         match l with
         | [] => inr ""
         | x :: rest =>
             match (match x with JNull => inr "" | _ => ToString x end) with
             | inl e => inl e
             | inr sx =>
                 match rest with
                 | [] => inr sx
                 | _ :: _ =>
                     match join rest with
                     | inl e => inl e
                     | inr sr => inr (sx ++ "," ++ sr)
                     end
                 end
             end
         end) items
  | JObj fields =>
      match get fields "toString" with
      | Some _ => inl TypeError
      | None => inr "[object Object]"
      end
  end.

(** [Number(v)] at a defined value. Arrays and objects go through their
    string form, and throw where that throws. *)
Definition ToNumber (v : json) : exn + number :=
  match v with
  | JNull => inr (num 0)
  | JBool true => inr (num 1)
  | JBool false => inr (num 0)
  | JNum n => inr n
  | JStr s => inr (StringToNumber rt s)
  | JArr _ | JObj _ =>
      match ToString v with
      | inl e => inl e
      | inr s => inr (StringToNumber rt s)
      end
  end.

(** [Boolean(v)] at a defined value; it never throws. *)
Definition ToBoolean (v : json) : bool :=
  match v with
  | JNull => false
  | JBool b => b
  | JNum n => truthy_number n
  | JStr s => negb (String.eqb s "")
  | JArr _ | JObj _ => true
  end.

(** [String(x)], [Number(x)] and [Boolean(x)] where [x] may be
    [undefined]. *)
Definition js_String (x : option json) : exn + string :=
  match x with None => inr "undefined" | Some v => ToString v end.

Definition js_Number (x : option json) : exn + number :=
  match x with None => inr NaN | Some v => ToNumber v end.

Definition js_Boolean (x : option json) : bool :=
  match x with None => false | Some v => ToBoolean v end.

End Coercions.

(** [!s] on a string. *)
Definition falsy_string (s : string) : bool := String.eqb s "".

(** How [JSON.stringify] writes a number: NaN and the infinities as
    [null], [-0] as [0]. *)
Definition stringify_number (n : number) : json :=
  match n with
  | S754_nan | S754_infinity _ => JNull
  | S754_zero _ => JNum (S754_zero false)
  | S754_finite _ _ _ => JNum n
  end.

(** [JSON.stringify(v)], held as the JSON document the text denotes. *)
Fixpoint JSON_stringify (v : json) : json :=
  match v with
  | JNull => JNull
  | JBool b => JBool b
  | JNum n => stringify_number n
  | JStr s => JStr s
  | JArr items => JArr (map JSON_stringify items)
  | JObj fields => JObj (map (fun kv => (fst kv, JSON_stringify (snd kv))) fields)
  end.

(* ================================================================= *)
(** ** Asynchronous calls over a transport *)

(** The arguments of one [fetch] call. [req_body] is the argument of
    [JSON.stringify], [None] when the call has no body. *)
Record Request : Type := mkRequest {
  req_method : string;
  req_url : string;
  req_headers : list (string * string);
  req_body : option json
}.

(** A response: [resp.status] and what [await resp.text()] gives. *)
Record Response : Type := mkResponse {
  status : N;
  text : string
}.

(** [resp.ok]: the status is in 200..299. *)
Definition ok (r : Response) : bool :=
  ((200 <=? status r) && (status r <=? 299))%N.

Inductive Outcome : Type :=
| NetworkFailure (reason : string)
| Reply (resp : Response).

(** The remote service seen from the client. *)
Definition Transport : Type := Request -> Outcome.

(** An [async] computation: it reads the transport, appends the requests
    it issues to the log, and ends in a value or a thrown [exn]. *)
Definition Async (A : Type) : Type :=
  Transport -> list Request -> list Request * (exn + A).

Definition ret {A} (a : A) : Async A := fun _ log => (log, inr a).

Definition throw {A} (e : exn) : Async A := fun _ log => (log, inl e).

Definition bind {A B} (m : Async A) (k : A -> Async B) : Async B :=
  fun net log =>
    match m net log with
    | (log', inl e) => (log', inl e)
    | (log', inr a) => k a net log'
    end.

Notation "x <- m ;; k" := (bind m (fun x => k))
  (at level 61, m at next level, right associativity).

(** [await fetch(url, init)]. *)
Definition fetch (req : Request) : Async Response :=
  fun net log =>
    match net req with
    | NetworkFailure reason => ((log ++ [req])%list, inl (Rejected reason))
    | Reply resp => ((log ++ [req])%list, inr resp)
    end.

(** A value or a throw of a pure computation, inside [async] code. *)
Definition lift {A} (r : exn + A) : Async A :=
  match r with
  | inl e => throw e
  | inr a => ret a
  end.

(** [await resp.json()] through one of the runtime's decoders. *)
Definition resp_json {A} (rt : Runtime) (decode : string -> option A)
    (resp : Response) : Async A :=
  match decode (text resp) with
  | Some a => ret a
  | None => throw (Rejected (json_rejection rt (text resp)))
  end.

(** [r] then [k], for pure computations that may throw. *)
Definition and_then {A B} (r : exn + A) (k : A -> exn + B) : exn + B :=
  match r with
  | inl e => inl e
  | inr a => k a
  end.

(** Run a computation from an empty log. *)
Definition run {A} (m : Async A) (net : Transport) : list Request * (exn + A) :=
  m net [].

(** [try { body } catch (e) { handler(e) }]. *)
Definition try_catch {A} (body : Async A) (handler : exn -> Async A) : Async A :=
  fun net log =>
    match body net log with
    | (log', inl e) => handler e net log'
    | (log', inr a) => (log', inr a)
    end.

(** [x ?? d]: [None] is [undefined] or [null]. *)
Definition nullish {A} (x : option A) (d : A) : A :=
  match x with Some a => a | None => d end.

(* ================================================================= *)
(** ** blinko.ts: the remote note client *)

(** [SearchNotesParams]; an optional field that is absent is [None]. *)
Record SearchNotesParams : Type := mkSearchNotesParams {
  sp_size : option number;
  sp_type : option number;
  sp_isArchived : option bool;
  sp_isRecycle : option bool;
  sp_searchText : string;
  sp_isUseAiQuery : option bool;
  sp_startDate : option string;
  sp_endDate : option string;
  sp_hasTodo : option bool
}.

(** [ShareNoteParams]. *)
Record ShareNoteParams : Type := mkShareNoteParams {
  shp_id : number;
  shp_isCancel : option bool;
  shp_password : option string
}.

(** The [{ success: boolean }] result of the mutating calls. *)
Record SuccessResult : Type := mkSuccessResult { success : bool }.

Record BlinkoClient : Type := mkBlinkoClient {
  baseUrl : string;
  apiKey : string
}.

(** [domain.replace(/\/$/, '')]: drop one slash that ends the string. *)
Fixpoint strip_trailing_slash (s : string) : string :=
  match s with
  | EmptyString => EmptyString
  | String c EmptyString => if Ascii.eqb c "/" then EmptyString else s
  | String c rest => String c (strip_trailing_slash rest)
  end.

(** [BlinkoClient.normalizeDomain]. *)
Definition normalizeDomain (domain : string) : exn + string :=
  if falsy_string domain then inl (Error "Domain cannot be empty")
  else
    let domain := strip_trailing_slash domain in
    if prefix "http://" domain || prefix "https://" domain
    then inr domain
    else inr ("https://" ++ domain).

(** [new BlinkoClient({ domain, apiKey })]. *)
Definition new_BlinkoClient (domain apiKey : string) : exn + BlinkoClient :=
  match normalizeDomain domain with
  | inl e => inl e
  | inr url => inr (mkBlinkoClient url apiKey)
  end.

Section Client.

Variable rt : Runtime.
Variable this : BlinkoClient.

Definition bearer : string * string :=
  ("Authorization", "Bearer " ++ apiKey this).

Definition json_content : string * string :=
  ("Content-Type", "application/json").

(** [BlinkoClient.searchNotes]. *)
Definition searchNotes (params : SearchNotesParams) : Async (list Note) :=
  try_catch
    (let apiUrl := baseUrl this ++ "/api/v1/note/list" in
     resp <- fetch (mkRequest "POST" apiUrl [json_content; bearer]
               (Some (JSON_stringify (JObj
                  [ ("size", JNum (nullish (sp_size params) (num 5)));
                    ("type", JNum (nullish (sp_type params) (num (-1))));
                    ("isArchived", JBool (nullish (sp_isArchived params) false));
                    ("isRecycle", JBool (nullish (sp_isRecycle params) false));
                    ("searchText", JStr (sp_searchText params));
                    ("isUseAiQuery", JBool (nullish (sp_isUseAiQuery params) true));
                    ("startDate",
                      match sp_startDate params with Some d => JStr d | None => JNull end);
                    ("endDate",
                      match sp_endDate params with Some d => JStr d | None => JNull end);
                    ("hasTodo", JBool (nullish (sp_hasTodo params) false)) ])))) ;;
     if negb (ok resp) then
       let errorText := text resp in
       throw (Error ("request failed with status " ++ decimal (status resp)
                     ++ ": " ++ errorText))
     else resp_json rt (json_notes rt) resp)
    (fun e => throw e).

(** [BlinkoClient.getDailyReviewNotes]. *)
Definition getDailyReviewNotes : Async (list Note) :=
  try_catch
    (let apiUrl := baseUrl this ++ "/api/v1/note/daily-review-list" in
     resp <- fetch (mkRequest "GET" apiUrl [bearer] None) ;;
     if negb (ok resp) then
       let errorText := text resp in
       throw (Error ("request failed with status " ++ decimal (status resp)
                     ++ ": " ++ errorText))
     else resp_json rt (json_notes rt) resp)
    (fun e => throw e).

(** [BlinkoClient.clearRecycleBin]. *)
Definition clearRecycleBin : Async SuccessResult :=
  try_catch
    (let apiUrl := baseUrl this ++ "/api/v1/note/clear-recycle-bin" in
     resp <- fetch (mkRequest "POST" apiUrl [bearer] None) ;;
     if negb (ok resp) then
       let errorText := text resp in
       throw (Error ("request failed with status " ++ decimal (status resp)
                     ++ ": " ++ errorText))
     else ret (mkSuccessResult true))
    (fun e => throw e).

(** [BlinkoClient.upsertNote]; [type] defaults to 0 when absent. *)
Definition upsertNote (content : string) (type : option number) : Async Note :=
  let type := match type with Some t => t | None => num 0 end in
  try_catch
    (if falsy_string content then throw (Error "invalid content")
     else
       let apiUrl := baseUrl this ++ "/api/v1/note/upsert" in
       let reqBody := JObj [("content", JStr content); ("type", JNum type)] in
       resp <- fetch (mkRequest "POST" apiUrl [json_content; bearer]
                 (Some (JSON_stringify reqBody))) ;;
       if negb (ok resp) then
         let errorText := text resp in
         throw (Error ("request failed with status " ++ decimal (status resp)
                       ++ ": " ++ errorText))
       else resp_json rt (json_note rt) resp)
    (fun e => throw e).

(** [BlinkoClient.updateNote]. *)
Definition updateNote (noteId : number) (updates : object) : Async SuccessResult :=
  try_catch
    (let apiUrl := baseUrl this ++ "/api/trpc/notes.upsert?batch=1" in
     resp <- fetch (mkRequest "POST" apiUrl [json_content; bearer]
               (Some (JSON_stringify (JObj
                  [ ("0", JObj
                      [ ("json", JObj (spread [("id", JNum noteId)] updates)) ]) ])))) ;;
     if negb (ok resp) then
       let errorText := text resp in
       throw (Error ("Failed to update note: " ++ decimal (status resp)
                     ++ ": " ++ errorText))
     else ret (mkSuccessResult true))
    (fun e => throw e).

(** [BlinkoClient.deleteNote]. *)
Definition deleteNote (noteId : number) : Async SuccessResult :=
  try_catch
    (let apiUrl := baseUrl this ++ "/api/trpc/notes.deleteMany?batch=1" in
     resp <- fetch (mkRequest "POST" apiUrl [json_content; bearer]
               (Some (JSON_stringify (JObj
                  [ ("0", JObj
                      [ ("json", JObj [("ids", JArr [JNum noteId])]) ]) ])))) ;;
     if negb (ok resp) then
       let errorText := text resp in
       throw (Error ("Failed to delete note: " ++ decimal (status resp)
                     ++ ": " ++ errorText))
     else ret (mkSuccessResult true))
    (fun e => throw e).

(** [BlinkoClient.archiveNote]. *)
Definition archiveNote (noteId : number) : Async SuccessResult :=
  updateNote noteId [("isArchived", JBool true)].

(** [BlinkoClient.shareNote]. *)
Definition shareNote (params : ShareNoteParams) : Async ShareNoteResult :=
  try_catch
    (let apiUrl := baseUrl this ++ "/api/v1/note/share" in
     let reqBody := JObj
       [ ("id", JNum (shp_id params));
         ("isCancel", JBool (nullish (shp_isCancel params) false));
         ("password", JStr (nullish (shp_password params) "")) ] in
     resp <- fetch (mkRequest "POST" apiUrl [json_content; bearer]
               (Some (JSON_stringify reqBody))) ;;
     if negb (ok resp) then
       let errorText := text resp in
       throw (Error ("request failed with status " ++ decimal (status resp)
                     ++ ": " ++ errorText))
     else
       result <- resp_json rt (json_share rt) resp ;;
       ret (mkShareNoteResult (share_id result) (share_isShare result)
              (share_sharePassword result) (share_shareEncryptedUrl result)))
    (fun e => throw e).

End Client.

(* ================================================================= *)
(** ** index.ts: the tool dispatcher *)

(** [/^\d{6}$/.test(s)]: exactly six ASCII digits. *)
Definition is_digit (c : ascii) : bool :=
  let n := nat_of_ascii c in (48 <=? n)%nat && (n <=? 57)%nat.

Fixpoint all_digits (s : string) : bool :=
  match s with
  | EmptyString => true
  | String c rest => is_digit c && all_digits rest
  end.

Definition six_digits (s : string) : bool :=
  Nat.eqb (String.length s) 6 && all_digits s.

(** [x === k] for a value [x] of the argument bag and a number literal. *)
Definition strict_eq_literal (x : option json) (k : number) : bool :=
  match x with
  | Some (JNum n) => strict_eq_number n k
  | _ => false
  end.

(** [x !== false]. *)
Definition not_false (x : option json) : bool :=
  match x with
  | Some (JBool false) => false
  | _ => true
  end.

(** The line feed of the note template. *)
Definition LF : string := String (ascii_of_nat 10) EmptyString.

Section Dispatcher.

Variable rt : Runtime.

(** [new Date(dateStr).toLocaleString()]: the constructor keeps an
    unrecognised string as an invalid date and does not throw;
    [toLocaleString] prints an invalid date as ["Invalid Date"] and does
    not throw either. *)
Definition Date_toLocaleString (dateStr : string) : exn + string :=
  match Date_parse rt dateStr with
  | Some t => inr (Date_localeString rt t)
  | None => inr "Invalid Date"
  end.

(** The [formatDate] helper of the search and review cases. *)
Definition formatDate (dateStr : string) : string :=
  match Date_toLocaleString dateStr with
  | inr s => s
  | inl _ => dateStr
  end.

(** The [getTypeDescription] helper of the search and review cases. *)
Definition getTypeDescription (type : number) : string :=
  if strict_eq_number type (num 0) then "Flash Note"
  else if strict_eq_number type (num 1) then "Normal Note"
  else if strict_eq_number type (num 2) then "Todo Note"
  else "Unknown".

(** One text block per note, as both listing cases build it. *)
Definition note_block (note : Note) : string :=
  "- [ID: " ++ NumberToString rt (note_id note) ++ "] ["
  ++ getTypeDescription (note_type note) ++ "] " ++ note_content note
  ++ LF ++ "  Created: " ++ formatDate (note_createdAt note)
  ++ " | Updated: " ++ formatDate (note_updatedAt note).

(** The [updates] object of the [update_blinko_note] case; it throws
    where [String(content)] or [Number(type)] throws. *)
Definition build_updates (arguments : option object) : exn + object :=
  let content := arg arguments "content" in
  let type := arg arguments "type" in
  let isArchived := arg arguments "isArchived" in
  let isTop := arg arguments "isTop" in
  let updates : object := [] in
  and_then
    (match content with
     | Some _ => and_then (js_String rt content)
                   (fun s => inr (set updates "content" (JStr s)))
     | None => inr updates
     end) (fun updates =>
  and_then
    (match type with
     | Some _ => and_then (js_Number rt type)
                   (fun n => inr (set updates "type" (JNum n)))
     | None => inr updates
     end) (fun updates =>
  let updates :=
    match isArchived with
    | Some _ => set updates "isArchived" (JBool (js_Boolean isArchived))
    | None => updates
    end in
  let updates :=
    match isTop with
    | Some _ => set updates "isTop" (JBool (js_Boolean isTop))
    | None => updates
    end in
  inr updates)).

(** The [noteType] of the [search_blinko_notes] case. *)
Definition search_noteType (type : option json) : number :=
  if strict_eq_literal type (num 0) || strict_eq_literal type (num 1)
     || strict_eq_literal type (num 2)
  then match type with Some (JNum n) => n | _ => num (-1) end
  else num (-1).

(** [x ? String(x) : null] of the two dates of a search. *)
Definition date_or_null (x : option json) : exn + option string :=
  if js_Boolean x then and_then (js_String rt x) (fun s => inr (Some s))
  else inr None.

(** The parameters the [search_blinko_notes] case hands to
    [searchNotes]; building them throws where [Number(size)],
    [String(startDate)] or [String(endDate)] throws. *)
Definition search_params (searchText : string) (arguments : option object)
  : exn + SearchNotesParams :=
  let size := arg arguments "size" in
  let type := arg arguments "type" in
  let isArchived := arg arguments "isArchived" in
  let isRecycle := arg arguments "isRecycle" in
  let isUseAiQuery := arg arguments "isUseAiQuery" in
  let startDate := arg arguments "startDate" in
  let endDate := arg arguments "endDate" in
  let hasTodo := arg arguments "hasTodo" in
  let noteType := search_noteType type in
  and_then (js_Number rt size) (fun sizeNumber =>
  and_then (date_or_null startDate) (fun start =>
  and_then (date_or_null endDate) (fun finish =>
  inr {| sp_searchText := searchText;
         sp_size := if truthy_number sizeNumber then Some sizeNumber else None;
         sp_type := Some noteType;
         sp_isArchived := Some (js_Boolean isArchived);
         sp_isRecycle := Some (js_Boolean isRecycle);
         sp_isUseAiQuery := Some (not_false isUseAiQuery);
         sp_startDate := start;
         sp_endDate := finish;
         sp_hasTodo := Some (js_Boolean hasTodo) |}))).

(** The handler of [CallToolRequestSchema]: [domain] and [apiKey] are the
    two configured values, [name] and [arguments] are
    [request.params.name] and [request.params.arguments]. The result is
    the [text] of each block of [content], in order. *)
Definition CallTool (domain apiKey : string) (name : string)
    (arguments : option object) : Async (list string) :=
  if falsy_string domain then throw (Error "Blinko domain not set")
  else if falsy_string apiKey then throw (Error "Blinko API key not set")
  else
  match new_BlinkoClient domain apiKey with
  | inl e => throw e
  | inr blinko =>
    if (name =? "upsert_blinko_flash_note") || (name =? "upsert_blinko_note")
       || (name =? "upsert_blinko_todo") then
      content <- lift (js_String rt (arg arguments "content")) ;;
      if falsy_string content then throw (Error "Content is required")
      else
        let type :=
          if name =? "upsert_blinko_flash_note" then num 0
          else if name =? "upsert_blinko_note" then num 1
          else num 2 in
        note <- upsertNote rt blinko content (Some type) ;;
        ret [ "Successfully wrote note to Blinko. Note ID: "
              ++ NumberToString rt (note_id note) ]
    else if name =? "update_blinko_note" then
      noteId <- lift (js_Number rt (arg arguments "noteId")) ;;
      if negb (truthy_number noteId) || isNaN noteId
      then throw (Error "Valid note ID is required")
      else
        updates <- lift (build_updates arguments) ;;
        _ <- updateNote blinko noteId updates ;;
        ret [ "Successfully updated note " ++ NumberToString rt noteId ]
    else if name =? "delete_blinko_note" then
      noteId <- lift (js_Number rt (arg arguments "noteId")) ;;
      if negb (truthy_number noteId) || isNaN noteId
      then throw (Error "Valid note ID is required")
      else
        _ <- deleteNote blinko noteId ;;
        ret [ "Successfully deleted note " ++ NumberToString rt noteId ]
    else if (name =? "archive_blinko_note") || (name =? "complete_blinko_todo") then
      noteId <- lift (js_Number rt (arg arguments "noteId")) ;;
      if negb (truthy_number noteId) || isNaN noteId
      then throw (Error "Valid note ID is required")
      else
        _ <- archiveNote blinko noteId ;;
        let action :=
          if name =? "complete_blinko_todo" then "completed" else "archived" in
        ret [ "Successfully " ++ action ++ " note " ++ NumberToString rt noteId ]
    else if name =? "search_blinko_notes" then
      searchText <- lift (js_String rt (arg arguments "searchText")) ;;
      if falsy_string searchText then throw (Error "Search text is required")
      else
        params <- lift (search_params searchText arguments) ;;
        notes <- searchNotes rt blinko params ;;
        ret (("Found " ++ decimal (N.of_nat (List.length notes)) ++ " note(s):")
             :: map note_block notes)
    else if name =? "review_blinko_daily_notes" then
      notes <- getDailyReviewNotes rt blinko ;;
      ret (("Found " ++ decimal (N.of_nat (List.length notes))
            ++ " note(s) for today's review:")
           :: map note_block notes)
    else if name =? "share_blinko_note" then
      noteId <- lift (js_Number rt (arg arguments "noteId")) ;;
      if negb (truthy_number noteId) || isNaN noteId
      then throw (Error "Valid note ID is required")
      else
        let password := arg arguments "password" in
        let isCancel := arg arguments "isCancel" in
        passwordStr <- lift (if js_Boolean password then js_String rt password
                             else inr "") ;;
        if negb (falsy_string passwordStr) && negb (six_digits passwordStr)
        then throw (Error "Password must be exactly 6 digits")
        else
          result <- shareNote rt blinko
                      {| shp_id := noteId;
                         shp_password := Some passwordStr;
                         shp_isCancel := Some (js_Boolean isCancel) |} ;;
          if share_isShare result then
            ret (List.app
                   [ "Successfully shared note (ID: "
                     ++ NumberToString rt (share_id result) ++ ")" ]
                (List.app
                   (match share_sharePassword result with
                    | Some p => if falsy_string p then []
                                else [ "Share password: " ++ p ]
                    | None => []
                    end)
                   [ "Share link: "
                     ++ match share_shareEncryptedUrl result with
                        | Some u => if falsy_string u then "N/A" else u
                        | None => "N/A"
                        end ]))
          else
            ret [ "Successfully cancelled sharing for note (ID: "
                  ++ NumberToString rt (share_id result) ++ ")" ]
    else if name =? "clear_blinko_recycle_bin" then
      result <- clearRecycleBin blinko ;;
      if negb (success result) then throw (Error "Failed to clear recycle bin")
      else ret [ "Successfully cleared Blinko recycle bin." ]
    else throw (Error "Unknown tool")
  end.

End Dispatcher.

(* ================================================================= *)
(** ** index.ts: the command line and the configuration *)

(** [s.split(sep)] for a separator of one character. *)
Fixpoint split (sep : ascii) (s : string) : list string :=
  match s with
  | EmptyString => [EmptyString]
  | String c rest =>
      if Ascii.eqb c sep then EmptyString :: split sep rest
      else match split sep rest with
           | first :: others => String c first :: others
           | [] => [String c EmptyString]
           end
  end.

(** [s.slice(n)]. *)
Fixpoint slice (n : nat) (s : string) : string :=
  match n, s with
  | O, _ => s
  | S n', EmptyString => EmptyString
  | S n', String _ rest => slice n' rest
  end.

(** The [args] record of [parseArgs], used as a map: the newest binding
    of a key comes first, and a value is [None] where the source stores
    [undefined]. *)
Definition Flags : Type := list (string * option string).

(** [args.k]. *)
Fixpoint flag (args : Flags) (k : string) : option string :=
  match args with
  | [] => None
  | (k', v) :: rest => if String.eqb k' k then v else flag rest k
  end.

(** The body of the [forEach] of [parseArgs]. *)
Definition parseArg (args : Flags) (a : string) : Flags :=
  if prefix "--" a then
    let parts := split "=" (slice 2 a) in
    (hd EmptyString parts, nth_error parts 1) :: args
  else args.

(** [parseArgs()], [argv] being [process.argv]. *)
Definition parseArgs (argv : list string) : Flags :=
  fold_left parseArg (skipn 2 argv) [].

(** [a || b || ""] where [a] and [b] may be [undefined]. *)
Definition first_truthy (a b : option string) : string :=
  match a with
  | Some s => if falsy_string s
              then match b with
                   | Some e => if falsy_string e then "" else e
                   | None => ""
                   end
              else s
  | None => match b with
            | Some e => if falsy_string e then "" else e
            | None => ""
            end
  end.

(** The two variables of [process.env] the server reads. *)
Record Env : Type := mkEnv {
  BLINKO_DOMAIN : option string;
  BLINKO_API_KEY : option string
}.

(** The module constants [domain] and [apiKey]. *)
Definition configured_domain (argv : list string) (env : Env) : string :=
  first_truthy (flag (parseArgs argv) "blinko_domain") (BLINKO_DOMAIN env).

Definition configured_apiKey (argv : list string) (env : Env) : string :=
  first_truthy (flag (parseArgs argv) "blinko_api_key") (BLINKO_API_KEY env).

(** A tool call on the server started with [argv] and [env]. *)
Definition serve (rt : Runtime) (argv : list string) (env : Env)
    (name : string) (arguments : option object) : Async (list string) :=
  CallTool rt (configured_domain argv env) (configured_apiKey argv env)
    name arguments.

(* ================================================================= *)
(** ** index.ts: the tool catalog *)

(** One property of an [inputSchema]: its name, its [type], and its
    [enum] and [pattern] where it has one. *)
Record Property : Type := mkProperty {
  prop_name : string;
  prop_type : string;
  prop_enum : option (list Z);
  prop_pattern : option string
}.

(** One entry of the [ListToolsRequestSchema] result, without the
    free-text descriptions; [tool_required] is empty where the schema has
    no [required]. *)
Record Tool : Type := mkTool {
  tool_name : string;
  tool_properties : list Property;
  tool_required : list string
}.

Definition plain (name type : string) : Property :=
  mkProperty name type None None.

(** The [tools] array of the [ListToolsRequestSchema] handler. *)
Definition ListTools : list Tool :=
  [ mkTool "upsert_blinko_flash_note" [plain "content" "string"] ["content"];
    mkTool "upsert_blinko_note" [plain "content" "string"] ["content"];
    mkTool "upsert_blinko_todo" [plain "content" "string"] ["content"];
    mkTool "update_blinko_note"
      [ plain "noteId" "number";
        plain "content" "string";
        mkProperty "type" "number" (Some [0; 1; 2]%Z) None;
        plain "isArchived" "boolean";
        plain "isTop" "boolean" ]
      ["noteId"];
    mkTool "delete_blinko_note" [plain "noteId" "number"] ["noteId"];
    mkTool "archive_blinko_note" [plain "noteId" "number"] ["noteId"];
    mkTool "complete_blinko_todo" [plain "noteId" "number"] ["noteId"];
    mkTool "share_blinko_note"
      [ plain "noteId" "number";
        mkProperty "password" "string" None (Some "^\d{6}$");
        plain "isCancel" "boolean" ]
      ["noteId"];
    mkTool "search_blinko_notes"
      [ plain "searchText" "string";
        plain "size" "number";
        mkProperty "type" "number" (Some [-1; 0; 1; 2]%Z) None;
        plain "isArchived" "boolean";
        plain "isRecycle" "boolean";
        plain "isUseAiQuery" "boolean";
        plain "startDate" "string";
        plain "endDate" "string";
        plain "hasTodo" "boolean" ]
      ["searchText"];
    mkTool "review_blinko_daily_notes" [] [];
    mkTool "clear_blinko_recycle_bin" [] [] ].

(* ================================================================= *)
(** ** A small engine and service to run the model on examples *)

(** Reads a run of decimal digits; [None] at any other character. *)
Fixpoint read_digits (acc : Z) (s : string) : option Z :=
  match s with
  | EmptyString => Some acc
  | String c rest =>
      if is_digit c
      then read_digits (10 * acc + Z.of_nat (nat_of_ascii c) - 48) rest
      else None
  end.

(** [Number(s)] restricted to what the examples use: the empty string,
    ["Infinity"] and unsigned integer literals; anything else reads as
    NaN. *)
Definition example_StringToNumber (s : string) : number :=
  if String.eqb s "" then num 0
  else if String.eqb s "Infinity" then Infinity
  else match read_digits 0 s with
       | Some z => num z
       | None => NaN
       end.

Fixpoint zeros (k : nat) : string :=
  match k with
  | O => ""
  | S k' => "0" ++ zeros k'
  end.

Fixpoint drop_trailing_zeros (s : string) : string :=
  match s with
  | EmptyString => EmptyString
  | String c rest =>
      let rest' := drop_trailing_zeros rest in
      if String.eqb rest' "" && Ascii.eqb c "0" then EmptyString
      else String c rest'
  end.

(** [String(n)] as the exact decimal expansion of the number: what the
    engine prints for integers below 2^53 and for short binary fractions,
    which is all the examples use. *)
Definition example_NumberToString (n : number) : string :=
  match n with
  | S754_nan => "NaN"
  | S754_infinity false => "Infinity"
  | S754_infinity true => "-Infinity"
  | S754_zero _ => "0"
  | S754_finite s m e =>
      let sign := if s then "-" else "" in
      if (0 <=? e)%Z
      then sign ++ decimal (N.pos m * 2 ^ Z.to_N e)
      else
        let k := Z.to_N (- e) in
        let d := (2 ^ k)%N in
        let whole := decimal (N.pos m / d) in
        if (N.pos m mod d =? 0)%N then sign ++ whole
        else
          let digits := decimal ((N.pos m mod d) * 5 ^ k) in
          let padded := zeros (N.to_nat k - String.length digits) ++ digits in
          sign ++ whole ++ "." ++ drop_trailing_zeros padded
  end.

(** Days from 1970-01-01 to the given civil date (proleptic Gregorian). *)
Definition days_from_civil (y m d : Z) : Z :=
  let y := if (m <=? 2)%Z then (y - 1)%Z else y in
  let era := (y / 400)%Z in
  let yoe := (y - era * 400)%Z in
  let mp := ((m + 9) mod 12)%Z in
  let doy := ((153 * mp + 2) / 5 + d - 1)%Z in
  let doe := (yoe * 365 + yoe / 4 - yoe / 100 + doy)%Z in
  (era * 146097 + doe - 719468)%Z.

(** [new Date(s)] restricted to the date-only form [YYYY-MM-DD] (midnight
    UTC); any other string is not recognised. *)
Definition example_Date_parse (s : string) : option Z :=
  if negb (Nat.eqb (String.length s) 10) then None
  else if negb (String.eqb (substring 4 1 s) "-" && String.eqb (substring 7 1 s) "-")
  then None
  else
    match read_digits 0 (substring 0 4 s), read_digits 0 (substring 5 2 s),
          read_digits 0 (substring 8 2 s) with
    | Some y, Some m, Some d =>
        if ((1 <=? m) && (m <=? 12) && (1 <=? d) && (d <=? 31))%Z
        then Some (days_from_civil y m d * 86400000)%Z
        else None
    | _, _, _ => None
    end.

(** A locale that prints a time value as its count of milliseconds. *)
Definition example_Date_localeString (t : Z) : string :=
  (if (t <? 0)%Z then "-" else "") ++ decimal (Z.abs_N t) ++ " ms".

(** An engine whose [resp.json()] decodes every body to the given notes
    (the first of them where one note is expected). *)
Definition example_runtime (notes : list Note) : Runtime :=
  {| StringToNumber := example_StringToNumber;
     NumberToString := example_NumberToString;
     Date_parse := example_Date_parse;
     Date_localeString := example_Date_localeString;
     json_notes := fun _ => Some notes;
     json_note := fun _ => hd_error notes;
     json_share := fun _ => None;
     json_rejection := fun _ => "Unexpected end of JSON input" |}.

(** The same engine, with a [resp.json()] that decodes every body to the
    given share result. *)
Definition example_share_runtime (result : ShareNoteResult) : Runtime :=
  {| StringToNumber := example_StringToNumber;
     NumberToString := example_NumberToString;
     Date_parse := example_Date_parse;
     Date_localeString := example_Date_localeString;
     json_notes := fun _ => None;
     json_note := fun _ => None;
     json_share := fun _ => Some result;
     json_rejection := fun _ => "Unexpected end of JSON input" |}.

(** A service that answers every request with the given status and body. *)
Definition answering (st : N) (body : string) : Transport :=
  fun _ => Reply (mkResponse st body).

(** A service that cannot be reached. *)
Definition unreachable (reason : string) : Transport :=
  fun _ => NetworkFailure reason.

(** A call of [update_blinko_note] that supplies [content] and [isTop]
    next to an argument the tool does not know. *)
Definition example_update_arguments : option object :=
  Some [ ("noteId", JNum (num 5)); ("isTop", JBool true);
         ("isRecycle", JBool true); ("content", JStr "hello") ].

(** A note as a service may return it. *)
Definition example_note : Note :=
  {| note_id := num 42; note_type := num 2; note_content := "buy milk";
     note_isArchived := false; note_isRecycle := false; note_isShare := false;
     note_isTop := false; note_isReviewed := false;
     note_createdAt := "not-a-date"; note_updatedAt := "2024-01-01" |}.

(* ================================================================= *)
(** ** Vocabulary of the properties *)

(** [+0] or [-0]. *)
Definition is_zero (x : number) : bool :=
  match x with S754_zero _ => true | _ => false end.

(** The caller put key [k] in the argument bag. *)
Definition supplied (arguments : option object) (k : string) : bool :=
  match arg arguments k with Some _ => true | None => false end.

(** The optional fields of [update_blinko_note], in the order the handler
    reads them. *)
Definition update_fields : list string :=
  ["content"; "type"; "isArchived"; "isTop"].

(** The tools that take a [noteId]. *)
Definition noteId_tools : list string :=
  ["update_blinko_note"; "delete_blinko_note"; "archive_blinko_note";
   "complete_blinko_todo"; "share_blinko_note"].

(** The body of a single-item batched call around [inner]. *)
Definition batch_of (inner : object) : json :=
  JObj [("0", JObj [("json", JObj inner)])].

(** Field [k] of a request whose body is a JSON object. *)
Definition body_field (req : Request) (k : string) : option json :=
  match req_body req with
  | Some (JObj fields) => get fields k
  | _ => None
  end.

(** The request [updateNote] issues. *)
Definition update_request (this : BlinkoClient) (noteId : number)
    (updates : object) : Request :=
  mkRequest "POST" (baseUrl this ++ "/api/trpc/notes.upsert?batch=1")
    [json_content; bearer this]
    (Some (JSON_stringify (batch_of (spread [("id", JNum noteId)] updates)))).

(** The object [{ id: noteId, ...updates }] as it is written. *)
Definition update_inner (noteId : number) (updates : object) : object :=
  map (fun kv => (fst kv, JSON_stringify (snd kv)))
      (spread [("id", JNum noteId)] updates).

(** What [archive_blinko_note] and [complete_blinko_todo] do once the
    configuration check has passed, [action] being the word of the
    confirmation. *)
Definition archive_outcome (rt : Runtime) (this : BlinkoClient)
    (noteId : number) (net : Transport) (action : string)
  : list Request * (exn + list string) :=
  if truthy_number noteId then
    ([update_request this noteId [("isArchived", JBool true)]],
     match net (update_request this noteId [("isArchived", JBool true)]) with
     | NetworkFailure reason => inl (Rejected reason)
     | Reply resp =>
         if ok resp
         then inr ["Successfully " ++ action ++ " note " ++ NumberToString rt noteId]
         else inl (Error ("Failed to update note: " ++ decimal (status resp)
                          ++ ": " ++ text resp))
     end)
  else ([], inl (Error "Valid note ID is required")).

(** The request [deleteNote] issues. *)
Definition delete_request (this : BlinkoClient) (noteId : number) : Request :=
  mkRequest "POST" (baseUrl this ++ "/api/trpc/notes.deleteMany?batch=1")
    [json_content; bearer this]
    (Some (JSON_stringify (batch_of [("ids", JArr [JNum noteId])]))).

(** The request [shareNote] issues. *)
Definition share_request (this : BlinkoClient) (params : ShareNoteParams)
  : Request :=
  mkRequest "POST" (baseUrl this ++ "/api/v1/note/share")
    [json_content; bearer this]
    (Some (JSON_stringify (JObj
       [ ("id", JNum (shp_id params));
         ("isCancel", JBool (nullish (shp_isCancel params) false));
         ("password", JStr (nullish (shp_password params) "")) ]))).

(** The request [upsertNote] issues for a non-empty content. *)
Definition upsert_request (this : BlinkoClient) (content : string)
    (type : number) : Request :=
  mkRequest "POST" (baseUrl this ++ "/api/v1/note/upsert")
    [json_content; bearer this]
    (Some (JSON_stringify (JObj [("content", JStr content); ("type", JNum type)]))).

(** The request [searchNotes] issues. *)
Definition search_request (this : BlinkoClient) (params : SearchNotesParams)
  : Request :=
  mkRequest "POST" (baseUrl this ++ "/api/v1/note/list")
    [json_content; bearer this]
    (Some (JSON_stringify (JObj
       [ ("size", JNum (nullish (sp_size params) (num 5)));
         ("type", JNum (nullish (sp_type params) (num (-1))));
         ("isArchived", JBool (nullish (sp_isArchived params) false));
         ("isRecycle", JBool (nullish (sp_isRecycle params) false));
         ("searchText", JStr (sp_searchText params));
         ("isUseAiQuery", JBool (nullish (sp_isUseAiQuery params) true));
         ("startDate",
           match sp_startDate params with Some d => JStr d | None => JNull end);
         ("endDate",
           match sp_endDate params with Some d => JStr d | None => JNull end);
         ("hasTodo", JBool (nullish (sp_hasTodo params) false)) ]))).

(** The request [getDailyReviewNotes] issues. *)
Definition review_request (this : BlinkoClient) : Request :=
  mkRequest "GET" (baseUrl this ++ "/api/v1/note/daily-review-list")
    [bearer this] None.

(** The request [clearRecycleBin] issues. *)
Definition clear_request (this : BlinkoClient) : Request :=
  mkRequest "POST" (baseUrl this ++ "/api/v1/note/clear-recycle-bin")
    [bearer this] None.

(** The message of the error branch most operations share. *)
Definition request_failed (resp : Response) : string :=
  "request failed with status " ++ decimal (status resp) ++ ": " ++ text resp.

(** The [passwordStr] the [share_blinko_note] case checks and forwards;
    it throws where [String(password)] throws. *)
Definition share_password (rt : Runtime) (arguments : option object)
  : exn + string :=
  if js_Boolean (arg arguments "password")
  then js_String rt (arg arguments "password") else inr "".

(** The password check of [share_blinko_note] lets the text through. *)
Definition password_accepted (passwordStr : string) : bool :=
  falsy_string passwordStr || six_digits passwordStr.

(** What the handler does with its arguments between the note id check
    and the client call succeeds: [update_blinko_note] builds its updates
    without a throw, [share_blinko_note] obtains a password text that its
    check accepts, and the other tools have nothing to do. *)
Definition other_arguments_pass (rt : Runtime) (name : string)
    (arguments : option object) : Prop :=
  if name =? "update_blinko_note"
  then exists updates, build_updates rt arguments = inr updates
  else if name =? "share_blinko_note"
  then exists passwordStr, share_password rt arguments = inr passwordStr
                           /\ password_accepted passwordStr = true
  else True.

(** The optional arguments of a search that are coerced by [Number] or
    [String] convert without a throw. *)
Definition search_options_convert (rt : Runtime) (arguments : option object)
  : Prop :=
  (exists size, js_Number rt (arg arguments "size") = inr size)
  /\ (exists start, date_or_null rt (arg arguments "startDate") = inr start)
  /\ (exists finish, date_or_null rt (arg arguments "endDate") = inr finish).

(** One request, and how it ends: the rejection of [fetch], the error of
    a reply outside 200..299 with the given opening words, or what
    [on_ok] makes of a 2xx reply. *)
Definition after_request {A} (net : Transport) (req : Request) (lead : string)
    (on_ok : Response -> exn + A) : list Request * (exn + A) :=
  ([req],
   match net req with
   | NetworkFailure reason => inl (Rejected reason)
   | Reply resp =>
       if ok resp then on_ok resp
       else inl (Error (lead ++ decimal (status resp) ++ ": " ++ text resp))
   end).

(** [sub] occurs in [s]. *)
Definition occurs_in (sub s : string) : Prop :=
  exists before after, s = before ++ sub ++ after.

(** An operation failed with an [Error] whose message holds both the
    status code and the body text of [resp]. *)
Definition fails_with_status_and_body {A} (resp : Response) (r : exn + A) : Prop :=
  exists message,
    r = inl (Error message)
    /\ occurs_in (decimal (status resp)) message
    /\ occurs_in (text resp) message.

(** The three tools that create a note, and the type each one writes. *)
Definition upsert_tools : list string :=
  ["upsert_blinko_flash_note"; "upsert_blinko_note"; "upsert_blinko_todo"].

Definition upsert_type (name : string) : number :=
  if name =? "upsert_blinko_flash_note" then num 0
  else if name =? "upsert_blinko_note" then num 1
  else num 2.

(** The names of the catalog. *)
Definition tool_names : list string := map tool_name ListTools.

(** The messages of the argument checks of the handler. *)
Definition validation_messages : list string :=
  [ "Content is required"; "Valid note ID is required";
    "Search text is required"; "Password must be exactly 6 digits" ].

(** [req] is one of the requests the client [this] builds. *)
Definition issued_by (this : BlinkoClient) (req : Request) : Prop :=
  (exists params, req = search_request this params)
  \/ req = review_request this
  \/ req = clear_request this
  \/ (exists content type, req = upsert_request this content type)
  \/ (exists noteId updates, req = update_request this noteId updates)
  \/ (exists noteId, req = delete_request this noteId)
  \/ (exists params, req = share_request this params).

(** The words that open the message of an error branch of the client. *)
Definition error_leads : list string :=
  [ "request failed with status "; "Failed to update note: ";
    "Failed to delete note: " ].

(** How a tool call that issued [req] ends, by what the service did with
    the request. *)
Definition settled (net : Transport) (req : Request)
    (result : exn + list string) : Prop :=
  match net req with
  | NetworkFailure reason => result = inl (Rejected reason)
  | Reply resp =>
      if ok resp
      then (exists blocks, result = inr blocks /\ blocks <> [])
           \/ (exists reason, result = inl (Rejected reason))
      else exists lead,
             In lead error_leads
             /\ result = inl (Error (lead ++ decimal (status resp) ++ ": "
                                     ++ text resp))
  end.

(** The [enum] the catalog declares for property [prop] of tool [name]. *)
Definition schema_enum (name prop : string) : option (list Z) :=
  match find (fun t => tool_name t =? name) ListTools with
  | Some t =>
      match find (fun p => prop_name p =? prop) (tool_properties t) with
      | Some p => prop_enum p
      | None => None
      end
  | None => None
  end.

(** Every message with which a call is refused before any request. *)
Definition refusal_messages : list string :=
  "Blinko domain not set" :: "Blinko API key not set" :: "Unknown tool"
  :: validation_messages.

(** No ["="] in [s]. *)
Fixpoint no_equals (s : string) : bool :=
  match s with
  | EmptyString => true
  | String c rest => negb (Ascii.eqb c "=") && no_equals rest
  end.

(* ================================================================= *)
(** ** Strings *)

Lemma append_assoc (a b c : string) : (a ++ b) ++ c = a ++ (b ++ c).
Proof.
  induction a as [|x a IH]; simpl; [reflexivity | now rewrite IH].
Qed.

Lemma append_empty_r (a : string) : a ++ "" = a.
Proof.
  induction a as [|x a IH]; simpl; [reflexivity | now rewrite IH].
Qed.

Lemma append_nonempty_r (a b : string) : b <> "" -> a ++ b <> "".
Proof.
  intros Hb; destruct a; simpl; [exact Hb | discriminate].
Qed.

Lemma falsy_string_false (s : string) : s <> "" -> falsy_string s = false.
Proof.
  intros Hs. unfold falsy_string. apply String.eqb_neq. exact Hs.
Qed.

Lemma falsy_string_true (s : string) : falsy_string s = true -> s = "".
Proof.
  unfold falsy_string. apply String.eqb_eq.
Qed.

Lemma strip_trailing_slash_cons (c : ascii) (s : string) :
  s <> "" -> strip_trailing_slash (String c s) = String c (strip_trailing_slash s).
Proof.
  destruct s; [intros H; now elim H | reflexivity].
Qed.

(** The slash is taken from the end: a non-empty tail absorbs it. *)
Lemma strip_trailing_slash_app (a b : string) :
  b <> "" -> strip_trailing_slash (a ++ b) = a ++ strip_trailing_slash b.
Proof.
  intros Hb. induction a as [|c a IH]; [reflexivity|].
  change (String c a ++ b) with (String c (a ++ b)).
  rewrite strip_trailing_slash_cons by now apply append_nonempty_r.
  now rewrite IH.
Qed.

Lemma prefix_nil_r (p : string) : prefix p "" = true -> p = "".
Proof.
  destruct p; [reflexivity | discriminate].
Qed.

(** What starts the stripped string starts the string. *)
Lemma prefix_strip (p d : string) :
  prefix p (strip_trailing_slash d) = true -> prefix p d = true.
Proof.
  revert p. induction d as [|c d IH]; intros p H; [exact H|].
  destruct d as [|c' d'].
  - simpl in H. destruct (Ascii.eqb c "/"); [|exact H].
    apply prefix_nil_r in H. now subst p.
  - rewrite strip_trailing_slash_cons in H by discriminate.
    destruct p as [|a p]; [reflexivity|].
    simpl in H |- *. destruct (ascii_dec a c); [|discriminate].
    now apply IH.
Qed.

Lemma prefix_append (p s : string) : prefix p (p ++ s) = true.
Proof.
  induction p as [|a p IH]; simpl.
  - now destruct s.
  - destruct (ascii_dec a a) as [_|n]; [exact IH | now elim n].
Qed.

Lemma occurs_in_middle (a sub b : string) : occurs_in sub (a ++ sub ++ b).
Proof.
  now exists a, b.
Qed.

Lemma occurs_in_end (a sub : string) : occurs_in sub (a ++ sub).
Proof.
  exists a, "". now rewrite append_empty_r.
Qed.

(* ================================================================= *)
(** ** Domain normalisation *)

(** A domain with no scheme gets [https://] in front of its stripped
    form. *)
Lemma normalizeDomain_bare (domain : string) :
  domain <> "" ->
  prefix "http://" domain = false ->
  prefix "https://" domain = false ->
  normalizeDomain domain = inr ("https://" ++ strip_trailing_slash domain).
Proof.
  intros Hne Hhttp Hhttps. unfold normalizeDomain.
  rewrite falsy_string_false by exact Hne.
  destruct (prefix "http://" (strip_trailing_slash domain)) eqn:E1.
  - apply prefix_strip in E1. congruence.
  - destruct (prefix "https://" (strip_trailing_slash domain)) eqn:E2;
      [apply prefix_strip in E2; congruence | reflexivity].
Qed.

(** A scheme followed by at least one character survives the stripping. *)
Lemma normalizeDomain_scheme (scheme rest : string) :
  scheme = "http://" \/ scheme = "https://" ->
  rest <> "" ->
  normalizeDomain (scheme ++ rest) = inr (strip_trailing_slash (scheme ++ rest)).
Proof.
  intros Hs Hrest. unfold normalizeDomain.
  rewrite falsy_string_false by now apply append_nonempty_r.
  rewrite strip_trailing_slash_app by exact Hrest.
  destruct Hs as [-> | ->].
  - now rewrite prefix_append.
  - rewrite (prefix_append "https://"). now rewrite orb_true_r.
Qed.

(** C5 (as amended). For every non-empty domain without an [http://] or
    [https://] prefix the base URL is ["https://"] followed by the domain
    with one trailing slash removed; for every domain made of [http://] or
    [https://] followed by at least one more character the base URL is
    the domain with one trailing slash removed. *)
Theorem normalizeDomain_spec (domain : string) :
  (domain <> "" ->
   prefix "http://" domain = false ->
   prefix "https://" domain = false ->
   normalizeDomain domain = inr ("https://" ++ strip_trailing_slash domain))
  /\
  (forall scheme rest,
     scheme = "http://" \/ scheme = "https://" ->
     rest <> "" ->
     domain = scheme ++ rest ->
     normalizeDomain domain = inr (strip_trailing_slash domain)).
Proof.
  split.
  - apply normalizeDomain_bare.
  - intros scheme rest Hs Hrest ->. now apply normalizeDomain_scheme.
Qed.

(** Both halves of [normalizeDomain_spec] at work: a bare host with a
    trailing slash, and a full URL with a port and a trailing slash. *)
Lemma normalizeDomain_spec_witness :
  ("example.com/" <> ""
   /\ prefix "http://" "example.com/" = false
   /\ prefix "https://" "example.com/" = false
   /\ normalizeDomain "example.com/" = inr "https://example.com")
  /\
  (("http://" = "http://" \/ "http://" = "https://")
   /\ "example.com:3000/" <> ""
   /\ normalizeDomain "http://example.com:3000/" = inr "http://example.com:3000").
Proof.
  split.
  - assert (Hne : "example.com/" <> "") by discriminate.
    assert (H1 : prefix "http://" "example.com/" = false) by reflexivity.
    assert (H2 : prefix "https://" "example.com/" = false) by reflexivity.
    refine (conj Hne (conj H1 (conj H2 _))).
    exact (proj1 (normalizeDomain_spec "example.com/") Hne H1 H2).
  - assert (Hs : "http://" = "http://" \/ "http://" = "https://") by (left; reflexivity).
    assert (Hr : "example.com:3000/" <> "") by discriminate.
    refine (conj Hs (conj Hr _)).
    exact (proj2 (normalizeDomain_spec "http://example.com:3000/")
             "http://" "example.com:3000/" Hs Hr eq_refl).
Defined.

(** C5 as stated fails at a domain that is a scheme and nothing else:
    ["http://"] starts with [http://], yet the base URL is not the input
    minus its trailing slash (["http:/"]) but ["https://http:/"]. *)
Lemma normalizeDomain_scheme_only :
  prefix "http://" "http://" = true
  /\ strip_trailing_slash "http://" = "http:/"
  /\ normalizeDomain "http://" = inr "https://http:/"
  /\ normalizeDomain "http://" <> inr (strip_trailing_slash "http://").
Proof.
  split; [reflexivity|]. split; [reflexivity|]. split; [reflexivity|].
  discriminate.
Qed.

(* ================================================================= *)
(** ** Numbers *)

Lemma truthy_number_spec (x : number) :
  truthy_number x = false <-> isNaN x = true \/ is_zero x = true.
Proof.
  destruct x; simpl; split; intros H; try discriminate; auto;
    destruct H; discriminate.
Qed.

Lemma truthy_not_NaN (x : number) : truthy_number x = true -> isNaN x = false.
Proof.
  destruct x; simpl; intros H; (reflexivity || discriminate).
Qed.

(** The guard [!noteId || isNaN(noteId)] of the handler. *)
Lemma noteId_guard_spec (x : number) :
  negb (truthy_number x) || isNaN x = negb (truthy_number x).
Proof.
  now destruct x.
Qed.

(* ================================================================= *)
(** ** Running the client *)

Section ClientRuns.

Variable rt : Runtime.
Variable this : BlinkoClient.
Variable net : Transport.

(** [updateNote] issues [update_request] and nothing else, and answers
    [{ success: true }] exactly on a 2xx reply. *)
Lemma updateNote_run (noteId : number) (updates : object) (log : list Request) :
  updateNote this noteId updates net log =
  ((log ++ [update_request this noteId updates])%list,
   match net (update_request this noteId updates) with
   | NetworkFailure reason => inl (Rejected reason)
   | Reply resp =>
       if ok resp then inr (mkSuccessResult true)
       else inl (Error ("Failed to update note: " ++ decimal (status resp)
                        ++ ": " ++ text resp))
   end).
Proof.
  unfold updateNote, try_catch, bind, fetch, throw, ret.
  fold (batch_of (spread [("id", JNum noteId)] updates)).
  fold (update_request this noteId updates).
  destruct (net (update_request this noteId updates)) as [reason|resp];
    [reflexivity|].
  now destruct (ok resp).
Qed.

Ltac run_client :=
  unfold try_catch, bind, fetch, throw, ret, resp_json;
  match goal with
  | |- context [net ?r] =>
      destruct (net r) as [reason|resp]; [reflexivity|];
      destruct (ok resp); try reflexivity
  end.

Lemma deleteNote_run (noteId : number) (log : list Request) :
  deleteNote this noteId net log =
  ((log ++ [delete_request this noteId])%list,
   match net (delete_request this noteId) with
   | NetworkFailure reason => inl (Rejected reason)
   | Reply resp =>
       if ok resp then inr (mkSuccessResult true)
       else inl (Error ("Failed to delete note: " ++ decimal (status resp)
                        ++ ": " ++ text resp))
   end).
Proof.
  unfold deleteNote, delete_request, batch_of. run_client.
Qed.

Lemma clearRecycleBin_run (log : list Request) :
  clearRecycleBin this net log =
  ((log ++ [clear_request this])%list,
   match net (clear_request this) with
   | NetworkFailure reason => inl (Rejected reason)
   | Reply resp =>
       if ok resp then inr (mkSuccessResult true)
       else inl (Error (request_failed resp))
   end).
Proof.
  unfold clearRecycleBin, clear_request, request_failed. run_client.
Qed.

Lemma shareNote_run (params : ShareNoteParams) (log : list Request) :
  shareNote rt this params net log =
  ((log ++ [share_request this params])%list,
   match net (share_request this params) with
   | NetworkFailure reason => inl (Rejected reason)
   | Reply resp =>
       if ok resp then
         match json_share rt (text resp) with
         | Some r => inr r
         | None => inl (Rejected (json_rejection rt (text resp)))
         end
       else inl (Error (request_failed resp))
   end).
Proof.
  unfold shareNote, share_request, request_failed. run_client.
  destruct (json_share rt (text resp)) as [[i s p u]|]; reflexivity.
Qed.

Lemma searchNotes_run (params : SearchNotesParams) (log : list Request) :
  searchNotes rt this params net log =
  ((log ++ [search_request this params])%list,
   match net (search_request this params) with
   | NetworkFailure reason => inl (Rejected reason)
   | Reply resp =>
       if ok resp then
         match json_notes rt (text resp) with
         | Some notes => inr notes
         | None => inl (Rejected (json_rejection rt (text resp)))
         end
       else inl (Error (request_failed resp))
   end).
Proof.
  unfold searchNotes, search_request, request_failed. run_client.
  destruct (json_notes rt (text resp)); reflexivity.
Qed.

Lemma getDailyReviewNotes_run (log : list Request) :
  getDailyReviewNotes rt this net log =
  ((log ++ [review_request this])%list,
   match net (review_request this) with
   | NetworkFailure reason => inl (Rejected reason)
   | Reply resp =>
       if ok resp then
         match json_notes rt (text resp) with
         | Some notes => inr notes
         | None => inl (Rejected (json_rejection rt (text resp)))
         end
       else inl (Error (request_failed resp))
   end).
Proof.
  unfold getDailyReviewNotes, review_request, request_failed. run_client.
  destruct (json_notes rt (text resp)); reflexivity.
Qed.

(** [upsertNote] refuses an empty content before any request. *)
Lemma upsertNote_empty (type : option number) (log : list Request) :
  upsertNote rt this "" type net log = (log, inl (Error "invalid content")).
Proof. reflexivity. Qed.

Lemma upsertNote_run (content : string) (type : number) (log : list Request) :
  falsy_string content = false ->
  upsertNote rt this content (Some type) net log =
  ((log ++ [upsert_request this content type])%list,
   match net (upsert_request this content type) with
   | NetworkFailure reason => inl (Rejected reason)
   | Reply resp =>
       if ok resp then
         match json_note rt (text resp) with
         | Some note => inr note
         | None => inl (Rejected (json_rejection rt (text resp)))
         end
       else inl (Error (request_failed resp))
   end).
Proof.
  intros Hc. unfold upsertNote, upsert_request, request_failed.
  unfold try_catch at 1. rewrite Hc. fold (@try_catch Note).
  run_client.
  destruct (json_note rt (text resp)); reflexivity.
Qed.

End ClientRuns.

(* ================================================================= *)
(** ** Coercions that throw *)

(** What [String] throws is a TypeError. *)
Lemma ToString_throws rt : forall v e, ToString rt v = inl e -> e = TypeError.
Proof.
  induction v as [| b | n | s | items IH | fields _] using json_induction;
    intros e; simpl.
  - discriminate.
  - destruct b; discriminate.
  - discriminate.
  - discriminate.
  - induction IH as [|x rest Hx _ IHrest]; [discriminate|].
    destruct (match x with JNull => inr "" | _ => ToString rt x end)
      as [ex|sx] eqn:Ex.
    + intros H. assert (He : ex = e) by congruence. subst e.
      destruct x; try discriminate Ex; exact (Hx _ Ex).
    + destruct rest as [|y rest']; [discriminate|].
      revert IHrest.
      match goal with
      | |- (?J = _ -> _) -> _ => destruct J as [er|sr]
      end.
      * intros IHrest H. assert (He : er = e) by congruence. subst e.
        now apply IHrest.
      * discriminate.
  - destruct (get fields "toString"); [|discriminate].
    intros H. congruence.
Qed.

Lemma ToNumber_throws rt v e : ToNumber rt v = inl e -> e = TypeError.
Proof.
  unfold ToNumber.
  destruct v as [| b | n | s | items | fields]; try discriminate.
  - destruct b; discriminate.
  - destruct (ToString rt (JArr items)) as [e'|s] eqn:H; [|discriminate].
    intros H'. assert (He : e' = e) by congruence. subst e'.
    exact (ToString_throws rt _ _ H).
  - destruct (ToString rt (JObj fields)) as [e'|s] eqn:H; [|discriminate].
    intros H'. assert (He : e' = e) by congruence. subst e'.
    exact (ToString_throws rt _ _ H).
Qed.

Lemma js_String_throws rt x e : js_String rt x = inl e -> e = TypeError.
Proof.
  destruct x; simpl; [apply ToString_throws | discriminate].
Qed.

Lemma js_Number_throws rt x e : js_Number rt x = inl e -> e = TypeError.
Proof.
  destruct x; simpl; [apply ToNumber_throws | discriminate].
Qed.

Lemma date_or_null_throws rt x e : date_or_null rt x = inl e -> e = TypeError.
Proof.
  unfold date_or_null. destruct (js_Boolean x); [|discriminate].
  destruct (js_String rt x) as [e'|s] eqn:H; simpl; [|discriminate].
  intros H'. assert (He : e' = e) by congruence. subst e'.
  exact (js_String_throws rt _ _ H).
Qed.

Lemma share_password_throws rt arguments e :
  share_password rt arguments = inl e -> e = TypeError.
Proof.
  unfold share_password.
  destruct (js_Boolean (arg arguments "password")); [|discriminate].
  apply js_String_throws.
Qed.

(** The updates are built exactly when the supplied content and type
    convert, and they are then the coerced values under the supplied
    keys. *)
Lemma build_updates_spec rt arguments :
  match js_String rt (arg arguments "content"),
        js_Number rt (arg arguments "type") with
  | inr s, inr n =>
      build_updates rt arguments
      = inr (let updates : object := [] in
             let updates :=
               match arg arguments "content" with
               | Some _ => set updates "content" (JStr s)
               | None => updates
               end in
             let updates :=
               match arg arguments "type" with
               | Some _ => set updates "type" (JNum n)
               | None => updates
               end in
             let updates :=
               match arg arguments "isArchived" with
               | Some _ => set updates "isArchived"
                             (JBool (js_Boolean (arg arguments "isArchived")))
               | None => updates
               end in
             match arg arguments "isTop" with
             | Some _ => set updates "isTop"
                           (JBool (js_Boolean (arg arguments "isTop")))
             | None => updates
             end)
  | _, _ => build_updates rt arguments = inl TypeError
  end.
Proof.
  unfold build_updates.
  destruct (arg arguments "content") as [c|] eqn:Hc;
    destruct (arg arguments "type") as [t|] eqn:Ht.
  - destruct (js_String rt (Some c)) as [e|s] eqn:Es.
    + now rewrite (js_String_throws rt _ _ Es).
    + destruct (js_Number rt (Some t)) as [e|n] eqn:En; simpl.
      * now rewrite (js_Number_throws rt _ _ En).
      * reflexivity.
  - destruct (js_String rt (Some c)) as [e|s] eqn:Es.
    + now rewrite (js_String_throws rt _ _ Es).
    + reflexivity.
  - simpl js_String. destruct (js_Number rt (Some t)) as [e|n] eqn:En; simpl.
    + now rewrite (js_Number_throws rt _ _ En).
    + reflexivity.
  - reflexivity.
Qed.

Lemma build_updates_throws rt arguments e :
  build_updates rt arguments = inl e -> e = TypeError.
Proof.
  pose proof (build_updates_spec rt arguments) as H.
  destruct (js_String rt (arg arguments "content"));
    [|destruct (js_Number rt (arg arguments "type"))];
    rewrite H; intros H'; congruence.
Qed.

Lemma search_params_throws rt searchText arguments e :
  search_params rt searchText arguments = inl e -> e = TypeError.
Proof.
  unfold search_params.
  destruct (js_Number rt (arg arguments "size")) as [e1|n] eqn:E1; simpl.
  { intros H. assert (He : e1 = e) by congruence. subst e1.
    exact (js_Number_throws rt _ _ E1). }
  destruct (date_or_null rt (arg arguments "startDate")) as [e2|d1] eqn:E2; simpl.
  { intros H. assert (He : e2 = e) by congruence. subst e2.
    exact (date_or_null_throws rt _ _ E2). }
  destruct (date_or_null rt (arg arguments "endDate")) as [e3|d2] eqn:E3; simpl.
  { intros H. assert (He : e3 = e) by congruence. subst e3.
    exact (date_or_null_throws rt _ _ E3). }
  discriminate.
Qed.

(** The parameters of a search, where its options convert. *)
Lemma search_params_converts rt searchText arguments size start finish :
  js_Number rt (arg arguments "size") = inr size ->
  date_or_null rt (arg arguments "startDate") = inr start ->
  date_or_null rt (arg arguments "endDate") = inr finish ->
  search_params rt searchText arguments
  = inr {| sp_searchText := searchText;
           sp_size := if truthy_number size then Some size else None;
           sp_type := Some (search_noteType (arg arguments "type"));
           sp_isArchived := Some (js_Boolean (arg arguments "isArchived"));
           sp_isRecycle := Some (js_Boolean (arg arguments "isRecycle"));
           sp_isUseAiQuery := Some (not_false (arg arguments "isUseAiQuery"));
           sp_startDate := start;
           sp_endDate := finish;
           sp_hasTodo := Some (js_Boolean (arg arguments "hasTodo")) |}.
Proof.
  intros Hs H1 H2. unfold search_params. now rewrite Hs, H1, H2.
Qed.

(** The parameters of a search, when they are built, hold the search
    text, the type of the case and the coerced options. *)
Lemma search_params_built rt searchText arguments params :
  search_params rt searchText arguments = inr params ->
  exists size start finish,
    js_Number rt (arg arguments "size") = inr size
    /\ date_or_null rt (arg arguments "startDate") = inr start
    /\ date_or_null rt (arg arguments "endDate") = inr finish
    /\ params
       = {| sp_searchText := searchText;
            sp_size := if truthy_number size then Some size else None;
            sp_type := Some (search_noteType (arg arguments "type"));
            sp_isArchived := Some (js_Boolean (arg arguments "isArchived"));
            sp_isRecycle := Some (js_Boolean (arg arguments "isRecycle"));
            sp_isUseAiQuery := Some (not_false (arg arguments "isUseAiQuery"));
            sp_startDate := start;
            sp_endDate := finish;
            sp_hasTodo := Some (js_Boolean (arg arguments "hasTodo")) |}.
Proof.
  unfold search_params.
  destruct (js_Number rt (arg arguments "size")) as [e1|n]; [discriminate|].
  destruct (date_or_null rt (arg arguments "startDate")) as [e2|d1];
    [discriminate|].
  destruct (date_or_null rt (arg arguments "endDate")) as [e3|d2];
    [discriminate|].
  simpl. intros H. injection H as <-. now exists n, d1, d2.
Qed.

(* ================================================================= *)
(** ** Running the dispatcher *)

Lemma bind_lift {A B} (r : exn + A) (k : A -> Async B) net log :
  bind (lift r) k net log
  = match r with
    | inl e => (log, inl e)
    | inr a => k a net log
    end.
Proof. now destruct r. Qed.

Lemma normalizeDomain_total (domain : string) :
  falsy_string domain = false -> exists url, normalizeDomain domain = inr url.
Proof.
  intros H. unfold normalizeDomain. rewrite H.
  destruct (prefix "http://" (strip_trailing_slash domain)
            || prefix "https://" (strip_trailing_slash domain)); eauto.
Qed.

(** A handler stopped by the configuration check issues no request, and
    fails the same way whatever the tool. *)
Lemma CallTool_unconfigured rt domain apiKey name arguments net :
  falsy_string domain = true \/ falsy_string apiKey = true ->
  run (CallTool rt domain apiKey name arguments) net =
  ([], inl (Error (if falsy_string domain then "Blinko domain not set"
                   else "Blinko API key not set"))).
Proof.
  intros H. unfold run, CallTool.
  destruct (falsy_string domain); [reflexivity|].
  destruct H as [H|H]; [discriminate|]. now rewrite H.
Qed.

Section DispatcherRuns.

Variable rt : Runtime.
Variables domain apiKey url : string.
Variable arguments : option object.
Variable net : Transport.
Hypothesis domain_set : falsy_string domain = false.
Hypothesis apiKey_set : falsy_string apiKey = false.
Hypothesis base : normalizeDomain domain = inr url.

Let blinko : BlinkoClient := mkBlinkoClient url apiKey.

Ltac enter :=
  unfold run, CallTool, new_BlinkoClient;
  rewrite domain_set, apiKey_set, base; cbn [orb String.eqb Ascii.eqb Bool.eqb];
  rewrite ?bind_lift.

(** [update_blinko_note], step by step. *)
Lemma update_run :
  run (CallTool rt domain apiKey "update_blinko_note" arguments) net =
  match js_Number rt (arg arguments "noteId") with
  | inl e => ([], inl e)
  | inr noteId =>
      if truthy_number noteId then
        match build_updates rt arguments with
        | inl e => ([], inl e)
        | inr updates =>
            after_request net (update_request blinko noteId updates)
              "Failed to update note: "
              (fun _ => inr ["Successfully updated note "
                             ++ NumberToString rt noteId])
        end
      else ([], inl (Error "Valid note ID is required"))
  end.
Proof.
  enter.
  destruct (js_Number rt (arg arguments "noteId")) as [e|noteId]; [reflexivity|].
  rewrite noteId_guard_spec.
  destruct (truthy_number noteId); cbn [negb]; [|reflexivity].
  rewrite bind_lift.
  destruct (build_updates rt arguments) as [e|updates]; [reflexivity|].
  unfold bind, after_request. rewrite updateNote_run.
  now destruct (net _) as [r|resp]; [|destruct (ok resp)].
Qed.

(** [delete_blinko_note], step by step. *)
Lemma delete_run :
  run (CallTool rt domain apiKey "delete_blinko_note" arguments) net =
  match js_Number rt (arg arguments "noteId") with
  | inl e => ([], inl e)
  | inr noteId =>
      if truthy_number noteId then
        after_request net (delete_request blinko noteId)
          "Failed to delete note: "
          (fun _ => inr ["Successfully deleted note "
                         ++ NumberToString rt noteId])
      else ([], inl (Error "Valid note ID is required"))
  end.
Proof.
  enter.
  destruct (js_Number rt (arg arguments "noteId")) as [e|noteId]; [reflexivity|].
  rewrite noteId_guard_spec.
  destruct (truthy_number noteId); cbn [negb]; [|reflexivity].
  unfold bind, after_request. rewrite deleteNote_run.
  now destruct (net _) as [r|resp]; [|destruct (ok resp)].
Qed.

(** [archive_blinko_note] and [complete_blinko_todo], step by step. *)
Lemma archive_run :
  run (CallTool rt domain apiKey "archive_blinko_note" arguments) net =
  match js_Number rt (arg arguments "noteId") with
  | inl e => ([], inl e)
  | inr noteId => archive_outcome rt blinko noteId net "archived"
  end.
Proof.
  enter.
  destruct (js_Number rt (arg arguments "noteId")) as [e|noteId]; [reflexivity|].
  rewrite noteId_guard_spec. unfold archive_outcome.
  destruct (truthy_number noteId); cbn [negb]; [|reflexivity].
  unfold bind, archiveNote. rewrite updateNote_run.
  now destruct (net _) as [r|resp]; [|destruct (ok resp)].
Qed.

Lemma complete_run :
  run (CallTool rt domain apiKey "complete_blinko_todo" arguments) net =
  match js_Number rt (arg arguments "noteId") with
  | inl e => ([], inl e)
  | inr noteId => archive_outcome rt blinko noteId net "completed"
  end.
Proof.
  enter.
  destruct (js_Number rt (arg arguments "noteId")) as [e|noteId]; [reflexivity|].
  rewrite noteId_guard_spec. unfold archive_outcome.
  destruct (truthy_number noteId); cbn [negb]; [|reflexivity].
  unfold bind, archiveNote. rewrite updateNote_run.
  now destruct (net _) as [r|resp]; [|destruct (ok resp)].
Qed.

(** [share_blinko_note], step by step. *)
Lemma share_run :
  run (CallTool rt domain apiKey "share_blinko_note" arguments) net =
  match js_Number rt (arg arguments "noteId") with
  | inl e => ([], inl e)
  | inr noteId =>
      if truthy_number noteId then
        match share_password rt arguments with
        | inl e => ([], inl e)
        | inr passwordStr =>
            if password_accepted passwordStr then
              after_request net
                (share_request blinko
                   {| shp_id := noteId;
                      shp_password := Some passwordStr;
                      shp_isCancel := Some (js_Boolean (arg arguments "isCancel")) |})
                "request failed with status "
                (fun resp =>
                   match json_share rt (text resp) with
                   | Some result =>
                       if share_isShare result then
                         inr (List.app
                                [ "Successfully shared note (ID: "
                                  ++ NumberToString rt (share_id result) ++ ")" ]
                             (List.app
                                (match share_sharePassword result with
                                 | Some p => if falsy_string p then []
                                             else [ "Share password: " ++ p ]
                                 | None => []
                                 end)
                                [ "Share link: "
                                  ++ match share_shareEncryptedUrl result with
                                     | Some u => if falsy_string u then "N/A" else u
                                     | None => "N/A"
                                     end ]))
                       else
                         inr [ "Successfully cancelled sharing for note (ID: "
                               ++ NumberToString rt (share_id result) ++ ")" ]
                   | None => inl (Rejected (json_rejection rt (text resp)))
                   end)
            else ([], inl (Error "Password must be exactly 6 digits"))
        end
      else ([], inl (Error "Valid note ID is required"))
  end.
Proof.
  enter.
  destruct (js_Number rt (arg arguments "noteId")) as [e|noteId]; [reflexivity|].
  rewrite noteId_guard_spec.
  destruct (truthy_number noteId); cbn [negb]; [|reflexivity].
  rewrite bind_lift. fold (share_password rt arguments).
  destruct (share_password rt arguments) as [e|passwordStr]; [reflexivity|].
  rewrite <- negb_orb. fold (password_accepted passwordStr).
  destruct (password_accepted passwordStr); cbn [negb]; [|reflexivity].
  unfold bind, after_request. rewrite shareNote_run. unfold request_failed.
  destruct (net _) as [r|resp]; [reflexivity|].
  destruct (ok resp); [|reflexivity].
  destruct (json_share rt (text resp)) as [res|]; [|reflexivity].
  now destruct (share_isShare res).
Qed.

(** [search_blinko_notes], step by step. *)
Lemma search_run :
  run (CallTool rt domain apiKey "search_blinko_notes" arguments) net =
  match js_String rt (arg arguments "searchText") with
  | inl e => ([], inl e)
  | inr searchText =>
      if falsy_string searchText
      then ([], inl (Error "Search text is required"))
      else
        match search_params rt searchText arguments with
        | inl e => ([], inl e)
        | inr params =>
            after_request net (search_request blinko params)
              "request failed with status "
              (fun resp =>
                 match json_notes rt (text resp) with
                 | Some notes =>
                     inr (("Found " ++ decimal (N.of_nat (List.length notes))
                           ++ " note(s):") :: map (note_block rt) notes)
                 | None => inl (Rejected (json_rejection rt (text resp)))
                 end)
        end
  end.
Proof.
  enter.
  destruct (js_String rt (arg arguments "searchText")) as [e|searchText];
    [reflexivity|].
  destruct (falsy_string searchText); [reflexivity|].
  rewrite bind_lift.
  destruct (search_params rt searchText arguments) as [e|params]; [reflexivity|].
  unfold bind, after_request. rewrite searchNotes_run. unfold request_failed.
  now destruct (net _) as [r|resp];
    [|destruct (ok resp); [destruct (json_notes rt (text resp))|]].
Qed.

(** [review_blinko_daily_notes], step by step. *)
Lemma review_run :
  run (CallTool rt domain apiKey "review_blinko_daily_notes" arguments) net =
  after_request net (review_request blinko) "request failed with status "
    (fun resp =>
       match json_notes rt (text resp) with
       | Some notes =>
           inr (("Found " ++ decimal (N.of_nat (List.length notes))
                 ++ " note(s) for today's review:") :: map (note_block rt) notes)
       | None => inl (Rejected (json_rejection rt (text resp)))
       end).
Proof.
  enter.
  unfold bind, after_request. rewrite getDailyReviewNotes_run.
  unfold request_failed.
  now destruct (net _) as [r|resp];
    [|destruct (ok resp); [destruct (json_notes rt (text resp))|]].
Qed.

(** [clear_blinko_recycle_bin], step by step. *)
Lemma clear_run :
  run (CallTool rt domain apiKey "clear_blinko_recycle_bin" arguments) net =
  after_request net (clear_request blinko) "request failed with status "
    (fun _ => inr ["Successfully cleared Blinko recycle bin."]).
Proof.
  enter.
  unfold bind, after_request. rewrite clearRecycleBin_run.
  unfold request_failed.
  now destruct (net _) as [r|resp]; [|destruct (ok resp)].
Qed.

(** The three creating tools, step by step. *)
Lemma upsert_run (name : string) :
  In name upsert_tools ->
  run (CallTool rt domain apiKey name arguments) net =
  match js_String rt (arg arguments "content") with
  | inl e => ([], inl e)
  | inr content =>
      if falsy_string content then ([], inl (Error "Content is required"))
      else
        after_request net (upsert_request blinko content (upsert_type name))
          "request failed with status "
          (fun resp =>
             match json_note rt (text resp) with
             | Some note =>
                 inr [ "Successfully wrote note to Blinko. Note ID: "
                       ++ NumberToString rt (note_id note) ]
             | None => inl (Rejected (json_rejection rt (text resp)))
             end)
  end.
Proof.
  intros [<- | [<- | [<- | []]]]; enter;
    (destruct (js_String rt (arg arguments "content")) as [e|content];
     [reflexivity|]);
    (destruct (falsy_string content) eqn:Hc; [reflexivity|]);
    unfold bind, after_request; rewrite upsertNote_run by exact Hc;
    unfold request_failed;
    now destruct (net _) as [r|resp];
      [|destruct (ok resp); [destruct (json_note rt (text resp))|]].
Qed.

(** A name outside the catalog reaches the [default] case. *)
Lemma unknown_run (name : string) :
  ~ In name tool_names ->
  run (CallTool rt domain apiKey name arguments) net
  = ([], inl (Error "Unknown tool")).
Proof.
  intros Hout.
  assert (Hneq : forall n, In n tool_names -> (name =? n) = false).
  { intros n Hn. apply String.eqb_neq. intros ->. now elim Hout. }
  unfold run, CallTool, new_BlinkoClient.
  rewrite domain_set, apiKey_set, base.
  rewrite !Hneq by (unfold tool_names; simpl; tauto).
  reflexivity.
Qed.

End DispatcherRuns.

(* ================================================================= *)
(** ** update_blinko_note: what is forwarded *)

Lemma update_request_body this noteId updates :
  req_body (update_request this noteId updates) =
  Some (batch_of (update_inner noteId updates)).
Proof. reflexivity. Qed.

(** The object written for updates that were built: its keys, and the
    value under each. *)
Lemma built_inner rt arguments updates noteId :
  build_updates rt arguments = inr updates ->
  get (update_inner noteId updates) "id" = Some (stringify_number noteId)
  /\ keys (update_inner noteId updates)
     = "id" :: filter (supplied arguments) update_fields
  /\ match arg arguments "content" with
     | Some v => exists s, ToString rt v = inr s
                           /\ get (update_inner noteId updates) "content"
                              = Some (JStr s)
     | None => get (update_inner noteId updates) "content" = None
     end
  /\ match arg arguments "type" with
     | Some t => exists n, ToNumber rt t = inr n
                           /\ get (update_inner noteId updates) "type"
                              = Some (stringify_number n)
     | None => get (update_inner noteId updates) "type" = None
     end
  /\ get (update_inner noteId updates) "isArchived"
     = option_map (fun v => JBool (ToBoolean v)) (arg arguments "isArchived")
  /\ get (update_inner noteId updates) "isTop"
     = option_map (fun v => JBool (ToBoolean v)) (arg arguments "isTop").
Proof.
  intros Hbuilt.
  pose proof (build_updates_spec rt arguments) as Hspec.
  unfold update_fields, supplied. simpl filter.
  destruct (arg arguments "content") as [c|];
    destruct (arg arguments "type") as [t|];
    simpl js_String in Hspec; simpl js_Number in Hspec.
  - destruct (ToString rt c) as [e|s]; [congruence|].
    destruct (ToNumber rt t) as [e|n]; [congruence|].
    rewrite Hspec in Hbuilt. injection Hbuilt as <-.
    destruct (arg arguments "isArchived"), (arg arguments "isTop");
      (split; [reflexivity|]); (split; [reflexivity|]);
      (split; [exists s; split; reflexivity|]);
      (split; [exists n; split; reflexivity|]); split; reflexivity.
  - destruct (ToString rt c) as [e|s]; [congruence|].
    rewrite Hspec in Hbuilt. injection Hbuilt as <-.
    destruct (arg arguments "isArchived"), (arg arguments "isTop");
      (split; [reflexivity|]); (split; [reflexivity|]);
      (split; [exists s; split; reflexivity|]);
      (split; [reflexivity|]); split; reflexivity.
  - destruct (ToNumber rt t) as [e|n]; [congruence|].
    rewrite Hspec in Hbuilt. injection Hbuilt as <-.
    destruct (arg arguments "isArchived"), (arg arguments "isTop");
      (split; [reflexivity|]); (split; [reflexivity|]);
      (split; [reflexivity|]);
      (split; [exists n; split; reflexivity|]); split; reflexivity.
  - rewrite Hspec in Hbuilt. injection Hbuilt as <-.
    destruct (arg arguments "isArchived"), (arg arguments "isTop");
      repeat split; reflexivity.
Qed.

(** The requests of an update: none unless the id is accepted and the
    updates are built, and then the one of [updateNote]. *)
Lemma update_log rt domain apiKey arguments net req :
  In req (fst (run (CallTool rt domain apiKey "update_blinko_note" arguments) net)) ->
  exists url noteId updates,
    normalizeDomain domain = inr url
    /\ js_Number rt (arg arguments "noteId") = inr noteId
    /\ truthy_number noteId = true
    /\ build_updates rt arguments = inr updates
    /\ req = update_request (mkBlinkoClient url apiKey) noteId updates.
Proof.
  intros Hin.
  destruct (falsy_string domain) eqn:Hd;
    [rewrite CallTool_unconfigured in Hin by (left; exact Hd); now elim Hin|].
  destruct (falsy_string apiKey) eqn:Hk;
    [rewrite CallTool_unconfigured in Hin by (right; exact Hk); now elim Hin|].
  destruct (normalizeDomain_total domain Hd) as [url Hurl].
  rewrite (update_run rt domain apiKey url arguments net Hd Hk Hurl) in Hin.
  destruct (js_Number rt (arg arguments "noteId")) as [e|noteId];
    [now elim Hin|].
  destruct (truthy_number noteId) eqn:Ht; [|now elim Hin].
  destruct (build_updates rt arguments) as [e|updates]; [now elim Hin|].
  destruct Hin as [<- | []].
  now exists url, noteId, updates.
Qed.

(** C1. Every request that [update_blinko_note] issues carries the
    single-item batch whose inner object has the key [id], bound to the
    note id, followed by exactly those of [content], [type], [isArchived],
    [isTop] that the caller supplied, and no other key. With the
    configuration set, an accepted note id and a content and a type that
    convert, one such request is issued; with [{ noteId: 5 }] alone its
    inner object is exactly [{ id: 5 }]. *)
Theorem update_forwards_supplied_fields rt domain apiKey arguments net :
  let out := run (CallTool rt domain apiKey "update_blinko_note" arguments) net in
  (forall req, In req (fst out) ->
     exists noteId inner,
       js_Number rt (arg arguments "noteId") = inr noteId
       /\ req_body req = Some (batch_of inner)
       /\ get inner "id" = Some (stringify_number noteId)
       /\ keys inner = "id" :: filter (supplied arguments) update_fields)
  /\ (domain <> "" -> apiKey <> "" ->
      forall noteId content type,
        js_Number rt (arg arguments "noteId") = inr noteId ->
        truthy_number noteId = true ->
        js_String rt (arg arguments "content") = inr content ->
        js_Number rt (arg arguments "type") = inr type ->
        exists req, fst out = [req])
  /\ (domain <> "" -> apiKey <> "" ->
      arguments = Some [("noteId", JNum (num 5))] ->
      exists req, fst out = [req]
                  /\ req_body req = Some (batch_of [("id", JNum (num 5))])).
Proof.
  intros out. split; [|split].
  - intros req Hin.
    destruct (update_log rt domain apiKey arguments net req Hin)
      as (url & noteId & updates & _ & Hid & _ & Hbuilt & ->).
    exists noteId, (update_inner noteId updates).
    destruct (built_inner rt arguments updates noteId Hbuilt)
      as (Hinner & Hkeys & _).
    split; [exact Hid|]. split; [apply update_request_body|].
    split; assumption.
  - intros Hd Hk noteId content type Hid Ht Hc Hty.
    apply falsy_string_false in Hd, Hk.
    destruct (normalizeDomain_total domain Hd) as [url Hurl].
    subst out.
    rewrite (update_run rt domain apiKey url arguments net Hd Hk Hurl), Hid, Ht.
    pose proof (build_updates_spec rt arguments) as Hspec.
    rewrite Hc, Hty in Hspec. rewrite Hspec.
    eexists; reflexivity.
  - intros Hd Hk ->.
    apply falsy_string_false in Hd, Hk.
    destruct (normalizeDomain_total domain Hd) as [url Hurl].
    subst out.
    rewrite (update_run rt domain apiKey url _ net Hd Hk Hurl).
    eexists; split; reflexivity.
Qed.

(** [update_forwards_supplied_fields] at work: a call that supplies
    [content] and [isTop] next to an argument the tool does not know, and
    a call with the note id alone. *)
Lemma update_forwards_supplied_fields_witness :
  (exists req,
     In req (fst (run (CallTool (example_runtime []) "notes.example.com" "key"
                         "update_blinko_note" example_update_arguments)
                    (answering 200 "{}")))
     /\ exists inner,
          req_body req = Some (batch_of inner)
          /\ get inner "id" = Some (JNum (num 5))
          /\ keys inner = ["id"; "content"; "isTop"])
  /\ ("notes.example.com" <> "" /\ "key" <> ""
      /\ js_Number (example_runtime []) (arg example_update_arguments "noteId")
         = inr (num 5)
      /\ truthy_number (num 5) = true
      /\ js_String (example_runtime []) (arg example_update_arguments "content")
         = inr "hello"
      /\ js_Number (example_runtime []) (arg example_update_arguments "type")
         = inr NaN
      /\ exists req,
           fst (run (CallTool (example_runtime []) "notes.example.com" "key"
                       "update_blinko_note" example_update_arguments)
                  (answering 200 "{}")) = [req])
  /\ (Some [("noteId", JNum (num 5))] = Some [("noteId", JNum (num 5))]
      /\ exists req,
           fst (run (CallTool (example_runtime []) "notes.example.com" "key"
                       "update_blinko_note" (Some [("noteId", JNum (num 5))]))
                  (answering 404 "note not found")) = [req]
           /\ req_body req = Some (batch_of [("id", JNum (num 5))])).
Proof.
  assert (Hd : "notes.example.com" <> "") by discriminate.
  assert (Hk : "key" <> "") by discriminate.
  split; [|split].
  - eexists. split; [left; reflexivity|].
    destruct (proj1 (update_forwards_supplied_fields (example_runtime [])
                    "notes.example.com" "key" example_update_arguments
                    (answering 200 "{}")) _ (or_introl eq_refl))
      as (noteId & inner & Hid & Hbody & Hinner & Hkeys).
    exists inner. split; [exact Hbody|].
    injection Hid as <-. split; [exact Hinner | exact Hkeys].
  - refine (conj Hd (conj Hk (conj eq_refl (conj eq_refl
             (conj eq_refl (conj eq_refl _)))))).
    exact (proj1 (proj2 (update_forwards_supplied_fields (example_runtime [])
                    "notes.example.com" "key" example_update_arguments
                    (answering 200 "{}"))) Hd Hk (num 5) "hello" NaN
             eq_refl eq_refl eq_refl eq_refl).
  - refine (conj eq_refl _).
    exact (proj2 (proj2 (update_forwards_supplied_fields (example_runtime [])
                    "notes.example.com" "key" (Some [("noteId", JNum (num 5))])
                    (answering 404 "note not found"))) Hd Hk eq_refl).
Defined.

(* ================================================================= *)
(** ** The note id check *)

Lemma finite_not_NaN (x : number) : isFinite x = true -> isNaN x = false.
Proof.
  destruct x; simpl; intros H; (reflexivity || discriminate).
Qed.

Section NoteIdCheck.

Variable rt : Runtime.
Variables domain apiKey url : string.
Variable arguments : option object.
Variable net : Transport.
Variable noteId : number.
Hypothesis domain_set : falsy_string domain = false.
Hypothesis apiKey_set : falsy_string apiKey = false.
Hypothesis base : normalizeDomain domain = inr url.
Hypothesis converted : js_Number rt (arg arguments "noteId") = inr noteId.

Let out (name : string) := run (CallTool rt domain apiKey name arguments) net.

Ltac open_tool :=
  first
    [ rewrite (update_run rt domain apiKey url arguments net
                 domain_set apiKey_set base)
    | rewrite (delete_run rt domain apiKey url arguments net
                 domain_set apiKey_set base)
    | rewrite (archive_run rt domain apiKey url arguments net
                 domain_set apiKey_set base); unfold archive_outcome
    | rewrite (complete_run rt domain apiKey url arguments net
                 domain_set apiKey_set base); unfold archive_outcome
    | rewrite (share_run rt domain apiKey url arguments net
                 domain_set apiKey_set base) ];
  rewrite converted.

(** A falsy id stops each of the five tools before any request. *)
Lemma noteId_rejected (name : string) :
  In name noteId_tools ->
  truthy_number noteId = false ->
  out name = ([], inl (Error "Valid note ID is required")).
Proof.
  intros Hname Hfalsy. unfold out.
  destruct Hname as [<- | [<- | [<- | [<- | [<- | []]]]]];
    open_tool; rewrite Hfalsy; reflexivity.
Qed.

(** A truthy id lets each of the five tools go on: the id error is not
    raised, and the client call is made once the remaining arguments have
    passed. *)
Lemma noteId_accepted (name : string) :
  In name noteId_tools ->
  truthy_number noteId = true ->
  snd (out name) <> inl (Error "Valid note ID is required")
  /\ (other_arguments_pass rt name arguments ->
      exists req, fst (out name) = [req]).
Proof.
  intros Hname Htruthy. unfold out.
  destruct Hname as [<- | [<- | [<- | [<- | [<- | []]]]]];
    open_tool; rewrite Htruthy; unfold other_arguments_pass;
    cbn [String.eqb Ascii.eqb Bool.eqb].
  - destruct (build_updates rt arguments) as [e|updates] eqn:Hb.
    + apply build_updates_throws in Hb. subst e.
      split; [discriminate | intros [u Hu]; discriminate Hu].
    + split; [|intros _; eexists; reflexivity]. unfold after_request.
      destruct (net _) as [r|resp]; [|destruct (ok resp)]; simpl; discriminate.
  - split; [|intros _; eexists; reflexivity]. unfold after_request.
    destruct (net _) as [r|resp]; [|destruct (ok resp)]; simpl; discriminate.
  - split; [|intros _; eexists; reflexivity].
    destruct (net _) as [r|resp]; [|destruct (ok resp)]; simpl; discriminate.
  - split; [|intros _; eexists; reflexivity].
    destruct (net _) as [r|resp]; [|destruct (ok resp)]; simpl; discriminate.
  - destruct (share_password rt arguments) as [e|passwordStr] eqn:Hp.
    + apply share_password_throws in Hp. subst e.
      split; [discriminate | intros (p & Hp & _); discriminate Hp].
    + destruct (password_accepted passwordStr) eqn:Hacc.
      * split; [|intros _; eexists; reflexivity]. unfold after_request.
        destruct (net _) as [r|resp];
          [|destruct (ok resp); [destruct (json_share rt (text resp)) as [res|];
                                 [destruct (share_isShare res)|]|]];
          simpl; discriminate.
      * split; [discriminate|].
        intros (p & Hp' & Hacc').
        assert (p = passwordStr) by congruence. subst p. congruence.
Qed.

End NoteIdCheck.

(** C3 (as amended). For [update_blinko_note], [delete_blinko_note],
    [archive_blinko_note], [complete_blinko_todo] and [share_blinko_note],
    with the configuration set and a [noteId] that converts to NaN or to a
    finite number: the call fails with the note id validation error if and
    only if that number is NaN or zero, and it then fails before any
    remote call; when the number is finite and not zero the dispatcher
    goes on to the client call, once the other arguments of
    [update_blinko_note] have converted and the password check of
    [share_blinko_note] has passed. *)
Theorem noteId_validation rt domain apiKey name arguments net noteId :
  In name noteId_tools ->
  domain <> "" ->
  apiKey <> "" ->
  js_Number rt (arg arguments "noteId") = inr noteId ->
  isNaN noteId = true \/ isFinite noteId = true ->
  let out := run (CallTool rt domain apiKey name arguments) net in
  (snd out = inl (Error "Valid note ID is required")
   <-> isNaN noteId = true \/ is_zero noteId = true)
  /\ (isNaN noteId = true \/ is_zero noteId = true -> fst out = [])
  /\ (isFinite noteId = true -> is_zero noteId = false ->
      other_arguments_pass rt name arguments ->
      exists req, fst out = [req]).
Proof.
  intros Hname Hd Hk Hid _ out.
  apply falsy_string_false in Hd, Hk.
  destruct (normalizeDomain_total domain Hd) as [url Hurl].
  pose proof (noteId_rejected rt domain apiKey url arguments net noteId
                Hd Hk Hurl Hid name Hname) as Hrej.
  pose proof (noteId_accepted rt domain apiKey url arguments net noteId
                Hd Hk Hurl Hid name Hname) as Hacc.
  pose proof (truthy_number_spec noteId) as Hspec.
  subst out.
  destruct (truthy_number noteId).
  - destruct (Hacc eq_refl) as (Hne & Hreq).
    assert (Hno : ~ (isNaN noteId = true \/ is_zero noteId = true)).
    { intros H. apply Hspec in H. discriminate H. }
    split; [split; [intros H; now elim Hne | intros H; now elim Hno]|].
    split; [intros H; now elim Hno | intros _ _; exact Hreq].
  - rewrite (Hrej eq_refl). simpl.
    split; [split; [intros _; now apply Hspec | reflexivity]|].
    split; [reflexivity|].
    intros Hfin Hz. apply finite_not_NaN in Hfin.
    destruct (proj1 Hspec eq_refl); congruence.
Qed.

(** [noteId_validation] at work on [delete_blinko_note] with id 7. *)
Lemma noteId_validation_witness :
  In "delete_blinko_note" noteId_tools
  /\ "notes.example.com" <> "" /\ "key" <> ""
  /\ js_Number (example_runtime []) (arg (Some [("noteId", JNum (num 7))]) "noteId")
     = inr (num 7)
  /\ (isNaN (num 7) = true \/ isFinite (num 7) = true)
  /\ isFinite (num 7) = true /\ is_zero (num 7) = false
  /\ other_arguments_pass (example_runtime []) "delete_blinko_note"
       (Some [("noteId", JNum (num 7))])
  /\ exists req,
       fst (run (CallTool (example_runtime []) "notes.example.com" "key"
                   "delete_blinko_note" (Some [("noteId", JNum (num 7))]))
              (answering 200 "{}")) = [req].
Proof.
  assert (Hn : In "delete_blinko_note" noteId_tools) by (right; left; reflexivity).
  assert (Hd : "notes.example.com" <> "") by discriminate.
  assert (Hk : "key" <> "") by discriminate.
  assert (Hf : isNaN (num 7) = true \/ isFinite (num 7) = true)
    by (right; reflexivity).
  assert (Hs : other_arguments_pass (example_runtime []) "delete_blinko_note"
                 (Some [("noteId", JNum (num 7))])) by exact I.
  refine (conj Hn (conj Hd (conj Hk (conj eq_refl (conj Hf
            (conj eq_refl (conj eq_refl (conj Hs _)))))))).
  exact (proj2 (proj2 (noteId_validation (example_runtime []) "notes.example.com"
                         "key" "delete_blinko_note"
                         (Some [("noteId", JNum (num 7))]) (answering 200 "{}")
                         (num 7) Hn Hd Hk eq_refl Hf)) eq_refl eq_refl Hs).
Defined.

(** C3 as stated fails at [noteId = 0]: zero is a finite number, and the
    call is refused with the validation error all the same. *)
Lemma noteId_zero_rejected :
  js_Number (example_runtime []) (arg (Some [("noteId", JNum (num 0))]) "noteId")
  = inr (num 0)
  /\ isFinite (num 0) = true
  /\ run (CallTool (example_runtime []) "notes.example.com" "key"
            "delete_blinko_note" (Some [("noteId", JNum (num 0))]))
         (answering 200 "{}")
     = ([], inl (Error "Valid note ID is required")).
Proof.
  repeat split.
Qed.

(** The check has no test of finiteness: an id that converts to
    [Infinity] is outside what [noteId_validation] covers; it passes the
    check and is written as [null]. *)
Remark noteId_infinity_passes :
  js_Number (example_runtime []) (Some (JStr "Infinity")) = inr Infinity
  /\ isFinite Infinity = false
  /\ fst (run (CallTool (example_runtime []) "notes.example.com" "key"
                 "delete_blinko_note" (Some [("noteId", JStr "Infinity")]))
              (answering 200 "{}"))
     = [ delete_request (mkBlinkoClient "https://notes.example.com" "key")
           Infinity ]
  /\ req_body (delete_request (mkBlinkoClient "https://notes.example.com" "key")
                 Infinity)
     = Some (batch_of [("ids", JArr [JNull])]).
Proof.
  repeat split.
Qed.

(* ================================================================= *)
(** ** Archiving and completing *)

(** C6. For every [noteId], [complete_blinko_todo] issues exactly the
    requests [archive_blinko_note] issues: at most one, a POST to the
    batched update path whose single item is [{ id, isArchived: true }].
    The two calls fail with the same error or both succeed, and then
    their confirmations differ only in the word "completed" against
    "archived". With the configuration set and an accepted id the request
    is issued, and a 2xx reply makes both succeed. *)
Theorem complete_same_as_archive rt domain apiKey arguments net :
  let archived := run (CallTool rt domain apiKey "archive_blinko_note" arguments) net in
  let completed := run (CallTool rt domain apiKey "complete_blinko_todo" arguments) net in
  fst completed = fst archived
  /\ (forall req, In req (fst archived) ->
      fst archived = [req]
      /\ req_method req = "POST"
      /\ (exists url, normalizeDomain domain = inr url
                      /\ req_url req = url ++ "/api/trpc/notes.upsert?batch=1")
      /\ (exists noteId,
            js_Number rt (arg arguments "noteId") = inr noteId
            /\ req_body req = Some (batch_of [ ("id", stringify_number noteId);
                                               ("isArchived", JBool true) ])))
  /\ ((exists e, snd archived = inl e /\ snd completed = inl e)
      \/ (exists noteId,
            js_Number rt (arg arguments "noteId") = inr noteId
            /\ snd archived
               = inr ["Successfully archived note " ++ NumberToString rt noteId]
            /\ snd completed
               = inr ["Successfully completed note " ++ NumberToString rt noteId]))
  /\ (domain <> "" -> apiKey <> "" ->
      forall noteId,
        js_Number rt (arg arguments "noteId") = inr noteId ->
        truthy_number noteId = true ->
        exists req,
          fst archived = [req]
          /\ forall resp, net req = Reply resp -> ok resp = true ->
               snd archived
                 = inr ["Successfully archived note " ++ NumberToString rt noteId]
               /\ snd completed
                 = inr ["Successfully completed note " ++ NumberToString rt noteId]).
Proof.
  intros archived completed.
  destruct (falsy_string domain) eqn:Hd;
    [|destruct (falsy_string apiKey) eqn:Hk].
  - subst archived completed.
    rewrite !CallTool_unconfigured by (left; exact Hd).
    apply falsy_string_true in Hd. simpl.
    split; [reflexivity|]. split; [intros req []|].
    split; [left; eauto | intros Hne; now elim Hne].
  - subst archived completed.
    rewrite !CallTool_unconfigured by (right; exact Hk).
    apply falsy_string_true in Hk. simpl.
    split; [reflexivity|]. split; [intros req []|].
    split; [left; eauto | intros _ Hne; now elim Hne].
  - destruct (normalizeDomain_total domain Hd) as [url Hurl].
    subst archived completed.
    rewrite (archive_run rt domain apiKey url arguments net Hd Hk Hurl).
    rewrite (complete_run rt domain apiKey url arguments net Hd Hk Hurl).
    destruct (js_Number rt (arg arguments "noteId")) as [e|noteId]; simpl.
    { split; [reflexivity|]. split; [intros req []|].
      split; [left; eauto | intros _ _ n H; discriminate H]. }
    unfold archive_outcome.
    destruct (truthy_number noteId) eqn:Ht; simpl.
    + split; [reflexivity|].
      split.
      { intros req [<- | []]. split; [reflexivity|]. split; [reflexivity|].
        split; [exists url; split; [exact Hurl | reflexivity]|].
        exists noteId. split; reflexivity. }
      split.
      { destruct (net _) as [r|resp]; [left; eauto|].
        destruct (ok resp);
          [right; exists noteId; repeat split; reflexivity | left; eauto]. }
      intros _ _ n Hn _. assert (n = noteId) by congruence. subst n.
      eexists. split; [reflexivity|].
      intros resp Hnet Hok. rewrite Hnet, Hok. split; reflexivity.
    + split; [reflexivity|]. split; [intros req []|].
      split; [left; eauto|].
      intros _ _ n Hn H. assert (n = noteId) by congruence. subst n. congruence.
Qed.

(** [complete_same_as_archive] at work on note 7 against a service that
    answers 200. *)
Lemma complete_same_as_archive_witness :
  "notes.example.com" <> "" /\ "key" <> ""
  /\ js_Number (example_runtime []) (arg (Some [("noteId", JNum (num 7))]) "noteId")
     = inr (num 7)
  /\ truthy_number (num 7) = true
  /\ exists req,
       In req (fst (run (CallTool (example_runtime []) "notes.example.com" "key"
                           "archive_blinko_note" (Some [("noteId", JNum (num 7))]))
                      (answering 200 "{}")))
       /\ answering 200 "{}" req = Reply (mkResponse 200 "{}")
       /\ ok (mkResponse 200 "{}") = true
       /\ req_body req = Some (batch_of [("id", JNum (num 7)); ("isArchived", JBool true)])
       /\ snd (run (CallTool (example_runtime []) "notes.example.com" "key"
                      "archive_blinko_note" (Some [("noteId", JNum (num 7))]))
                 (answering 200 "{}")) = inr ["Successfully archived note 7"]
       /\ snd (run (CallTool (example_runtime []) "notes.example.com" "key"
                      "complete_blinko_todo" (Some [("noteId", JNum (num 7))]))
                 (answering 200 "{}")) = inr ["Successfully completed note 7"].
Proof.
  assert (Hd : "notes.example.com" <> "") by discriminate.
  assert (Hk : "key" <> "") by discriminate.
  refine (conj Hd (conj Hk (conj eq_refl (conj eq_refl _)))).
  pose proof (complete_same_as_archive (example_runtime []) "notes.example.com"
                "key" (Some [("noteId", JNum (num 7))]) (answering 200 "{}"))
    as (_ & Hreq & _ & Hrun).
  destruct (Hrun Hd Hk (num 7) eq_refl eq_refl) as (req & Hlog & Hok).
  exists req.
  assert (Hin : In req (fst (run (CallTool (example_runtime []) "notes.example.com"
                    "key" "archive_blinko_note" (Some [("noteId", JNum (num 7))]))
                    (answering 200 "{}")))).
  { rewrite Hlog. left; reflexivity. }
  destruct (Hreq req Hin) as (_ & _ & _ & noteId & Hid & Hbody).
  injection Hid as <-.
  destruct (Hok (mkResponse 200 "{}") eq_refl eq_refl) as (Ha & Hc).
  refine (conj Hin (conj eq_refl (conj eq_refl (conj Hbody (conj Ha Hc))))).
Defined.

(* ================================================================= *)
(** ** The type filter of a search *)

Lemma strict_eq_zero (n : number) :
  strict_eq_number n (num 0) = true -> is_zero n = true.
Proof.
  intros H. destruct n as [s| s | | s m e]; try reflexivity;
    try destruct s; discriminate H.
Qed.

(** Equality with a non-zero literal pins the number down. *)
Lemma strict_eq_finite (n : number) (m : positive) (e : Z) :
  strict_eq_number n (S754_finite false m e) = true ->
  n = S754_finite false m e.
Proof.
  destruct n as [s| s | | s m' e']; try (try destruct s; discriminate).
  unfold strict_eq_number, SFeqb, SFcompare.
  destruct s; [discriminate|].
    destruct (Z.compare_spec e' e) as [-> | |]; try discriminate.
    change (Pos.compare_cont Eq m' m) with (Pos.compare m' m).
    destruct (Pos.compare_spec m' m) as [-> | |]; try discriminate.
    reflexivity.
Qed.

Lemma strict_eq_one (n : number) :
  strict_eq_number n (num 1) = true -> n = num 1.
Proof. apply strict_eq_finite. Qed.

Lemma strict_eq_two (n : number) :
  strict_eq_number n (num 2) = true -> n = num 2.
Proof. apply strict_eq_finite. Qed.

Lemma search_request_type this params :
  body_field (search_request this params) "type" =
  Some (stringify_number (nullish (sp_type params) (num (-1)))).
Proof. reflexivity. Qed.

(** The requests of a search: none unless the text is accepted and the
    options convert, and then the one of [searchNotes] at the parameters
    the case builds. *)
Lemma search_log rt domain apiKey arguments net req :
  In req (fst (run (CallTool rt domain apiKey "search_blinko_notes" arguments) net)) ->
  exists url searchText params,
    normalizeDomain domain = inr url
    /\ js_String rt (arg arguments "searchText") = inr searchText
    /\ falsy_string searchText = false
    /\ search_params rt searchText arguments = inr params
    /\ req = search_request (mkBlinkoClient url apiKey) params.
Proof.
  intros Hin.
  destruct (falsy_string domain) eqn:Hd;
    [rewrite CallTool_unconfigured in Hin by (left; exact Hd); now elim Hin|].
  destruct (falsy_string apiKey) eqn:Hk;
    [rewrite CallTool_unconfigured in Hin by (right; exact Hk); now elim Hin|].
  destruct (normalizeDomain_total domain Hd) as [url Hurl].
  rewrite (search_run rt domain apiKey url arguments net Hd Hk Hurl) in Hin.
  destruct (js_String rt (arg arguments "searchText")) as [e|searchText];
    [now elim Hin|].
  destruct (falsy_string searchText) eqn:Ht; [now elim Hin|].
  destruct (search_params rt searchText arguments) as [e|params] eqn:Hp;
    [now elim Hin|].
  destruct Hin as [<- | []].
  now exists url, searchText, params.
Qed.

(** With the configuration set, an accepted text and options that
    convert, the search request is issued. *)
Lemma search_issued rt domain apiKey arguments net searchText :
  falsy_string domain = false -> falsy_string apiKey = false ->
  js_String rt (arg arguments "searchText") = inr searchText ->
  falsy_string searchText = false ->
  search_options_convert rt arguments ->
  exists url params,
    normalizeDomain domain = inr url
    /\ search_params rt searchText arguments = inr params
    /\ run (CallTool rt domain apiKey "search_blinko_notes" arguments) net
       = after_request net (search_request (mkBlinkoClient url apiKey) params)
           "request failed with status "
           (fun resp =>
              match json_notes rt (text resp) with
              | Some notes =>
                  inr (("Found " ++ decimal (N.of_nat (List.length notes))
                        ++ " note(s):") :: map (note_block rt) notes)
              | None => inl (Rejected (json_rejection rt (text resp)))
              end).
Proof.
  intros Hd Hk Htext Hne ((size & Hsize) & (start & Hstart) & (finish & Hfinish)).
  destruct (normalizeDomain_total domain Hd) as [url Hurl].
  pose proof (search_params_converts rt searchText arguments size start finish
                Hsize Hstart Hfinish) as Hp.
  exists url. eexists. split; [exact Hurl|]. split; [exact Hp|].
  rewrite (search_run rt domain apiKey url arguments net Hd Hk Hurl).
  rewrite Htext, Hne, Hp. reflexivity.
Qed.

(** C7. The [type] written in a search request is 0, 1 or 2 when the
    supplied [type] is strictly equal to that number (the handler forwards
    the argument itself), and -1 in every other case: [type] omitted, not a
    number, or any other number. With the configuration set, an accepted
    search text and options that convert, the request is issued. *)
Theorem search_type_filter rt domain apiKey arguments net :
  let type := arg arguments "type" in
  let out := run (CallTool rt domain apiKey "search_blinko_notes" arguments) net in
  (forall req, In req (fst out) ->
     body_field req "type" = Some (stringify_number (search_noteType type)))
  /\ (forall k, k = 0%Z \/ k = 1%Z \/ k = 2%Z ->
      strict_eq_literal type (num k) = true ->
      stringify_number (search_noteType type) = JNum (num k)
      /\ type = Some (JNum (search_noteType type)))
  /\ (strict_eq_literal type (num 0) = false ->
      strict_eq_literal type (num 1) = false ->
      strict_eq_literal type (num 2) = false ->
      search_noteType type = num (-1)
      /\ stringify_number (search_noteType type) = JNum (num (-1)))
  /\ (domain <> "" -> apiKey <> "" ->
      forall searchText,
        js_String rt (arg arguments "searchText") = inr searchText ->
        searchText <> "" ->
        search_options_convert rt arguments ->
        exists req, fst out = [req]).
Proof.
  intros type out. split; [|split; [|split]].
  - intros req Hin. subst out.
    destruct (search_log rt domain apiKey arguments net req Hin)
      as (url & searchText & params & _ & _ & _ & Hp & ->).
    destruct (search_params_built rt searchText arguments params Hp)
      as (size & start & finish & _ & _ & _ & ->).
    apply search_request_type.
  - intros k Hk Heq. unfold search_noteType.
    destruct type as [[| b | n | s | items | fields]|]; try discriminate Heq.
    simpl in Heq.
    destruct Hk as [-> | [-> | ->]].
    + unfold strict_eq_literal. rewrite Heq. simpl.
      apply strict_eq_zero in Heq. destruct n; try discriminate Heq.
      split; reflexivity.
    + apply strict_eq_one in Heq. subst n. split; reflexivity.
    + apply strict_eq_two in Heq. subst n. split; reflexivity.
  - intros H0 H1 H2. unfold search_noteType. rewrite H0, H1, H2.
    split; reflexivity.
  - intros Hd Hk searchText Htext Hne Hopt. subst out.
    apply falsy_string_false in Hd, Hk, Hne.
    destruct (search_issued rt domain apiKey arguments net searchText
                Hd Hk Htext Hne Hopt) as (url & params & _ & _ & ->).
    eexists; reflexivity.
Qed.

(** [search_type_filter] at work: [type] omitted, [type = 5] and
    [type = 2]. *)
Lemma search_type_filter_witness :
  (exists req,
     In req (fst (run (CallTool (example_runtime []) "notes.example.com" "key"
                         "search_blinko_notes" (Some [("searchText", JStr "project")]))
                    (answering 200 "[]")))
     /\ body_field req "type" = Some (JNum (num (-1))))
  /\ (exists req,
        In req (fst (run (CallTool (example_runtime []) "notes.example.com" "key"
                            "search_blinko_notes"
                            (Some [("searchText", JStr "project"); ("type", JNum (num 5))]))
                       (answering 200 "[]")))
        /\ body_field req "type" = Some (JNum (num (-1))))
  /\ ((2 = 0 \/ 2 = 1 \/ 2 = 2)%Z
      /\ strict_eq_literal (Some (JNum (num 2))) (num 2) = true
      /\ exists req,
           In req (fst (run (CallTool (example_runtime []) "notes.example.com" "key"
                               "search_blinko_notes"
                               (Some [("searchText", JStr "project"); ("type", JNum (num 2))]))
                          (answering 200 "[]")))
           /\ body_field req "type" = Some (JNum (num 2)))
  /\ ("notes.example.com" <> "" /\ "key" <> ""
      /\ js_String (example_runtime [])
           (arg (Some [("searchText", JStr "project"); ("size", JNum (num 3))])
              "searchText") = inr "project"
      /\ "project" <> ""
      /\ search_options_convert (example_runtime [])
           (Some [("searchText", JStr "project"); ("size", JNum (num 3))])
      /\ exists req,
           fst (run (CallTool (example_runtime []) "notes.example.com" "key"
                       "search_blinko_notes"
                       (Some [("searchText", JStr "project"); ("size", JNum (num 3))]))
                  (answering 200 "[]")) = [req]).
Proof.
  split; [|split; [|split]].
  - eexists. split; [left; reflexivity|].
    exact (proj1 (search_type_filter (example_runtime []) "notes.example.com" "key"
                    (Some [("searchText", JStr "project")]) (answering 200 "[]"))
             _ (or_introl eq_refl)).
  - eexists. split; [left; reflexivity|].
    exact (proj1 (search_type_filter (example_runtime []) "notes.example.com" "key"
                    (Some [("searchText", JStr "project"); ("type", JNum (num 5))])
                    (answering 200 "[]"))
             _ (or_introl eq_refl)).
  - assert (Hk : (2 = 0 \/ 2 = 1 \/ 2 = 2)%Z) by (right; right; reflexivity).
    refine (conj Hk (conj eq_refl _)).
    eexists. split; [left; reflexivity|].
    pose proof (search_type_filter (example_runtime []) "notes.example.com" "key"
                  (Some [("searchText", JStr "project"); ("type", JNum (num 2))])
                  (answering 200 "[]")) as (Hreq & Hlit & _).
    exact (eq_trans (Hreq _ (or_introl eq_refl))
             (f_equal Some (proj1 (Hlit 2%Z Hk eq_refl)))).
  - assert (Hd : "notes.example.com" <> "") by discriminate.
    assert (Hk : "key" <> "") by discriminate.
    assert (Hp : "project" <> "") by discriminate.
    assert (Ho : search_options_convert (example_runtime [])
                   (Some [("searchText", JStr "project"); ("size", JNum (num 3))])).
    { split; [exists (num 3); reflexivity|].
      split; exists None; reflexivity. }
    refine (conj Hd (conj Hk (conj eq_refl (conj Hp (conj Ho _))))).
    exact (proj2 (proj2 (proj2
             (search_type_filter (example_runtime []) "notes.example.com" "key"
                (Some [("searchText", JStr "project"); ("size", JNum (num 3))])
                (answering 200 "[]")))) Hd Hk "project" eq_refl Hp Ho).
Defined.

(* ================================================================= *)
(** ** Replies outside 200..299 *)

Lemma status_and_body_in_message (lead : string) (resp : Response) :
  occurs_in (decimal (status resp))
            (lead ++ decimal (status resp) ++ ": " ++ text resp)
  /\ occurs_in (text resp)
               (lead ++ decimal (status resp) ++ ": " ++ text resp).
Proof.
  split; [apply occurs_in_middle|].
  exists (lead ++ decimal (status resp) ++ ": "), "".
  now rewrite append_empty_r, !append_assoc.
Qed.

Lemma fails_with_message {A} (lead : string) (resp : Response) :
  @fails_with_status_and_body A resp
    (inl (Error (lead ++ decimal (status resp) ++ ": " ++ text resp))).
Proof.
  exists (lead ++ decimal (status resp) ++ ": " ++ text resp).
  split; [reflexivity | apply status_and_body_in_message].
Qed.

(** C8. Whatever the operation of the client, when the service answers
    the request it issues with a reply [resp] whose status is outside
    200..299, the operation throws an [Error] whose message holds both the
    decimal status code and the body text of [resp]. ([upsertNote] issues
    a request for a non-empty content only.) *)
Theorem non_2xx_reply_surfaced rt this net resp :
  ok resp = false ->
  (forall params, net (search_request this params) = Reply resp ->
     fails_with_status_and_body resp (snd (run (searchNotes rt this params) net)))
  /\ (net (review_request this) = Reply resp ->
      fails_with_status_and_body resp (snd (run (getDailyReviewNotes rt this) net)))
  /\ (net (clear_request this) = Reply resp ->
      fails_with_status_and_body resp (snd (run (clearRecycleBin this) net)))
  /\ (forall content type, content <> "" ->
      net (upsert_request this content type) = Reply resp ->
      fails_with_status_and_body resp
        (snd (run (upsertNote rt this content (Some type)) net)))
  /\ (forall noteId updates, net (update_request this noteId updates) = Reply resp ->
      fails_with_status_and_body resp (snd (run (updateNote this noteId updates) net)))
  /\ (forall noteId, net (delete_request this noteId) = Reply resp ->
      fails_with_status_and_body resp (snd (run (deleteNote this noteId) net)))
  /\ (forall noteId,
      net (update_request this noteId [("isArchived", JBool true)]) = Reply resp ->
      fails_with_status_and_body resp (snd (run (archiveNote this noteId) net)))
  /\ (forall params, net (share_request this params) = Reply resp ->
      fails_with_status_and_body resp (snd (run (shareNote rt this params) net))).
Proof.
  intros Hbad. unfold run, request_failed.
  repeat split.
  - intros params Hnet. rewrite searchNotes_run, Hnet, Hbad.
    apply fails_with_message.
  - intros Hnet. rewrite getDailyReviewNotes_run, Hnet, Hbad.
    apply fails_with_message.
  - intros Hnet. rewrite clearRecycleBin_run, Hnet, Hbad.
    apply fails_with_message.
  - intros content type Hc Hnet.
    rewrite upsertNote_run by now apply falsy_string_false.
    rewrite Hnet, Hbad. apply fails_with_message.
  - intros noteId updates Hnet. rewrite updateNote_run, Hnet, Hbad.
    apply fails_with_message.
  - intros noteId Hnet. rewrite deleteNote_run, Hnet, Hbad.
    apply fails_with_message.
  - intros noteId Hnet. unfold archiveNote. rewrite updateNote_run, Hnet, Hbad.
    apply fails_with_message.
  - intros params Hnet. rewrite shareNote_run, Hnet, Hbad.
    apply fails_with_message.
Qed.

(** [non_2xx_reply_surfaced] at work: a service that answers 404 with the
    body "note not found" makes [updateNote] fail with a message that
    holds "404" and "note not found". *)
Lemma non_2xx_reply_surfaced_witness :
  ok (mkResponse 404 "note not found") = false
  /\ answering 404 "note not found"
       (update_request (mkBlinkoClient "https://notes.example.com" "key")
          (num 5) []) = Reply (mkResponse 404 "note not found")
  /\ exists message,
       snd (run (updateNote (mkBlinkoClient "https://notes.example.com" "key")
                   (num 5) [])
              (answering 404 "note not found")) = inl (Error message)
       /\ occurs_in "404" message
       /\ occurs_in "note not found" message.
Proof.
  refine (conj eq_refl (conj eq_refl _)).
  exact (proj1 (proj2 (proj2 (proj2 (proj2
           (non_2xx_reply_surfaced (example_runtime [])
              (mkBlinkoClient "https://notes.example.com" "key")
              (answering 404 "note not found")
              (mkResponse 404 "note not found") eq_refl)))))
           (num 5) [] eq_refl).
Defined.

(* ================================================================= *)
(** ** Clearing the recycle bin *)

(** C10. Whenever [clearRecycleBin] returns, its result has
    [success = true]; it does return on every 2xx reply; and no run of
    [clear_blinko_recycle_bin] ends in the [Error] "Failed to clear recycle
    bin" that the handler raises on a result without success. *)
Theorem clearRecycleBin_always_success rt this domain apiKey arguments net :
  (forall result,
     snd (run (clearRecycleBin this) net) = inr result -> success result = true)
  /\ (forall resp,
        net (clear_request this) = Reply resp -> ok resp = true ->
        snd (run (clearRecycleBin this) net) = inr (mkSuccessResult true))
  /\ snd (run (CallTool rt domain apiKey "clear_blinko_recycle_bin" arguments) net)
     <> inl (Error "Failed to clear recycle bin").
Proof.
  split; [|split].
  - intros result. unfold run. rewrite clearRecycleBin_run. simpl.
    destruct (net _) as [r|resp]; [discriminate|].
    destruct (ok resp); [|discriminate].
    intros H; injection H as <-; reflexivity.
  - intros resp Hnet Hok. unfold run.
    now rewrite clearRecycleBin_run, Hnet, Hok.
  - destruct (falsy_string domain) eqn:Hd;
      [rewrite CallTool_unconfigured by (left; exact Hd); rewrite Hd; discriminate|].
    destruct (falsy_string apiKey) eqn:Hk;
      [rewrite CallTool_unconfigured by (right; exact Hk); rewrite Hd; discriminate|].
    destruct (normalizeDomain_total domain Hd) as [url Hurl].
    rewrite (clear_run rt domain apiKey url arguments net Hd Hk Hurl).
    unfold after_request. simpl.
    destruct (net _) as [r|resp]; [discriminate|].
    destruct (ok resp); discriminate.
Qed.

(** [clearRecycleBin_always_success] at work against a service that
    answers 200. *)
Lemma clearRecycleBin_always_success_witness :
  answering 200 "{}" (clear_request (mkBlinkoClient "https://notes.example.com" "key"))
    = Reply (mkResponse 200 "{}")
  /\ ok (mkResponse 200 "{}") = true
  /\ snd (run (clearRecycleBin (mkBlinkoClient "https://notes.example.com" "key"))
            (answering 200 "{}")) = inr (mkSuccessResult true)
  /\ success (mkSuccessResult true) = true.
Proof.
  pose proof (clearRecycleBin_always_success (example_runtime [])
                (mkBlinkoClient "https://notes.example.com" "key")
                "notes.example.com" "key" None (answering 200 "{}"))
    as (Hsuccess & Hreturns & _).
  pose proof (Hreturns (mkResponse 200 "{}") eq_refl eq_refl) as Hrun.
  refine (conj eq_refl (conj eq_refl (conj Hrun _))).
  exact (Hsuccess (mkSuccessResult true) Hrun).
Defined.

(* ================================================================= *)
(** ** Timestamps that are not dates *)

(** [formatDate] never takes its [catch] branch. *)
Lemma formatDate_unfold rt dateStr :
  formatDate rt dateStr =
  match Date_parse rt dateStr with
  | Some t => Date_localeString rt t
  | None => "Invalid Date"
  end.
Proof.
  unfold formatDate, Date_toLocaleString. now destruct (Date_parse rt dateStr).
Qed.

(** C2 (what the code does). A timestamp that does not parse as a date is
    printed as "Invalid Date", not as the string itself, in the block of
    the note. *)
Theorem formatDate_unparsed rt dateStr :
  Date_parse rt dateStr = None ->
  formatDate rt dateStr = "Invalid Date"
  /\ forall note, note_createdAt note = dateStr ->
       exists lead rest,
         note_block rt note = lead ++ "Created: Invalid Date" ++ rest.
Proof.
  intros Hparse.
  assert (Hfmt : formatDate rt dateStr = "Invalid Date")
    by now rewrite formatDate_unfold, Hparse.
  split; [exact Hfmt|].
  intros note Hcreated. unfold note_block. rewrite Hcreated, Hfmt.
  exists ("- [ID: " ++ NumberToString rt (note_id note) ++ "] ["
          ++ getTypeDescription (note_type note) ++ "] " ++ note_content note
          ++ LF ++ "  "),
         (" | Updated: " ++ formatDate rt (note_updatedAt note)).
  rewrite !append_assoc. reflexivity.
Qed.

(** [formatDate_unparsed] at ["not-a-date"]. *)
Lemma formatDate_unparsed_witness :
  Date_parse (example_runtime []) "not-a-date" = None
  /\ formatDate (example_runtime []) "not-a-date" = "Invalid Date"
  /\ formatDate (example_runtime []) "not-a-date" <> "not-a-date".
Proof.
  refine (conj eq_refl _).
  pose proof (proj1 (formatDate_unparsed (example_runtime []) "not-a-date" eq_refl))
    as Hfmt.
  split; [exact Hfmt|]. rewrite Hfmt. discriminate.
Defined.

(** A search whose reply holds a note created at ["not-a-date"] succeeds
    and shows "Invalid Date" where the raw string was expected. *)
Example search_renders_invalid_date :
  snd (run (CallTool (example_runtime [example_note]) "notes.example.com" "key"
              "search_blinko_notes" (Some [("searchText", JStr "milk")]))
         (answering 200 "[...]"))
  = inr [ "Found 1 note(s):";
          "- [ID: 42] [Todo Note] buy milk" ++ LF
          ++ "  Created: Invalid Date | Updated: 1704067200000 ms" ].
Proof. reflexivity. Qed.

(* ================================================================= *)
(** ** Creating notes *)

(** The type a creating tool writes is 0, 1 or 2. *)
Lemma upsert_type_range (name : string) :
  upsert_type name = num 0 \/ upsert_type name = num 1 \/ upsert_type name = num 2.
Proof.
  unfold upsert_type.
  destruct (name =? "upsert_blinko_flash_note"); [now left|].
  destruct (name =? "upsert_blinko_note"); [right; now left | right; now right].
Qed.

(** C4 (what the code does). When [content] is missing from the
    arguments of a creating tool, its coercion to text is ["undefined"]:
    the check for an empty content passes and a note with that content is
    sent to the service. *)
Theorem upsert_missing_content_sent rt domain apiKey name arguments net :
  In name upsert_tools ->
  domain <> "" ->
  apiKey <> "" ->
  arg arguments "content" = None ->
  exists url,
    normalizeDomain domain = inr url
    /\ fst (run (CallTool rt domain apiKey name arguments) net)
       = [ upsert_request (mkBlinkoClient url apiKey) "undefined" (upsert_type name) ].
Proof.
  intros Hname Hd Hk Hmissing.
  apply falsy_string_false in Hd, Hk.
  destruct (normalizeDomain_total domain Hd) as [url Hurl].
  exists url. split; [exact Hurl|].
  rewrite (upsert_run rt domain apiKey url arguments net Hd Hk Hurl name Hname).
  rewrite Hmissing. reflexivity.
Qed.

(** [upsert_missing_content_sent] at work: [upsert_blinko_note] called
    with an empty argument bag writes a note whose content is
    ["undefined"]. *)
Lemma upsert_missing_content_sent_witness :
  In "upsert_blinko_note" upsert_tools
  /\ "notes.example.com" <> "" /\ "key" <> ""
  /\ arg (Some []) "content" = None
  /\ exists req,
       fst (run (CallTool (example_runtime [example_note]) "notes.example.com"
                   "key" "upsert_blinko_note" (Some []))
              (answering 200 "{}")) = [req]
       /\ req_body req
          = Some (JObj [("content", JStr "undefined"); ("type", JNum (num 1))]).
Proof.
  assert (Hn : In "upsert_blinko_note" upsert_tools) by (right; left; reflexivity).
  assert (Hd : "notes.example.com" <> "") by discriminate.
  assert (Hk : "key" <> "") by discriminate.
  refine (conj Hn (conj Hd (conj Hk (conj eq_refl _)))).
  destruct (upsert_missing_content_sent (example_runtime [example_note])
              "notes.example.com" "key" "upsert_blinko_note" (Some [])
              (answering 200 "{}") Hn Hd Hk eq_refl) as (url & Hurl & Hlog).
  eexists. split; [exact Hlog | reflexivity].
Defined.

(* ================================================================= *)
(** ** The type written by an update *)

(** C9 (what the code does). [update_blinko_note] writes the [type] it is
    given after coercion to a number and with no check of its range. *)
Theorem update_type_unchecked rt domain apiKey arguments net :
  forall req,
    In req (fst (run (CallTool rt domain apiKey "update_blinko_note" arguments) net)) ->
    exists inner,
      req_body req = Some (batch_of inner)
      /\ match arg arguments "type" with
         | Some t => exists n, ToNumber rt t = inr n
                               /\ get inner "type" = Some (stringify_number n)
         | None => get inner "type" = None
         end.
Proof.
  intros req Hin.
  destruct (update_log rt domain apiKey arguments net req Hin)
    as (url & noteId & updates & _ & _ & _ & Hbuilt & ->).
  exists (update_inner noteId updates).
  split; [apply update_request_body|].
  exact (proj1 (proj2 (proj2 (proj2
           (built_inner rt arguments updates noteId Hbuilt))))).
Qed.

(** [update_type_unchecked] at work: [type = 5] is written as 5. *)
Lemma update_type_unchecked_witness :
  exists req,
    In req (fst (run (CallTool (example_runtime []) "notes.example.com" "key"
                        "update_blinko_note"
                        (Some [("noteId", JNum (num 5)); ("type", JNum (num 5))]))
                   (answering 200 "{}")))
    /\ exists inner,
         req_body req = Some (batch_of inner)
         /\ get inner "type" = Some (JNum (num 5)).
Proof.
  eexists. split; [left; reflexivity|].
  destruct (update_type_unchecked (example_runtime []) "notes.example.com" "key"
              (Some [("noteId", JNum (num 5)); ("type", JNum (num 5))])
              (answering 200 "{}") _ (or_introl eq_refl))
    as (inner & Hbody & n & Hn & Htype).
  exists inner. split; [exact Hbody|].
  injection Hn as <-. exact Htype.
Defined.

(* ================================================================= *)
(** ** Every tool call, by shape *)

(** A request that was sent ends as the service settles it. *)
Lemma after_request_settled net req lead
    (on_ok : Response -> exn + list string) :
  In lead error_leads ->
  (forall resp,
     (exists blocks, on_ok resp = inr blocks /\ blocks <> [])
     \/ (exists reason, on_ok resp = inl (Rejected reason))) ->
  settled net req (snd (after_request net req lead on_ok)).
Proof.
  intros Hlead Hok. unfold settled, after_request. simpl.
  destruct (net req) as [r|resp]; [reflexivity|].
  destruct (ok resp); [apply Hok|].
  exists lead. split; [exact Hlead | reflexivity].
Qed.

Section CallShape.

Variable rt : Runtime.
Variables domain apiKey url : string.
Variable arguments : option object.
Variable net : Transport.
Hypothesis domain_set : falsy_string domain = false.
Hypothesis apiKey_set : falsy_string apiKey = false.
Hypothesis base : normalizeDomain domain = inr url.

Let this : BlinkoClient := mkBlinkoClient url apiKey.

Ltac refused :=
  left; eexists; split; [|reflexivity]; unfold validation_messages; simpl; tauto.

Ltac sent origin :=
  right; right; eexists; split; [reflexivity|]; split;
  [ origin
  | apply after_request_settled;
    [ unfold error_leads; simpl; tauto
    | intros resp; left; eexists; split; [reflexivity | discriminate] ] ].

(** With the configuration set, a call of a tool of the catalog either
    stops at an argument check or at an argument that does not convert,
    with no request, or issues one request of the client and ends as the
    service settles it. *)
Lemma CallTool_shape (name : string) :
  In name tool_names ->
  (exists m, In m validation_messages
             /\ run (CallTool rt domain apiKey name arguments) net
                = ([], inl (Error m)))
  \/ run (CallTool rt domain apiKey name arguments) net = ([], inl TypeError)
  \/ (exists req,
        fst (run (CallTool rt domain apiKey name arguments) net) = [req]
        /\ issued_by this req
        /\ settled net req
             (snd (run (CallTool rt domain apiKey name arguments) net))).
Proof.
  intros Hname. unfold tool_names in Hname. simpl in Hname.
  assert (Hupsert : In name upsert_tools ->
    (exists m, In m validation_messages
               /\ run (CallTool rt domain apiKey name arguments) net
                  = ([], inl (Error m)))
    \/ run (CallTool rt domain apiKey name arguments) net = ([], inl TypeError)
    \/ (exists req,
          fst (run (CallTool rt domain apiKey name arguments) net) = [req]
          /\ issued_by this req
          /\ settled net req
               (snd (run (CallTool rt domain apiKey name arguments) net)))).
  { intros Hin.
    rewrite (upsert_run rt domain apiKey url arguments net
               domain_set apiKey_set base name Hin).
    destruct (js_String rt (arg arguments "content")) as [e|content] eqn:Hc.
    { apply js_String_throws in Hc. subst e. right; left; reflexivity. }
    destruct (falsy_string content); [refused|].
    right; right. eexists. split; [reflexivity|].
    split; [do 3 right; left; eauto|].
    apply after_request_settled; [unfold error_leads; simpl; tauto|].
    intros resp. destruct (json_note rt (text resp)) as [note|];
      [left; eexists; split; [reflexivity | discriminate] | right; eauto]. }
  destruct Hname as [<- | [<- | [<- | Hname]]];
    [apply Hupsert; simpl; tauto .. |].
  clear Hupsert.
  destruct Hname as [<- | [<- | [<- | [<- | Hname]]]].
  - rewrite (update_run rt domain apiKey url arguments net
               domain_set apiKey_set base).
    destruct (js_Number rt (arg arguments "noteId")) as [e|noteId] eqn:Hid.
    { apply js_Number_throws in Hid. subst e. right; left; reflexivity. }
    destruct (truthy_number noteId); [|refused].
    destruct (build_updates rt arguments) as [e|updates] eqn:Hb.
    { apply build_updates_throws in Hb. subst e. right; left; reflexivity. }
    sent ltac:(do 4 right; left; eauto).
  - rewrite (delete_run rt domain apiKey url arguments net
               domain_set apiKey_set base).
    destruct (js_Number rt (arg arguments "noteId")) as [e|noteId] eqn:Hid.
    { apply js_Number_throws in Hid. subst e. right; left; reflexivity. }
    destruct (truthy_number noteId); [|refused].
    sent ltac:(do 5 right; left; eauto).
  - rewrite (archive_run rt domain apiKey url arguments net
               domain_set apiKey_set base).
    destruct (js_Number rt (arg arguments "noteId")) as [e|noteId] eqn:Hid.
    { apply js_Number_throws in Hid. subst e. right; left; reflexivity. }
    unfold archive_outcome.
    destruct (truthy_number noteId); [|refused].
    right; right. eexists. split; [reflexivity|].
    split; [do 4 right; left; eauto|].
    unfold settled. cbn [snd].
    destruct (net _) as [r|resp]; [reflexivity|].
    destruct (ok resp);
      [left; eexists; split; [reflexivity | discriminate]|].
    exists "Failed to update note: ".
    split; [unfold error_leads; simpl; tauto | reflexivity].
  - rewrite (complete_run rt domain apiKey url arguments net
               domain_set apiKey_set base).
    destruct (js_Number rt (arg arguments "noteId")) as [e|noteId] eqn:Hid.
    { apply js_Number_throws in Hid. subst e. right; left; reflexivity. }
    unfold archive_outcome.
    destruct (truthy_number noteId); [|refused].
    right; right. eexists. split; [reflexivity|].
    split; [do 4 right; left; eauto|].
    unfold settled. cbn [snd].
    destruct (net _) as [r|resp]; [reflexivity|].
    destruct (ok resp);
      [left; eexists; split; [reflexivity | discriminate]|].
    exists "Failed to update note: ".
    split; [unfold error_leads; simpl; tauto | reflexivity].
  - destruct Hname as [<- | [<- | [<- | [<- | []]]]].
    + rewrite (share_run rt domain apiKey url arguments net
                 domain_set apiKey_set base).
      destruct (js_Number rt (arg arguments "noteId")) as [e|noteId] eqn:Hid.
      { apply js_Number_throws in Hid. subst e. right; left; reflexivity. }
      destruct (truthy_number noteId); [|refused].
      destruct (share_password rt arguments) as [e|passwordStr] eqn:Hp.
      { apply share_password_throws in Hp. subst e. right; left; reflexivity. }
      destruct (password_accepted passwordStr); [|refused].
      right; right. eexists. split; [reflexivity|].
      split; [do 6 right; eauto|].
      apply after_request_settled; [unfold error_leads; simpl; tauto|].
      intros resp. destruct (json_share rt (text resp)) as [res|];
        [|right; eauto].
      destruct (share_isShare res);
        left; eexists; (split; [reflexivity | discriminate]).
    + rewrite (search_run rt domain apiKey url arguments net
                 domain_set apiKey_set base).
      destruct (js_String rt (arg arguments "searchText")) as [e|searchText]
        eqn:Ht.
      { apply js_String_throws in Ht. subst e. right; left; reflexivity. }
      destruct (falsy_string searchText); [refused|].
      destruct (search_params rt searchText arguments) as [e|params] eqn:Hp.
      { apply search_params_throws in Hp. subst e. right; left; reflexivity. }
      right; right. eexists. split; [reflexivity|].
      split; [left; eauto|].
      apply after_request_settled; [unfold error_leads; simpl; tauto|].
      intros resp. destruct (json_notes rt (text resp)) as [notes|];
        [left; eexists; split; [reflexivity | discriminate] | right; eauto].
    + rewrite (review_run rt domain apiKey url arguments net
                 domain_set apiKey_set base).
      right; right. eexists. split; [reflexivity|].
      split; [right; left; reflexivity|].
      apply after_request_settled; [unfold error_leads; simpl; tauto|].
      intros resp. destruct (json_notes rt (text resp)) as [notes|];
        [left; eexists; split; [reflexivity | discriminate] | right; eauto].
    + rewrite (clear_run rt domain apiKey url arguments net
                 domain_set apiKey_set base).
      sent ltac:(do 2 right; left; reflexivity).
Qed.

End CallShape.

(** With the configuration set: an unknown tool or a failed argument
    check, or an argument that does not convert, with no request, or one
    request of the client, settled by the service. *)
Lemma CallTool_configured rt domain apiKey name arguments net :
  falsy_string domain = false ->
  falsy_string apiKey = false ->
  (exists m, In m ("Unknown tool" :: validation_messages)
             /\ run (CallTool rt domain apiKey name arguments) net
                = ([], inl (Error m)))
  \/ run (CallTool rt domain apiKey name arguments) net = ([], inl TypeError)
  \/ (exists url req,
        normalizeDomain domain = inr url
        /\ In name tool_names
        /\ fst (run (CallTool rt domain apiKey name arguments) net) = [req]
        /\ issued_by (mkBlinkoClient url apiKey) req
        /\ settled net req
             (snd (run (CallTool rt domain apiKey name arguments) net))).
Proof.
  intros Hd Hk.
  destruct (normalizeDomain_total domain Hd) as [url Hurl].
  destruct (in_dec string_dec name tool_names) as [Hin|Hout].
  - destruct (CallTool_shape rt domain apiKey url arguments net Hd Hk Hurl
                name Hin)
      as [(m & Hm & Hrun) | [Hrun | (req & Hlog & Hby & Hset)]].
    + left. exists m. split; [right; exact Hm | exact Hrun].
    + right; left; exact Hrun.
    + right; right. exists url, req. tauto.
  - left. exists "Unknown tool". split; [left; reflexivity|].
    exact (unknown_run rt domain apiKey url arguments net Hd Hk Hurl name Hout).
Qed.

(** Any call at all: refused with no request, stopped with no request by
    an argument that does not convert, or one request of the client,
    settled by the service. *)
Lemma CallTool_cases rt domain apiKey name arguments net :
  (exists m, In m refusal_messages
             /\ run (CallTool rt domain apiKey name arguments) net
                = ([], inl (Error m)))
  \/ run (CallTool rt domain apiKey name arguments) net = ([], inl TypeError)
  \/ (exists url req,
        falsy_string domain = false
        /\ falsy_string apiKey = false
        /\ normalizeDomain domain = inr url
        /\ In name tool_names
        /\ fst (run (CallTool rt domain apiKey name arguments) net) = [req]
        /\ issued_by (mkBlinkoClient url apiKey) req
        /\ settled net req
             (snd (run (CallTool rt domain apiKey name arguments) net))).
Proof.
  destruct (falsy_string domain) eqn:Hd.
  { left. rewrite CallTool_unconfigured by (left; exact Hd). rewrite Hd.
    eexists; split; [|reflexivity]. simpl; tauto. }
  destruct (falsy_string apiKey) eqn:Hk.
  { left. rewrite CallTool_unconfigured by (right; exact Hk). rewrite Hd.
    eexists; split; [|reflexivity]. simpl; tauto. }
  destruct (CallTool_configured rt domain apiKey name arguments net Hd Hk)
    as [(m & Hm & Hrun) | [Hrun | (url & req & H)]].
  - left. exists m. split; [right; right; exact Hm | exact Hrun].
  - right; left; exact Hrun.
  - right; right. exists url, req. tauto.
Qed.

(** A request of the client carries the bearer credential, goes to a
    path under the base URL by GET or POST, and declares a JSON content
    exactly when it has a body. *)
Lemma issued_by_wellformed this req :
  issued_by this req ->
  In ("Authorization", "Bearer " ++ apiKey this) (req_headers req)
  /\ prefix (baseUrl this) (req_url req) = true
  /\ (req_method req = "GET" \/ req_method req = "POST")
  /\ (In ("Content-Type", "application/json") (req_headers req)
      <-> req_body req <> None).
Proof.
  intros [(p & ->) | [-> | [-> | [(c & t & ->) | [(n & u & ->) | [(n & ->)
          | (p & ->)]]]]]]; simpl;
    (split; [unfold bearer; tauto|]);
    (split; [apply prefix_append|]);
    (split; [tauto|]);
    unfold json_content, bearer;
    (split; [intros H | intros H]);
    try discriminate; try (now elim H); try (left; reflexivity);
    destruct H as [H | []]; discriminate H.
Qed.

(** The message of a settled request is none of the refusals. *)
Lemma settled_not_refusal net req result m :
  settled net req result -> In m refusal_messages -> result <> inl (Error m).
Proof.
  unfold settled. intros Hset Hm.
  destruct (net req) as [r|resp]; [rewrite Hset; discriminate|].
  destruct (ok resp).
  - destruct Hset as [(b & -> & _) | (r & ->)]; discriminate.
  - destruct Hset as (lead & Hlead & ->). simpl in Hlead, Hm.
    destruct Hlead as [<- | [<- | [<- | []]]];
      repeat (destruct Hm as [<- | Hm]; [discriminate|]); now elim Hm.
Qed.

(* ================================================================= *)
(** ** Properties of every tool call *)

(** X1. A call on a server whose domain is empty fails with "Blinko
    domain not set", whatever the tool and the arguments; with a domain
    and an empty API key it fails with "Blinko API key not set"; in both
    cases no request is issued. With both set, the call never fails with
    either of the two messages. *)
Theorem configuration_checked_first rt domain apiKey name arguments net :
  (domain = "" ->
   run (CallTool rt domain apiKey name arguments) net
   = ([], inl (Error "Blinko domain not set")))
  /\ (domain <> "" -> apiKey = "" ->
      run (CallTool rt domain apiKey name arguments) net
      = ([], inl (Error "Blinko API key not set")))
  /\ (domain <> "" -> apiKey <> "" ->
      snd (run (CallTool rt domain apiKey name arguments) net)
        <> inl (Error "Blinko domain not set")
      /\ snd (run (CallTool rt domain apiKey name arguments) net)
        <> inl (Error "Blinko API key not set")).
Proof.
  split; [|split].
  - intros ->. reflexivity.
  - intros Hd ->. apply falsy_string_false in Hd.
    rewrite CallTool_unconfigured by (right; reflexivity). now rewrite Hd.
  - intros Hd Hk. apply falsy_string_false in Hd, Hk.
    destruct (CallTool_configured rt domain apiKey name arguments net Hd Hk)
      as [(m & Hm & Hrun) | [Hrun | (url & req & _ & _ & _ & _ & Hset)]].
    + rewrite Hrun. simpl in Hm |- *.
      split; intros H; injection H as ->; intuition discriminate.
    + rewrite Hrun. split; discriminate.
    + split; apply (settled_not_refusal net req); (exact Hset || (simpl; tauto)).
Qed.

(** [configuration_checked_first] at work: no domain, no key, and both. *)
Lemma configuration_checked_first_witness :
  ("" = ""
   /\ run (CallTool (example_runtime []) "" "key" "delete_blinko_note"
             (Some [("noteId", JNum (num 7))])) (answering 200 "{}")
      = ([], inl (Error "Blinko domain not set")))
  /\ ("notes.example.com" <> "" /\ "" = ""
      /\ run (CallTool (example_runtime []) "notes.example.com" ""
                "delete_blinko_note" (Some [("noteId", JNum (num 7))]))
             (answering 200 "{}")
         = ([], inl (Error "Blinko API key not set")))
  /\ ("notes.example.com" <> "" /\ "key" <> ""
      /\ snd (run (CallTool (example_runtime []) "notes.example.com" "key"
                     "delete_blinko_note" (Some [("noteId", JNum (num 7))]))
                (answering 200 "{}"))
         <> inl (Error "Blinko API key not set")).
Proof.
  assert (Hd : "notes.example.com" <> "") by discriminate.
  assert (Hk : "key" <> "") by discriminate.
  split; [|split].
  - refine (conj eq_refl _).
    exact (proj1 (configuration_checked_first (example_runtime []) "" "key"
                    "delete_blinko_note" (Some [("noteId", JNum (num 7))])
                    (answering 200 "{}")) eq_refl).
  - refine (conj Hd (conj eq_refl _)).
    exact (proj1 (proj2 (configuration_checked_first (example_runtime [])
                    "notes.example.com" "" "delete_blinko_note"
                    (Some [("noteId", JNum (num 7))]) (answering 200 "{}")))
             Hd eq_refl).
  - refine (conj Hd (conj Hk _)).
    exact (proj2 (proj2 (proj2 (configuration_checked_first (example_runtime [])
                    "notes.example.com" "key" "delete_blinko_note"
                    (Some [("noteId", JNum (num 7))]) (answering 200 "{}")))
             Hd Hk)).
Defined.

(** X2. With the configuration set, the dispatcher knows exactly the
    tools of the catalog: a call fails with "Unknown tool" if and only if
    its name is not one the [ListTools] handler lists, and such a call
    issues no request. *)
Theorem catalog_matches_dispatcher rt domain apiKey name arguments net :
  domain <> "" ->
  apiKey <> "" ->
  (snd (run (CallTool rt domain apiKey name arguments) net)
     = inl (Error "Unknown tool")
   <-> ~ In name (map tool_name ListTools))
  /\ (~ In name (map tool_name ListTools) ->
      fst (run (CallTool rt domain apiKey name arguments) net) = []).
Proof.
  intros Hd Hk. apply falsy_string_false in Hd, Hk.
  destruct (normalizeDomain_total domain Hd) as [url Hurl].
  fold tool_names.
  assert (Hunknown : ~ In name tool_names ->
            run (CallTool rt domain apiKey name arguments) net
            = ([], inl (Error "Unknown tool"))).
  { exact (unknown_run rt domain apiKey url arguments net Hd Hk Hurl name). }
  split; [split|].
  - intros Hfail Hin.
    destruct (CallTool_shape rt domain apiKey url arguments net Hd Hk Hurl
                name Hin) as [(m & Hm & Hrun) | [Hrun | (req & _ & _ & Hset)]].
    + rewrite Hrun in Hfail. injection Hfail as ->.
      simpl in Hm. intuition discriminate.
    + rewrite Hrun in Hfail. discriminate Hfail.
    + revert Hfail. apply (settled_not_refusal net req); [exact Hset|].
      simpl; tauto.
  - intros Hout. now rewrite Hunknown.
  - intros Hout. now rewrite Hunknown.
Qed.

(** [catalog_matches_dispatcher] at work on a name the catalog lacks. *)
Lemma catalog_matches_dispatcher_witness :
  "notes.example.com" <> "" /\ "key" <> ""
  /\ ~ In "get_blinko_note" (map tool_name ListTools)
  /\ snd (run (CallTool (example_runtime []) "notes.example.com" "key"
                 "get_blinko_note" (Some [("noteId", JNum (num 7))]))
            (answering 200 "{}")) = inl (Error "Unknown tool")
  /\ fst (run (CallTool (example_runtime []) "notes.example.com" "key"
                 "get_blinko_note" (Some [("noteId", JNum (num 7))]))
            (answering 200 "{}")) = [].
Proof.
  assert (Hd : "notes.example.com" <> "") by discriminate.
  assert (Hk : "key" <> "") by discriminate.
  assert (Hout : ~ In "get_blinko_note" (map tool_name ListTools)).
  { simpl. intuition discriminate. }
  pose proof (catalog_matches_dispatcher (example_runtime []) "notes.example.com"
                "key" "get_blinko_note" (Some [("noteId", JNum (num 7))])
                (answering 200 "{}") Hd Hk) as (Hiff & Hlog).
  exact (conj Hd (conj Hk (conj Hout (conj (proj2 Hiff Hout) (Hlog Hout))))).
Defined.

(** X3. No tool call issues more than one request, whatever the
    configuration, the tool, the arguments and the service: there is no
    retry and no second call. *)
Theorem at_most_one_request rt domain apiKey name arguments net :
  (List.length (fst (run (CallTool rt domain apiKey name arguments) net)) <= 1)%nat.
Proof.
  destruct (CallTool_cases rt domain apiKey name arguments net)
    as [(m & _ & ->) | [-> | (url & req & _ & _ & _ & _ & -> & _)]];
    simpl; lia.
Qed.

(** X4. Every request a tool call issues carries the header
    [Authorization: Bearer <apiKey>] with the configured key, goes by GET
    or POST to a URL that extends the normalised base URL of the
    configured domain, and has the header [Content-Type: application/json]
    exactly when it has a body. *)
Theorem requests_authorised rt domain apiKey name arguments net :
  forall req,
    In req (fst (run (CallTool rt domain apiKey name arguments) net)) ->
    In ("Authorization", "Bearer " ++ apiKey) (req_headers req)
    /\ (exists url, normalizeDomain domain = inr url
                    /\ prefix url (req_url req) = true)
    /\ (req_method req = "GET" \/ req_method req = "POST")
    /\ (In ("Content-Type", "application/json") (req_headers req)
        <-> req_body req <> None).
Proof.
  intros req Hin.
  destruct (CallTool_cases rt domain apiKey name arguments net)
    as [(m & _ & Hrun) | [Hrun
        | (url & req' & _ & _ & Hurl & _ & Hlog & Hby & _)]].
  - rewrite Hrun in Hin. now elim Hin.
  - rewrite Hrun in Hin. now elim Hin.
  - rewrite Hlog in Hin. destruct Hin as [<- | []].
    destruct (issued_by_wellformed _ _ Hby) as (Hauth & Hbase & Hmeth & Hbody).
    split; [exact Hauth|]. split; [exists url; split; assumption|].
    split; assumption.
Qed.

(** [requests_authorised] at work on a search. *)
Lemma requests_authorised_witness :
  exists req,
    In req (fst (run (CallTool (example_runtime []) "notes.example.com/" "key"
                        "search_blinko_notes" (Some [("searchText", JStr "milk")]))
                   (answering 200 "[]")))
    /\ In ("Authorization", "Bearer key") (req_headers req)
    /\ req_url req = "https://notes.example.com/api/v1/note/list"
    /\ (In ("Content-Type", "application/json") (req_headers req)
        <-> req_body req <> None).
Proof.
  eexists. split; [left; reflexivity|].
  pose proof (requests_authorised (example_runtime []) "notes.example.com/" "key"
                "search_blinko_notes" (Some [("searchText", JStr "milk")])
                (answering 200 "[]") _ (or_introl eq_refl))
    as (Hauth & _ & _ & Hbody).
  exact (conj Hauth (conj eq_refl Hbody)).
Defined.

(** X5. When the service cannot be reached for the one request of a tool
    call, the call fails with the very rejection of [fetch]: nothing is
    retried, wrapped or swallowed. *)
Theorem network_failure_propagates rt domain apiKey name arguments net req reason :
  In req (fst (run (CallTool rt domain apiKey name arguments) net)) ->
  net req = NetworkFailure reason ->
  run (CallTool rt domain apiKey name arguments) net
  = ([req], inl (Rejected reason)).
Proof.
  intros Hin Hnet.
  destruct (CallTool_cases rt domain apiKey name arguments net)
    as [(m & _ & Hrun) | [Hrun
        | (url & req' & _ & _ & _ & _ & Hlog & _ & Hset)]].
  - rewrite Hrun in Hin. now elim Hin.
  - rewrite Hrun in Hin. now elim Hin.
  - rewrite Hlog in Hin. destruct Hin as [<- | []].
    unfold settled in Hset. rewrite Hnet in Hset.
    destruct (run _ net) as [log result]. simpl in Hlog, Hset. now subst.
Qed.

(** [network_failure_propagates] at work on a deletion. *)
Lemma network_failure_propagates_witness :
  exists req,
    In req (fst (run (CallTool (example_runtime []) "notes.example.com" "key"
                        "delete_blinko_note" (Some [("noteId", JNum (num 7))]))
                   (unreachable "fetch failed")))
    /\ unreachable "fetch failed" req = NetworkFailure "fetch failed"
    /\ run (CallTool (example_runtime []) "notes.example.com" "key"
              "delete_blinko_note" (Some [("noteId", JNum (num 7))]))
           (unreachable "fetch failed")
       = ([req], inl (Rejected "fetch failed")).
Proof.
  eexists. split; [left; reflexivity|]. split; [reflexivity|].
  exact (network_failure_propagates (example_runtime []) "notes.example.com"
           "key" "delete_blinko_note" (Some [("noteId", JNum (num 7))])
           (unreachable "fetch failed") _ "fetch failed"
           (or_introl eq_refl) eq_refl).
Defined.

(** X6. When the service answers the request of a tool call with a
    status outside 200..299, the tool call itself fails with an [Error]
    whose message holds the status code and the body text: the error of
    the client reaches the caller unchanged, for every tool. *)
Theorem upstream_error_reaches_caller rt domain apiKey name arguments net req resp :
  In req (fst (run (CallTool rt domain apiKey name arguments) net)) ->
  net req = Reply resp ->
  ok resp = false ->
  fails_with_status_and_body resp
    (snd (run (CallTool rt domain apiKey name arguments) net)).
Proof.
  intros Hin Hnet Hbad.
  destruct (CallTool_cases rt domain apiKey name arguments net)
    as [(m & _ & Hrun) | [Hrun
        | (url & req' & _ & _ & _ & _ & Hlog & _ & Hset)]].
  - rewrite Hrun in Hin. now elim Hin.
  - rewrite Hrun in Hin. now elim Hin.
  - rewrite Hlog in Hin. destruct Hin as [<- | []].
    unfold settled in Hset. rewrite Hnet, Hbad in Hset.
    destruct Hset as (lead & _ & ->). apply fails_with_message.
Qed.

(** [upstream_error_reaches_caller] at work: a search answered with 500. *)
Lemma upstream_error_reaches_caller_witness :
  exists req,
    In req (fst (run (CallTool (example_runtime []) "notes.example.com" "key"
                        "search_blinko_notes" (Some [("searchText", JStr "milk")]))
                   (answering 500 "boom")))
    /\ answering 500 "boom" req = Reply (mkResponse 500 "boom")
    /\ ok (mkResponse 500 "boom") = false
    /\ exists message,
         snd (run (CallTool (example_runtime []) "notes.example.com" "key"
                     "search_blinko_notes" (Some [("searchText", JStr "milk")]))
                (answering 500 "boom")) = inl (Error message)
         /\ occurs_in "500" message /\ occurs_in "boom" message.
Proof.
  eexists. split; [left; reflexivity|]. split; [reflexivity|].
  split; [reflexivity|].
  exact (upstream_error_reaches_caller (example_runtime []) "notes.example.com"
           "key" "search_blinko_notes" (Some [("searchText", JStr "milk")])
           (answering 500 "boom") _ (mkResponse 500 "boom")
           (or_introl eq_refl) eq_refl eq_refl).
Defined.


(* ================================================================= *)
(** ** Creating a note, tool by tool *)

(** X7. With the configuration set, a creating tool whose content does
    not convert to text fails with the error of the conversion and no
    request. A content that converts to the empty text is refused with
    "Content is required" and no request; any other text is sent once, as
    [{ content, type }] to the upsert path, with type 0 for
    [upsert_blinko_flash_note], 1 for [upsert_blinko_note] and 2 for
    [upsert_blinko_todo]; and when the service answers 2xx with a note,
    the one block of the result reports the id of that note. *)
Theorem upsert_checks_and_reports rt domain apiKey name arguments net :
  In name upsert_tools ->
  domain <> "" ->
  apiKey <> "" ->
  let out := run (CallTool rt domain apiKey name arguments) net in
  (forall e, js_String rt (arg arguments "content") = inl e ->
     out = ([], inl e))
  /\ (forall content,
        js_String rt (arg arguments "content") = inr content ->
        (content = "" -> out = ([], inl (Error "Content is required")))
        /\ (content <> "" ->
            exists url type,
              normalizeDomain domain = inr url
              /\ (name = "upsert_blinko_flash_note" /\ type = num 0
                  \/ name = "upsert_blinko_note" /\ type = num 1
                  \/ name = "upsert_blinko_todo" /\ type = num 2)
              /\ fst out = [ mkRequest "POST" (url ++ "/api/v1/note/upsert")
                               [ ("Content-Type", "application/json");
                                 ("Authorization", "Bearer " ++ apiKey) ]
                               (Some (JObj [ ("content", JStr content);
                                             ("type", JNum type) ])) ]
              /\ forall req resp note,
                   fst out = [req] -> net req = Reply resp -> ok resp = true ->
                   json_note rt (text resp) = Some note ->
                   snd out = inr [ "Successfully wrote note to Blinko. Note ID: "
                                   ++ NumberToString rt (note_id note) ])).
Proof.
  intros Hname Hd Hk out.
  apply falsy_string_false in Hd, Hk.
  destruct (normalizeDomain_total domain Hd) as [url Hurl].
  subst out.
  rewrite (upsert_run rt domain apiKey url arguments net Hd Hk Hurl name Hname).
  split; [intros e ->; reflexivity|].
  intros content ->.
  split.
  - intros ->. reflexivity.
  - intros Hc. apply falsy_string_false in Hc. rewrite Hc.
    exists url.
    assert (Htype : exists type,
              (name = "upsert_blinko_flash_note" /\ type = num 0
               \/ name = "upsert_blinko_note" /\ type = num 1
               \/ name = "upsert_blinko_todo" /\ type = num 2)
              /\ upsert_type name = type).
    { destruct Hname as [<- | [<- | [<- | []]]]; eexists; (split; [|reflexivity]);
        tauto. }
    destruct Htype as (type & Hcase & Htype). rewrite Htype.
    exists type. split; [exact Hurl|]. split; [exact Hcase|].
    assert (Hbody : upsert_request (mkBlinkoClient url apiKey) content type
                    = mkRequest "POST" (url ++ "/api/v1/note/upsert")
                        [ ("Content-Type", "application/json");
                          ("Authorization", "Bearer " ++ apiKey) ]
                        (Some (JObj [ ("content", JStr content);
                                      ("type", JNum type) ]))).
    { unfold upsert_request. f_equal. simpl. do 3 f_equal.
      destruct Hcase as [[_ ->] | [[_ ->] | [_ ->]]]; reflexivity. }
    rewrite <- Hbody. unfold after_request. cbn [fst snd].
    split; [reflexivity|].
    intros req resp note Hlog Hnet Hok Hnote.
    injection Hlog as <-. rewrite Hnet, Hok, Hnote. reflexivity.
Qed.

(** [upsert_checks_and_reports] at work: a todo "buy milk" against a
    service that answers with note 42. *)
Lemma upsert_checks_and_reports_witness :
  In "upsert_blinko_todo" upsert_tools
  /\ "notes.example.com" <> "" /\ "key" <> ""
  /\ js_String (example_runtime [example_note])
       (arg (Some [("content", JStr "buy milk")]) "content") = inr "buy milk"
  /\ "buy milk" <> ""
  /\ exists req,
       fst (run (CallTool (example_runtime [example_note]) "notes.example.com"
                   "key" "upsert_blinko_todo" (Some [("content", JStr "buy milk")]))
              (answering 200 "{...}")) = [req]
       /\ req_body req = Some (JObj [ ("content", JStr "buy milk");
                                      ("type", JNum (num 2)) ])
       /\ snd (run (CallTool (example_runtime [example_note]) "notes.example.com"
                      "key" "upsert_blinko_todo" (Some [("content", JStr "buy milk")]))
                 (answering 200 "{...}"))
          = inr ["Successfully wrote note to Blinko. Note ID: 42"].
Proof.
  assert (Hn : In "upsert_blinko_todo" upsert_tools) by (simpl; tauto).
  assert (Hd : "notes.example.com" <> "") by discriminate.
  assert (Hk : "key" <> "") by discriminate.
  assert (Hc : "buy milk" <> "") by discriminate.
  refine (conj Hn (conj Hd (conj Hk (conj eq_refl (conj Hc _))))).
  destruct (proj2 (proj2 (upsert_checks_and_reports (example_runtime [example_note])
                     "notes.example.com" "key" "upsert_blinko_todo"
                     (Some [("content", JStr "buy milk")]) (answering 200 "{...}")
                     Hn Hd Hk) "buy milk" eq_refl) Hc)
    as (url & type & Hurl & Htype & Hlog & Hok).
  eexists. split; [reflexivity|]. split; [reflexivity|].
  exact (Hok _ (mkResponse 200 "{...}") example_note eq_refl eq_refl eq_refl eq_refl).
Defined.

(** X8. [upsertNote] of the client refuses an empty content with
    "invalid content" and leaves the log of requests as it was; called
    without a type it writes type 0. *)
Theorem upsertNote_guards_and_defaults rt this net :
  (forall type log,
     upsertNote rt this "" type net log = (log, inl (Error "invalid content")))
  /\ (forall content, content <> "" ->
        fst (run (upsertNote rt this content None) net)
        = [ upsert_request this content (num 0) ]
        /\ body_field (upsert_request this content (num 0)) "type"
           = Some (JNum (num 0))).
Proof.
  split; [reflexivity|].
  intros content Hc. apply falsy_string_false in Hc.
  split; [|reflexivity].
  unfold run, upsertNote.
  change (match @None number with Some t => t | None => num 0 end) with (num 0).
  pose proof (upsertNote_run rt this net content (num 0) [] Hc) as Hrun.
  unfold upsertNote in Hrun. rewrite Hrun. reflexivity.
Qed.

(** [upsertNote_guards_and_defaults] at work. *)
Lemma upsertNote_guards_and_defaults_witness :
  "hello" <> ""
  /\ fst (run (upsertNote (example_runtime [example_note])
                 (mkBlinkoClient "https://notes.example.com" "key") "hello" None)
            (answering 200 "{...}"))
     = [ upsert_request (mkBlinkoClient "https://notes.example.com" "key")
           "hello" (num 0) ].
Proof.
  assert (Hc : "hello" <> "") by discriminate.
  refine (conj Hc _).
  exact (proj1 (proj2 (upsertNote_guards_and_defaults
                         (example_runtime [example_note])
                         (mkBlinkoClient "https://notes.example.com" "key")
                         (answering 200 "{...}")) "hello" Hc)).
Defined.

(* ================================================================= *)

(* ================================================================= *)
(** ** Sharing a note *)

(** X9. With the configuration set and an accepted note id,
    [share_blinko_note] refuses a password exactly when it is truthy and
    converts to a text that is neither empty nor made of six digits: the
    call then fails with "Password must be exactly 6 digits" and no
    request. A falsy password (absent, [null], empty) is sent as the empty
    text, and a truthy one whose text is empty (an empty array) or six
    digits is sent as that text: one request goes to the share path with
    the id, the coerced [isCancel] and the password text. A truthy
    password that does not convert to text fails the call with the error
    of the conversion and no request. *)
Theorem share_checks_password rt domain apiKey arguments net noteId :
  domain <> "" ->
  apiKey <> "" ->
  js_Number rt (arg arguments "noteId") = inr noteId ->
  truthy_number noteId = true ->
  let password := arg arguments "password" in
  let out := run (CallTool rt domain apiKey "share_blinko_note" arguments) net in
  (forall text,
     js_Boolean password = true -> js_String rt password = inr text ->
     text <> "" -> six_digits text = false ->
     out = ([], inl (Error "Password must be exactly 6 digits")))
  /\ (forall text,
        js_Boolean password = false /\ text = ""
        \/ js_Boolean password = true /\ js_String rt password = inr text
           /\ (text = "" \/ six_digits text = true) ->
        exists url req,
          normalizeDomain domain = inr url
          /\ fst out = [req]
          /\ req_method req = "POST"
          /\ req_url req = url ++ "/api/v1/note/share"
          /\ req_body req
             = Some (JObj
                 [ ("id", stringify_number noteId);
                   ("isCancel", JBool (js_Boolean (arg arguments "isCancel")));
                   ("password", JStr text) ]))
  /\ (forall e,
        js_Boolean password = true -> js_String rt password = inl e ->
        out = ([], inl e)).
Proof.
  intros Hd Hk Hid Htruthy password out.
  apply falsy_string_false in Hd, Hk.
  destruct (normalizeDomain_total domain Hd) as [url Hurl].
  subst out.
  rewrite (share_run rt domain apiKey url arguments net Hd Hk Hurl).
  rewrite Hid, Htruthy.
  unfold share_password. fold password.
  split; [|split].
  - intros text Hgiven Htext Hne Hbad. rewrite Hgiven, Htext.
    unfold password_accepted. rewrite Hbad.
    apply falsy_string_false in Hne. now rewrite Hne.
  - intros text Hpass.
    assert (Hacc : (if js_Boolean password then js_String rt password
                    else inr "") = inr text
                   /\ password_accepted text = true).
    { unfold password_accepted.
      destruct Hpass as [[-> ->] | (-> & -> & [-> | Hsix])];
        (split; [reflexivity|]); [reflexivity | reflexivity |].
      rewrite Hsix. apply orb_true_r. }
    destruct Hacc as [-> ->].
    exists url. eexists.
    split; [exact Hurl|]. split; [reflexivity|].
    split; [reflexivity|]. split; reflexivity.
  - intros e Hgiven Htext. now rewrite Hgiven, Htext.
Qed.

(** [share_checks_password] at work: "12345" is refused, "123456" is
    sent. *)
Lemma share_checks_password_witness :
  "notes.example.com" <> "" /\ "key" <> ""
  /\ truthy_number (num 7) = true
  /\ (js_Number (example_runtime [])
        (arg (Some [("noteId", JNum (num 7)); ("password", JStr "12345")])
           "noteId") = inr (num 7)
      /\ js_Boolean (Some (JStr "12345")) = true
      /\ js_String (example_runtime []) (Some (JStr "12345")) = inr "12345"
      /\ "12345" <> ""
      /\ six_digits "12345" = false
      /\ run (CallTool (example_runtime []) "notes.example.com" "key"
                "share_blinko_note"
                (Some [("noteId", JNum (num 7)); ("password", JStr "12345")]))
             (answering 200 "{}")
         = ([], inl (Error "Password must be exactly 6 digits")))
  /\ (js_Number (example_runtime [])
        (arg (Some [("noteId", JNum (num 7)); ("password", JStr "123456")])
           "noteId") = inr (num 7)
      /\ js_String (example_runtime []) (Some (JStr "123456")) = inr "123456"
      /\ six_digits "123456" = true
      /\ exists req,
           fst (run (CallTool (example_runtime []) "notes.example.com" "key"
                       "share_blinko_note"
                       (Some [("noteId", JNum (num 7)); ("password", JStr "123456")]))
                  (answering 200 "{}")) = [req]
           /\ req_body req
              = Some (JObj [ ("id", JNum (num 7)); ("isCancel", JBool false);
                             ("password", JStr "123456") ])).
Proof.
  assert (Hd : "notes.example.com" <> "") by discriminate.
  assert (Hk : "key" <> "") by discriminate.
  assert (Hne : "12345" <> "") by discriminate.
  refine (conj Hd (conj Hk (conj eq_refl _))).
  split.
  - refine (conj eq_refl (conj eq_refl (conj eq_refl (conj Hne (conj eq_refl _))))).
    exact (proj1 (share_checks_password (example_runtime []) "notes.example.com"
                    "key" (Some [("noteId", JNum (num 7)); ("password", JStr "12345")])
                    (answering 200 "{}") (num 7) Hd Hk eq_refl eq_refl)
             "12345" eq_refl eq_refl Hne eq_refl).
  - refine (conj eq_refl (conj eq_refl (conj eq_refl _))).
    destruct (proj1 (proj2 (share_checks_password (example_runtime [])
                    "notes.example.com" "key"
                    (Some [("noteId", JNum (num 7)); ("password", JStr "123456")])
                    (answering 200 "{}") (num 7) Hd Hk eq_refl eq_refl))
                "123456"
                (or_intror (conj eq_refl (conj eq_refl (or_intror eq_refl)))))
      as (url & req & _ & Hlog & _ & _ & Hbody).
    exists req. exact (conj Hlog Hbody).
Defined.

(** X10. What [share_blinko_note] reports follows the [isShare] of the
    reply, not the [isCancel] of the call: a reply that is not shared gives
    the one block of a cancelled share; a shared reply gives the block of
    the id, then a block with the password when the reply has a non-empty
    one, then a last block with the link, which reads "N/A" when the reply
    has no link or an empty one. *)
Theorem share_reports_reply rt domain apiKey arguments net req resp result :
  fst (run (CallTool rt domain apiKey "share_blinko_note" arguments) net) = [req] ->
  net req = Reply resp ->
  ok resp = true ->
  json_share rt (text resp) = Some result ->
  let id := NumberToString rt (share_id result) in
  let blocks := snd (run (CallTool rt domain apiKey "share_blinko_note" arguments) net) in
  (share_isShare result = false ->
   blocks = inr ["Successfully cancelled sharing for note (ID: " ++ id ++ ")"])
  /\ (share_isShare result = true ->
      exists middle link,
        blocks = inr (("Successfully shared note (ID: " ++ id ++ ")")
                      :: List.app middle ["Share link: " ++ link])
        /\ (middle = []
            /\ (share_sharePassword result = None
                \/ share_sharePassword result = Some "")
            \/ exists p, p <> "" /\ share_sharePassword result = Some p
                         /\ middle = ["Share password: " ++ p])
        /\ (link = "N/A"
            /\ (share_shareEncryptedUrl result = None
                \/ share_shareEncryptedUrl result = Some "")
            \/ link <> "" /\ share_shareEncryptedUrl result = Some link)).
Proof.
  intros Hlog Hnet Hok Hjson id blocks.
  destruct (falsy_string domain) eqn:Hd;
    [rewrite CallTool_unconfigured in Hlog by (left; exact Hd);
     simpl in Hlog; discriminate Hlog|].
  destruct (falsy_string apiKey) eqn:Hk;
    [rewrite CallTool_unconfigured in Hlog by (right; exact Hk);
     simpl in Hlog; discriminate Hlog|].
  destruct (normalizeDomain_total domain Hd) as [url Hurl].
  subst blocks. revert Hlog.
  rewrite (share_run rt domain apiKey url arguments net Hd Hk Hurl).
  destruct (js_Number rt (arg arguments "noteId")) as [e|noteId];
    [discriminate|].
  destruct (truthy_number noteId); [|discriminate].
  destruct (share_password rt arguments) as [e|passwordStr]; [discriminate|].
  destruct (password_accepted passwordStr); [|discriminate].
  unfold after_request. cbn [fst snd].
  intros Hlog. injection Hlog as Hlog. rewrite Hlog.
  rewrite Hnet, Hok, Hjson.
  split.
  - intros ->. reflexivity.
  - intros ->.
    exists (match share_sharePassword result with
            | Some p => if falsy_string p then [] else ["Share password: " ++ p]
            | None => []
            end),
           (match share_shareEncryptedUrl result with
            | Some u => if falsy_string u then "N/A" else u
            | None => "N/A"
            end).
    split; [reflexivity|]. split.
    + destruct (share_sharePassword result) as [p|]; [|left; tauto].
      destruct (falsy_string p) eqn:Ep.
      * apply falsy_string_true in Ep. subst p. left; tauto.
      * right. exists p. split; [|tauto].
        intros ->. discriminate Ep.
    + destruct (share_shareEncryptedUrl result) as [u|]; [|left; tauto].
      destruct (falsy_string u) eqn:Eu.
      * apply falsy_string_true in Eu. subst u. left; tauto.
      * right. split; [intros ->; discriminate Eu | reflexivity].
Qed.

(** [share_reports_reply] at work: the service shares note 7 with a
    password and no link. *)
Lemma share_reports_reply_witness :
  exists req,
    fst (run (CallTool (example_share_runtime
                          (mkShareNoteResult (num 7) true (Some "123456") None))
                "notes.example.com" "key" "share_blinko_note"
                (Some [("noteId", JNum (num 7)); ("password", JStr "123456")]))
           (answering 200 "{...}")) = [req]
    /\ answering 200 "{...}" req = Reply (mkResponse 200 "{...}")
    /\ ok (mkResponse 200 "{...}") = true
    /\ exists middle link,
         snd (run (CallTool (example_share_runtime
                               (mkShareNoteResult (num 7) true (Some "123456") None))
                     "notes.example.com" "key" "share_blinko_note"
                     (Some [("noteId", JNum (num 7)); ("password", JStr "123456")]))
                (answering 200 "{...}"))
         = inr ("Successfully shared note (ID: 7)"
                :: List.app middle ["Share link: " ++ link])
         /\ link = "N/A".
Proof.
  eexists. split; [reflexivity|]. split; [reflexivity|]. split; [reflexivity|].
  destruct (proj2 (share_reports_reply
             (example_share_runtime
                (mkShareNoteResult (num 7) true (Some "123456") None))
             "notes.example.com" "key"
             (Some [("noteId", JNum (num 7)); ("password", JStr "123456")])
             (answering 200 "{...}") _ (mkResponse 200 "{...}")
             (mkShareNoteResult (num 7) true (Some "123456") None)
             eq_refl eq_refl eq_refl eq_refl) eq_refl)
    as (middle & link & Hblocks & _ & Hlink).
  exists middle, link. split; [exact Hblocks|].
  destruct Hlink as [[Hna _] | [_ Hsome]]; [exact Hna | discriminate Hsome].
Defined.


(* ================================================================= *)
(** ** Searching and reviewing *)

(** The options of a search convert exactly when its parameters are
    built. *)
Lemma search_params_inr_iff rt searchText arguments :
  search_options_convert rt arguments
  <-> exists params, search_params rt searchText arguments = inr params.
Proof.
  split.
  - intros ((size & Hsize) & (start & Hstart) & (finish & Hfinish)).
    eexists. exact (search_params_converts rt searchText arguments size start
                      finish Hsize Hstart Hfinish).
  - intros (params & Hp).
    destruct (search_params_built rt searchText arguments params Hp)
      as (size & start & finish & Hsize & Hstart & Hfinish & _).
    repeat split; eauto.
Qed.

(** X11. With the configuration set, [search_blinko_notes] called with a
    search text that converts to a non-empty text and none of its optional
    arguments sends exactly the defaults: size 5, type -1, [isArchived],
    [isRecycle] and [hasTodo] false, [isUseAiQuery] true, and both dates
    [null]. *)
Theorem search_defaults rt domain apiKey arguments net searchText :
  domain <> "" ->
  apiKey <> "" ->
  js_String rt (arg arguments "searchText") = inr searchText ->
  searchText <> "" ->
  (forall k, In k [ "size"; "type"; "isArchived"; "isRecycle"; "isUseAiQuery";
                    "startDate"; "endDate"; "hasTodo" ] ->
             arg arguments k = None) ->
  exists url,
    normalizeDomain domain = inr url
    /\ fst (run (CallTool rt domain apiKey "search_blinko_notes" arguments) net)
       = [ mkRequest "POST" (url ++ "/api/v1/note/list")
             [ ("Content-Type", "application/json");
               ("Authorization", "Bearer " ++ apiKey) ]
             (Some (JObj
                [ ("size", JNum (num 5));
                  ("type", JNum (num (-1)));
                  ("isArchived", JBool false);
                  ("isRecycle", JBool false);
                  ("searchText", JStr searchText);
                  ("isUseAiQuery", JBool true);
                  ("startDate", JNull);
                  ("endDate", JNull);
                  ("hasTodo", JBool false) ])) ].
Proof.
  intros Hd Hk Htext Hne Habsent.
  apply falsy_string_false in Hd, Hk, Hne.
  destruct (normalizeDomain_total domain Hd) as [url Hurl].
  exists url. split; [exact Hurl|].
  rewrite (search_run rt domain apiKey url arguments net Hd Hk Hurl).
  rewrite Htext, Hne.
  unfold search_params, date_or_null.
  rewrite (Habsent "size"), (Habsent "type"), (Habsent "isArchived"),
    (Habsent "isRecycle"), (Habsent "isUseAiQuery"), (Habsent "startDate"),
    (Habsent "endDate"), (Habsent "hasTodo") by (simpl; tauto).
  reflexivity.
Qed.

(** [search_defaults] at work on the text "project". *)
Lemma search_defaults_witness :
  "notes.example.com" <> "" /\ "key" <> ""
  /\ js_String (example_runtime [])
       (arg (Some [("searchText", JStr "project")]) "searchText") = inr "project"
  /\ "project" <> ""
  /\ (forall k, In k [ "size"; "type"; "isArchived"; "isRecycle"; "isUseAiQuery";
                       "startDate"; "endDate"; "hasTodo" ] ->
                arg (Some [("searchText", JStr "project")]) k = None)
  /\ exists req,
       fst (run (CallTool (example_runtime []) "notes.example.com" "key"
                   "search_blinko_notes" (Some [("searchText", JStr "project")]))
              (answering 200 "[]")) = [req]
       /\ body_field req "size" = Some (JNum (num 5))
       /\ body_field req "isUseAiQuery" = Some (JBool true)
       /\ body_field req "startDate" = Some JNull.
Proof.
  assert (Hd : "notes.example.com" <> "") by discriminate.
  assert (Hk : "key" <> "") by discriminate.
  assert (Ht : "project" <> "") by discriminate.
  assert (Ha : forall k, In k [ "size"; "type"; "isArchived"; "isRecycle";
                                "isUseAiQuery"; "startDate"; "endDate"; "hasTodo" ] ->
                         arg (Some [("searchText", JStr "project")]) k = None).
  { intros k Hin. simpl in Hin.
    repeat (destruct Hin as [<- | Hin]; [reflexivity|]). now elim Hin. }
  refine (conj Hd (conj Hk (conj eq_refl (conj Ht (conj Ha _))))).
  destruct (search_defaults (example_runtime []) "notes.example.com" "key"
              (Some [("searchText", JStr "project")]) (answering 200 "[]")
              "project" Hd Hk eq_refl Ht Ha) as (url & _ & Hlog).
  eexists. split; [exact Hlog|]. repeat split.
Defined.

(** X12. What a search writes for [isUseAiQuery] and [size]: semantic
    search is switched off only by the boolean [false] itself (absent,
    [null], [0], ["false"] and every other value leave it on), and the
    size is the coerced argument unless that is zero or NaN, in which case
    the size written is 5. *)
Theorem search_coerces_flags rt domain apiKey arguments net :
  forall req,
    In req (fst (run (CallTool rt domain apiKey "search_blinko_notes" arguments) net)) ->
    (body_field req "isUseAiQuery" = Some (JBool false)
     <-> arg arguments "isUseAiQuery" = Some (JBool false))
    /\ (body_field req "isUseAiQuery" = Some (JBool true)
        <-> arg arguments "isUseAiQuery" <> Some (JBool false))
    /\ (exists size,
          js_Number rt (arg arguments "size") = inr size
          /\ body_field req "size"
             = Some (if truthy_number size then stringify_number size
                     else JNum (num 5))).
Proof.
  intros req Hin.
  destruct (search_log rt domain apiKey arguments net req Hin)
    as (url & searchText & params & _ & _ & _ & Hp & ->).
  destruct (search_params_built rt searchText arguments params Hp)
    as (size & start & finish & Hsize & _ & _ & ->).
  unfold body_field, search_request. simpl.
  split; [|split].
  - destruct (arg arguments "isUseAiQuery") as [[| [|] | | | |]|]; simpl;
      split; intros H; (reflexivity || discriminate H).
  - destruct (arg arguments "isUseAiQuery") as [[| [|] | | | |]|]; simpl;
      split; intros H; try reflexivity; try discriminate; try discriminate H;
      now elim H.
  - exists size. split; [exact Hsize|]. now destruct (truthy_number size).
Qed.

(** [search_coerces_flags] at work: the text ["false"] does not switch
    semantic search off, and a size of 0 becomes 5. *)
Lemma search_coerces_flags_witness :
  exists req,
    In req (fst (run (CallTool (example_runtime []) "notes.example.com" "key"
                        "search_blinko_notes"
                        (Some [ ("searchText", JStr "milk");
                                ("isUseAiQuery", JStr "false");
                                ("size", JNum (num 0)) ]))
                   (answering 200 "[]")))
    /\ body_field req "isUseAiQuery" = Some (JBool true)
    /\ body_field req "size" = Some (JNum (num 5)).
Proof.
  eexists. split; [left; reflexivity|].
  destruct (search_coerces_flags (example_runtime []) "notes.example.com" "key"
              (Some [ ("searchText", JStr "milk"); ("isUseAiQuery", JStr "false");
                      ("size", JNum (num 0)) ])
              (answering 200 "[]") _ (or_introl eq_refl))
    as (_ & Hon & size & Hsize & Hbody).
  split; [apply (proj2 Hon); discriminate|].
  injection Hsize as <-. exact Hbody.
Defined.

(** X13. When the service answers a search or a daily review with 2xx
    and a list of notes, the result is a header block that counts the
    notes, followed by one block per note, in the order of the reply; the
    two tools differ in the header only, and an empty list gives the header
    alone. *)
Theorem listing_blocks rt domain apiKey name arguments net req resp notes :
  name = "search_blinko_notes" \/ name = "review_blinko_daily_notes" ->
  fst (run (CallTool rt domain apiKey name arguments) net) = [req] ->
  net req = Reply resp ->
  ok resp = true ->
  json_notes rt (text resp) = Some notes ->
  exists header,
    snd (run (CallTool rt domain apiKey name arguments) net)
    = inr (header :: map (note_block rt) notes)
    /\ header = "Found " ++ decimal (N.of_nat (List.length notes))
                ++ (if name =? "search_blinko_notes" then " note(s):"
                    else " note(s) for today's review:")
    /\ (notes = [] ->
        snd (run (CallTool rt domain apiKey name arguments) net)
        = inr [ if name =? "search_blinko_notes" then "Found 0 note(s):"
                else "Found 0 note(s) for today's review:" ]).
Proof.
  intros Hname Hlog Hnet Hok Hjson.
  destruct (falsy_string domain) eqn:Hd;
    [rewrite CallTool_unconfigured in Hlog by (left; exact Hd);
     simpl in Hlog; discriminate Hlog|].
  destruct (falsy_string apiKey) eqn:Hk;
    [rewrite CallTool_unconfigured in Hlog by (right; exact Hk);
     simpl in Hlog; discriminate Hlog|].
  destruct (normalizeDomain_total domain Hd) as [url Hurl].
  destruct Hname as [-> | ->].
  - revert Hlog.
    rewrite (search_run rt domain apiKey url arguments net Hd Hk Hurl).
    destruct (js_String rt (arg arguments "searchText")) as [e|searchText];
      [discriminate|].
    destruct (falsy_string searchText); [discriminate|].
    destruct (search_params rt searchText arguments) as [e|params];
      [discriminate|].
    unfold after_request. cbn [fst snd].
    intros Hlog. injection Hlog as Hlog. rewrite Hlog.
    rewrite Hnet, Hok, Hjson.
    eexists. split; [reflexivity|]. split; [reflexivity|].
    intros ->. reflexivity.
  - revert Hlog.
    rewrite (review_run rt domain apiKey url arguments net Hd Hk Hurl).
    unfold after_request. cbn [fst snd].
    intros Hlog. injection Hlog as Hlog. rewrite Hlog.
    rewrite Hnet, Hok, Hjson.
    eexists. split; [reflexivity|]. split; [reflexivity|].
    intros ->. reflexivity.
Qed.

(** [listing_blocks] at work: a search for "project" answered with no
    note gives the one block "Found 0 note(s):". *)
Lemma listing_blocks_witness :
  ("search_blinko_notes" = "search_blinko_notes"
   \/ "search_blinko_notes" = "review_blinko_daily_notes")
  /\ exists req,
       fst (run (CallTool (example_runtime []) "notes.example.com" "key"
                   "search_blinko_notes" (Some [("searchText", JStr "project")]))
              (answering 200 "[]")) = [req]
       /\ answering 200 "[]" req = Reply (mkResponse 200 "[]")
       /\ ok (mkResponse 200 "[]") = true
       /\ json_notes (example_runtime []) "[]" = Some []
       /\ snd (run (CallTool (example_runtime []) "notes.example.com" "key"
                      "search_blinko_notes" (Some [("searchText", JStr "project")]))
                 (answering 200 "[]")) = inr ["Found 0 note(s):"].
Proof.
  assert (Hn : "search_blinko_notes" = "search_blinko_notes"
               \/ "search_blinko_notes" = "review_blinko_daily_notes")
    by (left; reflexivity).
  refine (conj Hn _).
  eexists. split; [reflexivity|]. split; [reflexivity|]. split; [reflexivity|].
  split; [reflexivity|].
  destruct (listing_blocks (example_runtime []) "notes.example.com" "key"
              "search_blinko_notes" (Some [("searchText", JStr "project")])
              (answering 200 "[]") _ (mkResponse 200 "[]") [] Hn
              eq_refl eq_refl eq_refl eq_refl) as (header & _ & _ & Hempty).
  exact (Hempty eq_refl).
Defined.

(** X14. With the configuration set, [search_blinko_notes] whose search
    text does not convert to text fails with the error of the conversion
    and no request. A search text that converts to the empty text is
    refused with "Search text is required" and no request; any other text
    is sent as [searchText] of the one request when the options convert,
    and when they do not the call fails with a [TypeError] and no request.
    A call without [searchText] is not refused: the text searched is
    ["undefined"]. *)
Theorem search_checks_text rt domain apiKey arguments net :
  domain <> "" ->
  apiKey <> "" ->
  let out := run (CallTool rt domain apiKey "search_blinko_notes" arguments) net in
  (forall e, js_String rt (arg arguments "searchText") = inl e ->
     out = ([], inl e))
  /\ (forall searchText,
        js_String rt (arg arguments "searchText") = inr searchText ->
        (searchText = "" -> out = ([], inl (Error "Search text is required")))
        /\ (searchText <> "" -> search_options_convert rt arguments ->
            exists req, fst out = [req]
                        /\ body_field req "searchText" = Some (JStr searchText))
        /\ (searchText <> "" -> ~ search_options_convert rt arguments ->
            out = ([], inl TypeError)))
  /\ (arg arguments "searchText" = None ->
      search_options_convert rt arguments ->
      exists req, fst out = [req]
                  /\ body_field req "searchText" = Some (JStr "undefined")).
Proof.
  intros Hd Hk out.
  apply falsy_string_false in Hd, Hk.
  destruct (normalizeDomain_total domain Hd) as [url Hurl].
  subst out.
  rewrite (search_run rt domain apiKey url arguments net Hd Hk Hurl).
  assert (Hsent : forall searchText,
    js_String rt (arg arguments "searchText") = inr searchText ->
    searchText <> "" -> search_options_convert rt arguments ->
    exists req,
      fst (run (CallTool rt domain apiKey "search_blinko_notes" arguments) net)
      = [req]
      /\ body_field req "searchText" = Some (JStr searchText)).
  { intros searchText Htext Hne Hopt. apply falsy_string_false in Hne.
    destruct (search_issued rt domain apiKey arguments net searchText
                Hd Hk Htext Hne Hopt) as (url' & params & _ & Hp & ->).
    destruct (search_params_built rt searchText arguments params Hp)
      as (size & start & finish & _ & _ & _ & ->).
    eexists. split; reflexivity. }
  rewrite (search_run rt domain apiKey url arguments net Hd Hk Hurl) in Hsent.
  split; [|split].
  - intros e ->. reflexivity.
  - intros searchText Htext. split; [|split].
    + intros ->. now rewrite Htext.
    + exact (Hsent searchText Htext).
    + intros Hne Hopt. rewrite Htext.
      apply falsy_string_false in Hne. rewrite Hne.
      destruct (search_params rt searchText arguments) as [e|params] eqn:Hp.
      * apply search_params_throws in Hp. now subst e.
      * elim Hopt. apply (search_params_inr_iff rt searchText). eauto.
  - intros Hmissing Hopt.
    apply (Hsent "undefined"); [now rewrite Hmissing | discriminate | exact Hopt].
Qed.

(** [search_checks_text] at work: an empty array converts to the empty
    text and is refused; an empty argument bag searches "undefined". *)
Lemma search_checks_text_witness :
  "notes.example.com" <> "" /\ "key" <> ""
  /\ (js_String (example_runtime [])
        (arg (Some [("searchText", JArr [])]) "searchText") = inr ""
      /\ run (CallTool (example_runtime []) "notes.example.com" "key"
                "search_blinko_notes" (Some [("searchText", JArr [])]))
             (answering 200 "[]")
         = ([], inl (Error "Search text is required")))
  /\ (arg (Some []) "searchText" = None
      /\ search_options_convert (example_runtime []) (Some [])
      /\ exists req,
           fst (run (CallTool (example_runtime []) "notes.example.com" "key"
                       "search_blinko_notes" (Some []))
                  (answering 200 "[]")) = [req]
           /\ body_field req "searchText" = Some (JStr "undefined")).
Proof.
  assert (Hd : "notes.example.com" <> "") by discriminate.
  assert (Hk : "key" <> "") by discriminate.
  assert (Ho : search_options_convert (example_runtime []) (Some [])).
  { split; [exists NaN; reflexivity|]. split; exists None; reflexivity. }
  refine (conj Hd (conj Hk _)). split.
  - refine (conj eq_refl _).
    exact (proj1 (proj1 (proj2 (search_checks_text (example_runtime [])
                    "notes.example.com" "key"
                    (Some [("searchText", JArr [])]) (answering 200 "[]") Hd Hk))
                    "" eq_refl)
             eq_refl).
  - refine (conj eq_refl (conj Ho _)).
    exact (proj2 (proj2 (search_checks_text (example_runtime []) "notes.example.com"
                    "key" (Some []) (answering 200 "[]") Hd Hk)) eq_refl Ho).
Defined.

(* ================================================================= *)
(** ** Deleting and updating *)

(** X15. With the configuration set and an accepted note id,
    [delete_blinko_note] issues one POST to the batched deletion path
    whose single item is [{ ids: [id] }], and on a 2xx reply it confirms
    the deletion of that id; the body of the reply is not read. *)
Theorem delete_request_and_confirmation rt domain apiKey arguments net noteId :
  domain <> "" ->
  apiKey <> "" ->
  js_Number rt (arg arguments "noteId") = inr noteId ->
  let out := run (CallTool rt domain apiKey "delete_blinko_note" arguments) net in
  truthy_number noteId = true ->
  exists url,
    normalizeDomain domain = inr url
    /\ fst out = [ mkRequest "POST" (url ++ "/api/trpc/notes.deleteMany?batch=1")
                     [ ("Content-Type", "application/json");
                       ("Authorization", "Bearer " ++ apiKey) ]
                     (Some (batch_of [("ids", JArr [stringify_number noteId])])) ]
    /\ forall req resp,
         fst out = [req] -> net req = Reply resp -> ok resp = true ->
         snd out = inr ["Successfully deleted note " ++ NumberToString rt noteId].
Proof.
  intros Hd Hk Hconv out Hid.
  apply falsy_string_false in Hd, Hk.
  destruct (normalizeDomain_total domain Hd) as [url Hurl].
  exists url. split; [exact Hurl|].
  subst out.
  rewrite (delete_run rt domain apiKey url arguments net Hd Hk Hurl).
  rewrite Hconv, Hid. unfold after_request. cbn [fst snd].
  change (delete_request (mkBlinkoClient url apiKey) noteId)
    with (mkRequest "POST" (url ++ "/api/trpc/notes.deleteMany?batch=1")
            [ ("Content-Type", "application/json");
              ("Authorization", "Bearer " ++ apiKey) ]
            (Some (batch_of [("ids", JArr [stringify_number noteId])]))).
  split; [reflexivity|].
  intros req resp Hlog Hnet Hok.
  assert (Hreq : req = mkRequest "POST" (url ++ "/api/trpc/notes.deleteMany?batch=1")
                         [ ("Content-Type", "application/json");
                           ("Authorization", "Bearer " ++ apiKey) ]
                         (Some (batch_of [("ids", JArr [stringify_number noteId])])))
    by (injection Hlog as Hlog; now rewrite <- Hlog).
  subst req. rewrite Hnet, Hok. reflexivity.
Qed.

(** [delete_request_and_confirmation] at work on note 7. *)
Lemma delete_request_and_confirmation_witness :
  "notes.example.com" <> "" /\ "key" <> ""
  /\ js_Number (example_runtime [])
       (arg (Some [("noteId", JNum (num 7))]) "noteId") = inr (num 7)
  /\ truthy_number (num 7) = true
  /\ exists req,
       fst (run (CallTool (example_runtime []) "notes.example.com" "key"
                   "delete_blinko_note" (Some [("noteId", JNum (num 7))]))
              (answering 204 "")) = [req]
       /\ req_body req = Some (batch_of [("ids", JArr [JNum (num 7)])])
       /\ snd (run (CallTool (example_runtime []) "notes.example.com" "key"
                      "delete_blinko_note" (Some [("noteId", JNum (num 7))]))
                 (answering 204 "")) = inr ["Successfully deleted note 7"].
Proof.
  assert (Hd : "notes.example.com" <> "") by discriminate.
  assert (Hk : "key" <> "") by discriminate.
  refine (conj Hd (conj Hk (conj eq_refl (conj eq_refl _)))).
  destruct (delete_request_and_confirmation (example_runtime [])
              "notes.example.com" "key" (Some [("noteId", JNum (num 7))])
              (answering 204 "") (num 7) Hd Hk eq_refl eq_refl)
    as (url & _ & Hlog & Hok).
  eexists. split; [reflexivity|]. split; [reflexivity|].
  exact (Hok _ (mkResponse 204 "") eq_refl eq_refl eq_refl).
Defined.

(** X16. The values [update_blinko_note] writes are coercions of what
    the caller gave: [content] is written as a text, [isArchived] and
    [isTop] as booleans by truthiness (so the text ["false"] is written as
    [true]), and a field the caller did not give is not written. *)
Theorem update_values_coerced rt domain apiKey arguments net :
  forall req,
    In req (fst (run (CallTool rt domain apiKey "update_blinko_note" arguments) net)) ->
    exists inner,
      req_body req = Some (batch_of inner)
      /\ match arg arguments "content" with
         | Some v => exists s, ToString rt v = inr s
                               /\ get inner "content" = Some (JStr s)
         | None => get inner "content" = None
         end
      /\ get inner "isArchived"
         = option_map (fun v => JBool (ToBoolean v)) (arg arguments "isArchived")
      /\ get inner "isTop"
         = option_map (fun v => JBool (ToBoolean v)) (arg arguments "isTop").
Proof.
  intros req Hin.
  destruct (update_log rt domain apiKey arguments net req Hin)
    as (url & noteId & updates & _ & _ & _ & Hbuilt & ->).
  exists (update_inner noteId updates).
  split; [apply update_request_body|].
  destruct (built_inner rt arguments updates noteId Hbuilt)
    as (_ & _ & Hcontent & _ & Harchived & Htop).
  split; [exact Hcontent|]. split; assumption.
Qed.

(** [update_values_coerced] at work: [isArchived: "false"] is written as
    [true]. *)
Lemma update_values_coerced_witness :
  exists req,
    In req (fst (run (CallTool (example_runtime []) "notes.example.com" "key"
                        "update_blinko_note"
                        (Some [("noteId", JNum (num 5)); ("isArchived", JStr "false")]))
                   (answering 200 "{}")))
    /\ exists inner,
         req_body req = Some (batch_of inner)
         /\ get inner "isArchived" = Some (JBool true)
         /\ get inner "isTop" = None.
Proof.
  eexists. split; [left; reflexivity|].
  destruct (update_values_coerced (example_runtime []) "notes.example.com" "key"
              (Some [("noteId", JNum (num 5)); ("isArchived", JStr "false")])
              (answering 200 "{}") _ (or_introl eq_refl))
    as (inner & Hbody & _ & Harchived & Htop).
  exists inner. exact (conj Hbody (conj Harchived Htop)).
Defined.

(* ================================================================= *)
(** ** More on the base URL *)

Lemma strip_trailing_slash_added (s : string) :
  strip_trailing_slash (s ++ "/") = s.
Proof.
  induction s as [|c s IH]; [reflexivity|].
  change (String c s ++ "/") with (String c (s ++ "/")).
  rewrite strip_trailing_slash_cons by (apply append_nonempty_r; discriminate).
  now rewrite IH.
Qed.

(** X17. [normalizeDomain] fails on the empty domain only, with "Domain
    cannot be empty"; on any other domain it gives a base URL that starts
    with [http://] or [https://]. *)
Theorem normalizeDomain_total_with_scheme (domain : string) :
  (domain = "" <-> normalizeDomain domain = inl (Error "Domain cannot be empty"))
  /\ (domain <> "" ->
      exists url, normalizeDomain domain = inr url
                  /\ (prefix "http://" url = true \/ prefix "https://" url = true)).
Proof.
  unfold normalizeDomain. split; [split|].
  - intros ->. reflexivity.
  - destruct (falsy_string domain) eqn:E; [intros _; now apply falsy_string_true|].
    destruct (prefix "http://" (strip_trailing_slash domain)
              || prefix "https://" (strip_trailing_slash domain)); discriminate.
  - intros Hne. rewrite falsy_string_false by exact Hne.
    destruct (prefix "http://" (strip_trailing_slash domain)) eqn:E1;
      [eexists; split; [reflexivity | now left]|].
    destruct (prefix "https://" (strip_trailing_slash domain)) eqn:E2;
      [eexists; split; [reflexivity | now right]|].
    eexists; split; [reflexivity|]. right. apply prefix_append.
Qed.

(** [normalizeDomain_total_with_scheme] at work on a host with a port. *)
Lemma normalizeDomain_total_with_scheme_witness :
  "example.com:3000" <> ""
  /\ exists url, normalizeDomain "example.com:3000" = inr url
                 /\ (prefix "http://" url = true \/ prefix "https://" url = true).
Proof.
  assert (Hne : "example.com:3000" <> "") by discriminate.
  exact (conj Hne (proj2 (normalizeDomain_total_with_scheme "example.com:3000") Hne)).
Defined.

(** X18. One trailing slash makes no difference: a non-empty domain that
    does not end in a slash and the same domain followed by a slash have
    the same base URL. *)
Theorem normalizeDomain_ignores_trailing_slash (domain : string) :
  domain <> "" ->
  strip_trailing_slash domain = domain ->
  normalizeDomain (domain ++ "/") = normalizeDomain domain.
Proof.
  intros Hne Hnoslash. unfold normalizeDomain.
  rewrite (falsy_string_false (domain ++ "/"))
    by (apply append_nonempty_r; discriminate).
  rewrite (falsy_string_false domain) by exact Hne.
  now rewrite strip_trailing_slash_added, Hnoslash.
Qed.

(** [normalizeDomain_ignores_trailing_slash] at work. *)
Lemma normalizeDomain_ignores_trailing_slash_witness :
  "https://notes.example.com" <> ""
  /\ strip_trailing_slash "https://notes.example.com" = "https://notes.example.com"
  /\ normalizeDomain "https://notes.example.com/"
     = normalizeDomain "https://notes.example.com".
Proof.
  assert (Hne : "https://notes.example.com" <> "") by discriminate.
  refine (conj Hne (conj eq_refl _)).
  exact (normalizeDomain_ignores_trailing_slash "https://notes.example.com"
           Hne eq_refl).
Defined.

(* ================================================================= *)
(** ** The command line *)

Lemma split_nonempty (sep : ascii) (s : string) : split sep s <> [].
Proof.
  destruct s as [|c s]; simpl; [discriminate|].
  destruct (Ascii.eqb c sep); [discriminate|].
  destruct (split sep s); discriminate.
Qed.

(** The first piece of a split starts the string. *)
Lemma hd_split_prefix (sep : ascii) (s : string) :
  prefix (hd EmptyString (split sep s)) s = true.
Proof.
  induction s as [|c s IH]; [reflexivity|]. simpl.
  destruct (Ascii.eqb c sep); [reflexivity|].
  pose proof (split_nonempty sep s) as Hne.
  destruct (split sep s) as [|first others]; [now elim Hne|].
  simpl in IH |- *.
  destruct (ascii_dec c c) as [_|n]; [exact IH | now elim n].
Qed.

Lemma split_no_equals (s : string) :
  no_equals s = true -> split "=" s = [s].
Proof.
  induction s as [|c s IH]; [reflexivity|]. simpl.
  intros H. apply andb_true_iff in H as [Hc Hs].
  apply negb_true_iff in Hc. rewrite Hc, IH by exact Hs. reflexivity.
Qed.

Lemma split_at_equals (a b : string) :
  no_equals a = true -> split "=" (a ++ String "=" b) = a :: split "=" b.
Proof.
  induction a as [|c a IH]; [reflexivity|]. simpl.
  intros H. apply andb_true_iff in H as [Hc Ha].
  apply negb_true_iff in Hc. rewrite Hc, IH by exact Ha. reflexivity.
Qed.

(** A flag [--k=V], or [--k=V=W], binds [k] to [V]. *)
Lemma parseArg_flag (args : Flags) (k V rest : string) :
  no_equals k = true ->
  no_equals V = true ->
  rest = "" \/ (exists W, rest = String "=" W) ->
  parseArg args ("--" ++ k ++ String "=" (V ++ rest)) = (k, Some V) :: args.
Proof.
  intros Hk HV Hrest. unfold parseArg.
  rewrite (prefix_append "--").
  change (slice 2 ("--" ++ k ++ String "=" (V ++ rest)))
    with (k ++ String "=" (V ++ rest)).
  rewrite split_at_equals by exact Hk.
  assert (Hsplit : exists others, split "=" (V ++ rest) = V :: others).
  { destruct Hrest as [-> | (W & ->)].
    - rewrite append_empty_r, split_no_equals by exact HV. eauto.
    - rewrite split_at_equals by exact HV. eauto. }
  destruct Hsplit as (others & ->). reflexivity.
Qed.

Lemma prefix_step (c d : ascii) (p s : string) :
  prefix (String c p) (String d s)
  = match ascii_dec c d with left _ => prefix p s | right _ => false end.
Proof. reflexivity. Qed.

Lemma prefix_inv (p s : string) :
  prefix p s = true -> exists rest, s = p ++ rest.
Proof.
  revert s. induction p as [|c p IH]; intros s H; [now exists s|].
  destruct s as [|d s]; [discriminate H|].
  rewrite prefix_step in H.
  destruct (ascii_dec c d) as [<-|]; [|discriminate H].
  destruct (IH s H) as (rest & ->). now exists rest.
Qed.

Lemma prefix_same_lead (p a b : string) :
  prefix (p ++ a) (p ++ b) = prefix a b.
Proof.
  induction p as [|c p IH]; [reflexivity|].
  change (prefix (String c (p ++ a)) (String c (p ++ b)) = prefix a b).
  rewrite prefix_step.
  destruct (ascii_dec c c) as [_|n]; [exact IH | now elim n].
Qed.

(** An argument that does not start with [--k] leaves the binding of [k]
    as it was. *)
Lemma parseArg_other (args : Flags) (a k : string) :
  prefix ("--" ++ k) a = false -> flag (parseArg args a) k = flag args k.
Proof.
  intros Hother. unfold parseArg.
  destruct (prefix "--" a) eqn:Hdash; [|reflexivity].
  cbn [flag].
  destruct (String.eqb_spec (hd EmptyString (split "=" (slice 2 a))) k)
    as [Heq|Hneq]; [|reflexivity].
  exfalso.
  destruct (prefix_inv _ _ Hdash) as (rest & ->).
  change (slice 2 ("--" ++ rest)) with rest in Heq.
  pose proof (hd_split_prefix "=" rest) as Hpre. rewrite Heq in Hpre.
  rewrite prefix_same_lead, Hpre in Hother. discriminate Hother.
Qed.

Lemma flag_fold_other (post : list string) (acc : Flags) (k : string) :
  (forall a, In a post -> prefix ("--" ++ k) a = false) ->
  flag (fold_left parseArg post acc) k = flag acc k.
Proof.
  revert acc. induction post as [|a post IH]; intros acc Hother; [reflexivity|].
  simpl. rewrite IH by (intros b Hb; apply Hother; now right).
  apply parseArg_other, Hother. now left.
Qed.

(** The last flag for [k] decides what [k] is bound to. *)
Lemma flag_of_last (node script : string) (pre post : list string)
    (k V rest : string) :
  no_equals k = true ->
  no_equals V = true ->
  rest = "" \/ (exists W, rest = String "=" W) ->
  (forall a, In a post -> prefix ("--" ++ k) a = false) ->
  flag (parseArgs (node :: script
                   :: pre ++ ("--" ++ k ++ String "=" (V ++ rest)) :: post)) k
  = Some V.
Proof.
  intros Hk HV Hrest Hpost. unfold parseArgs. cbn [skipn].
  rewrite fold_left_app. cbn [fold_left].
  rewrite flag_fold_other by exact Hpost.
  rewrite parseArg_flag by assumption.
  cbn [flag]. now rewrite String.eqb_refl.
Qed.

(** X19. A flag on the command line takes precedence over the
    environment: when the last argument that starts with
    [--blinko_domain] is [--blinko_domain=V] with a non-empty [V] free of
    ["="], the configured domain is [V] whatever [BLINKO_DOMAIN] holds;
    and likewise for [--blinko_api_key] and [BLINKO_API_KEY]. *)
Theorem flag_beats_environment (node script : string) (pre post : list string)
    (V : string) (env : Env) :
  V <> "" ->
  no_equals V = true ->
  ((forall a, In a post -> prefix "--blinko_domain" a = false) ->
   configured_domain
     (node :: script :: pre ++ ("--blinko_domain=" ++ V) :: post) env = V)
  /\ ((forall a, In a post -> prefix "--blinko_api_key" a = false) ->
      configured_apiKey
        (node :: script :: pre ++ ("--blinko_api_key=" ++ V) :: post) env = V).
Proof.
  intros Hne HV.
  apply falsy_string_false in Hne.
  split; intros Hpost.
  - unfold configured_domain.
    pose proof (flag_of_last node script pre post "blinko_domain" V ""
                  eq_refl HV (or_introl eq_refl) Hpost) as Hflag.
    rewrite append_empty_r in Hflag.
    change ("--" ++ "blinko_domain" ++ String "=" V)
      with ("--blinko_domain=" ++ V) in Hflag.
    rewrite Hflag. simpl. now rewrite Hne.
  - unfold configured_apiKey.
    pose proof (flag_of_last node script pre post "blinko_api_key" V ""
                  eq_refl HV (or_introl eq_refl) Hpost) as Hflag.
    rewrite append_empty_r in Hflag.
    change ("--" ++ "blinko_api_key" ++ String "=" V)
      with ("--blinko_api_key=" ++ V) in Hflag.
    rewrite Hflag. simpl. now rewrite Hne.
Qed.

(** [flag_beats_environment] at work: the domain of the flag wins over
    the domain of the environment. *)
Lemma flag_beats_environment_witness :
  "flag.example.com" <> ""
  /\ no_equals "flag.example.com" = true
  /\ (forall a, In a ["--blinko_api_key=k"] -> prefix "--blinko_domain" a = false)
  /\ configured_domain
       [ "node"; "index.js"; "--blinko_domain=flag.example.com";
         "--blinko_api_key=k" ]
       (mkEnv (Some "env.example.com") None)
     = "flag.example.com".
Proof.
  assert (Hne : "flag.example.com" <> "") by discriminate.
  assert (Hpost : forall a, In a ["--blinko_api_key=k"] ->
                            prefix "--blinko_domain" a = false).
  { intros a [<- | []]. reflexivity. }
  refine (conj Hne (conj eq_refl (conj Hpost _))).
  exact (proj1 (flag_beats_environment "node" "index.js" [] ["--blinko_api_key=k"]
                  "flag.example.com" (mkEnv (Some "env.example.com") None)
                  Hne eq_refl) Hpost).
Defined.

(** X20. The value of a flag stops at its second ["="]: the argument
    [--blinko_api_key=V=W] configures the key [V], not [V=W], so a key that
    holds or ends in ["="] is cut; the same holds for
    [--blinko_domain]. *)
Theorem flag_value_cut_at_equals (node script : string) (pre post : list string)
    (V W : string) (env : Env) :
  V <> "" ->
  no_equals V = true ->
  ((forall a, In a post -> prefix "--blinko_api_key" a = false) ->
   configured_apiKey
     (node :: script :: pre ++ ("--blinko_api_key=" ++ V ++ "=" ++ W) :: post) env
   = V)
  /\ ((forall a, In a post -> prefix "--blinko_domain" a = false) ->
      configured_domain
        (node :: script :: pre ++ ("--blinko_domain=" ++ V ++ "=" ++ W) :: post) env
      = V).
Proof.
  intros Hne HV.
  apply falsy_string_false in Hne.
  split; intros Hpost.
  - unfold configured_apiKey.
    pose proof (flag_of_last node script pre post "blinko_api_key" V (String "=" W)
                  eq_refl HV (or_intror (ex_intro _ W eq_refl)) Hpost) as Hflag.
    change ("--" ++ "blinko_api_key" ++ String "=" (V ++ String "=" W))
      with ("--blinko_api_key=" ++ V ++ "=" ++ W) in Hflag.
    rewrite Hflag. simpl. now rewrite Hne.
  - unfold configured_domain.
    pose proof (flag_of_last node script pre post "blinko_domain" V (String "=" W)
                  eq_refl HV (or_intror (ex_intro _ W eq_refl)) Hpost) as Hflag.
    change ("--" ++ "blinko_domain" ++ String "=" (V ++ String "=" W))
      with ("--blinko_domain=" ++ V ++ "=" ++ W) in Hflag.
    rewrite Hflag. simpl. now rewrite Hne.
Qed.

(** [flag_value_cut_at_equals] at work: a key that ends in ["="] loses
    it. *)
Lemma flag_value_cut_at_equals_witness :
  "c2VjcmV0" <> ""
  /\ no_equals "c2VjcmV0" = true
  /\ (forall a, In a [] -> prefix "--blinko_api_key" a = false)
  /\ configured_apiKey
       [ "node"; "index.js"; "--blinko_domain=notes.example.com";
         "--blinko_api_key=c2VjcmV0=" ]
       (mkEnv None None)
     = "c2VjcmV0".
Proof.
  assert (Hne : "c2VjcmV0" <> "") by discriminate.
  assert (Hpost : forall a : string, In a [] -> prefix "--blinko_api_key" a = false)
    by (intros a []).
  refine (conj Hne (conj eq_refl (conj Hpost _))).
  exact (proj1 (flag_value_cut_at_equals "node" "index.js"
                  ["--blinko_domain=notes.example.com"] [] "c2VjcmV0" ""
                  (mkEnv None None) Hne eq_refl) Hpost).
Defined.

(** X21. Without a [--blinko_domain] argument the configured domain is
    that of the environment, and empty when the environment has none; a
    server started that way with no [BLINKO_DOMAIN] refuses every tool call
    with "Blinko domain not set" and issues no request. *)
Theorem environment_fallback rt (argv : list string) (env : Env)
    name arguments net :
  (forall a, In a (skipn 2 argv) -> prefix "--blinko_domain" a = false) ->
  configured_domain argv env
  = match BLINKO_DOMAIN env with Some e => e | None => "" end
  /\ (BLINKO_DOMAIN env = None \/ BLINKO_DOMAIN env = Some "" ->
      run (serve rt argv env name arguments) net
      = ([], inl (Error "Blinko domain not set"))).
Proof.
  intros Hnone.
  assert (Hdom : configured_domain argv env
                 = match BLINKO_DOMAIN env with Some e => e | None => "" end).
  { unfold configured_domain, parseArgs.
    rewrite (flag_fold_other (skipn 2 argv) [] "blinko_domain") by exact Hnone.
    simpl. destruct (BLINKO_DOMAIN env) as [e|]; [|reflexivity].
    destruct (falsy_string e) eqn:E; [|reflexivity].
    now apply falsy_string_true in E. }
  split; [exact Hdom|].
  intros Henv. unfold serve. rewrite Hdom.
  destruct Henv as [-> | ->]; reflexivity.
Qed.

(** [environment_fallback] at work: key given by flag, domain nowhere. *)
Lemma environment_fallback_witness :
  (forall a, In a (skipn 2 ["node"; "index.js"; "--blinko_api_key=k"]) ->
             prefix "--blinko_domain" a = false)
  /\ (BLINKO_DOMAIN (mkEnv None (Some "k2")) = None
      \/ BLINKO_DOMAIN (mkEnv None (Some "k2")) = Some "")
  /\ run (serve (example_runtime []) ["node"; "index.js"; "--blinko_api_key=k"]
            (mkEnv None (Some "k2")) "review_blinko_daily_notes" None)
         (answering 200 "[]")
     = ([], inl (Error "Blinko domain not set")).
Proof.
  assert (Hnone : forall a, In a (skipn 2 ["node"; "index.js"; "--blinko_api_key=k"]) ->
                            prefix "--blinko_domain" a = false).
  { intros a [<- | []]. reflexivity. }
  assert (Henv : BLINKO_DOMAIN (mkEnv None (Some "k2")) = None
                 \/ BLINKO_DOMAIN (mkEnv None (Some "k2")) = Some "")
    by (left; reflexivity).
  refine (conj Hnone (conj Henv _)).
  exact (proj2 (environment_fallback (example_runtime [])
                  ["node"; "index.js"; "--blinko_api_key=k"]
                  (mkEnv None (Some "k2")) "review_blinko_daily_notes" None
                  (answering 200 "[]") Hnone) Henv).
Defined.

(* ================================================================= *)
(** ** The catalog against the handler *)

Lemma search_noteType_wire (type : option json) :
  exists k, In k [-1; 0; 1; 2]%Z
            /\ stringify_number (search_noteType type) = JNum (num k).
Proof.
  unfold search_noteType.
  destruct type as [[| b | n | s | items | fields]|];
    try (exists (-1)%Z; split; [simpl; tauto | reflexivity]).
  unfold strict_eq_literal.
  destruct (strict_eq_number n (num 0)) eqn:E0.
  { apply strict_eq_zero in E0. destruct n; try discriminate E0.
    exists 0%Z. split; [simpl; tauto | reflexivity]. }
  destruct (strict_eq_number n (num 1)) eqn:E1.
  { apply strict_eq_one in E1. subst n.
    exists 1%Z. split; [simpl; tauto | reflexivity]. }
  destruct (strict_eq_number n (num 2)) eqn:E2.
  { apply strict_eq_two in E2. subst n.
    exists 2%Z. split; [simpl; tauto | reflexivity]. }
  exists (-1)%Z. split; [simpl; tauto | reflexivity].
Qed.

(** X22. The type filter a search writes is always one of the values
    the catalog declares for the [type] of [search_blinko_notes] (-1, 0, 1
    or 2), whatever the caller supplied. *)
Theorem search_type_within_schema rt domain apiKey arguments net :
  exists allowed,
    schema_enum "search_blinko_notes" "type" = Some allowed
    /\ forall req,
         In req (fst (run (CallTool rt domain apiKey "search_blinko_notes"
                             arguments) net)) ->
         exists k, In k allowed /\ body_field req "type" = Some (JNum (num k)).
Proof.
  exists [-1; 0; 1; 2]%Z. split; [reflexivity|].
  intros req Hin.
  destruct (search_log rt domain apiKey arguments net req Hin)
    as (url & searchText & params & _ & _ & _ & Hp & ->).
  destruct (search_params_built rt searchText arguments params Hp)
    as (size & start & finish & _ & _ & _ & ->).
  rewrite search_request_type. simpl nullish.
  destruct (search_noteType_wire (arg arguments "type")) as (k & Hk' & ->).
  now exists k.
Qed.

(** [search_type_within_schema] at work: a type of 5 is written as -1. *)
Lemma search_type_within_schema_witness :
  exists req,
    In req (fst (run (CallTool (example_runtime []) "notes.example.com" "key"
                        "search_blinko_notes"
                        (Some [("searchText", JStr "milk"); ("type", JNum (num 5))]))
                   (answering 200 "[]")))
    /\ exists k, In k [-1; 0; 1; 2]%Z
                 /\ body_field req "type" = Some (JNum (num k)).
Proof.
  eexists. split; [left; reflexivity|].
  destruct (search_type_within_schema (example_runtime []) "notes.example.com"
              "key" (Some [("searchText", JStr "milk"); ("type", JNum (num 5))])
              (answering 200 "[]")) as (allowed & Hallowed & Hreq).
  injection Hallowed as <-.
  exact (Hreq _ (or_introl eq_refl)).
Defined.

(** The tools whose schema requires [noteId] are the five that check
    it. *)
Lemma required_noteId_tools (tool : Tool) :
  In tool ListTools ->
  In "noteId" (tool_required tool) ->
  In (tool_name tool) noteId_tools.
Proof.
  unfold ListTools, noteId_tools. intros Hin Hreq. simpl in Hin.
  repeat (destruct Hin as [<- | Hin];
          [simpl in Hreq |- *; intuition discriminate|]).
  now elim Hin.
Qed.

(** X23. The handler enforces every [noteId] the catalog requires: with
    the configuration set, a call of a tool whose schema lists [noteId] as
    required, made without a [noteId] (or with no arguments at all), fails
    with "Valid note ID is required" and issues no request. *)
Theorem required_noteId_enforced rt domain apiKey tool arguments net :
  In tool ListTools ->
  In "noteId" (tool_required tool) ->
  domain <> "" ->
  apiKey <> "" ->
  arg arguments "noteId" = None ->
  run (CallTool rt domain apiKey (tool_name tool) arguments) net
  = ([], inl (Error "Valid note ID is required")).
Proof.
  intros Hin Hreq Hd Hk Hmissing.
  apply falsy_string_false in Hd, Hk.
  destruct (normalizeDomain_total domain Hd) as [url Hurl].
  apply (noteId_rejected rt domain apiKey url arguments net NaN Hd Hk Hurl).
  - now rewrite Hmissing.
  - now apply required_noteId_tools.
  - reflexivity.
Qed.

(** [required_noteId_enforced] at work on [share_blinko_note] called with
    no arguments. *)
Lemma required_noteId_enforced_witness :
  In (mkTool "share_blinko_note"
        [ plain "noteId" "number";
          mkProperty "password" "string" None (Some "^\d{6}$");
          plain "isCancel" "boolean" ]
        ["noteId"]) ListTools
  /\ "notes.example.com" <> "" /\ "key" <> ""
  /\ arg None "noteId" = None
  /\ run (CallTool (example_runtime []) "notes.example.com" "key"
            "share_blinko_note" None) (answering 200 "{}")
     = ([], inl (Error "Valid note ID is required")).
Proof.
  assert (Hin : In (mkTool "share_blinko_note"
                      [ plain "noteId" "number";
                        mkProperty "password" "string" None (Some "^\d{6}$");
                        plain "isCancel" "boolean" ]
                      ["noteId"]) ListTools).
  { unfold ListTools. do 7 right. left. reflexivity. }
  assert (Hd : "notes.example.com" <> "") by discriminate.
  assert (Hk : "key" <> "") by discriminate.
  refine (conj Hin (conj Hd (conj Hk (conj eq_refl _)))).
  exact (required_noteId_enforced (example_runtime []) "notes.example.com" "key"
           _ None (answering 200 "{}") Hin (or_introl eq_refl) Hd Hk eq_refl).
Defined.

(* ================================================================= *)
(** ** Refusals and successes *)



(** X25. For [update_blinko_note], [delete_blinko_note],
    [archive_blinko_note], [complete_blinko_todo] and
    [clear_blinko_recycle_bin], success is decided by the status alone:
    whenever the service answers the request with a 2xx reply the call
    succeeds with one confirmation block, whatever the body of the reply,
    which is never parsed. *)
Theorem mutation_succeeds_on_status rt domain apiKey name arguments net req resp :
  In name [ "update_blinko_note"; "delete_blinko_note"; "archive_blinko_note";
            "complete_blinko_todo"; "clear_blinko_recycle_bin" ] ->
  fst (run (CallTool rt domain apiKey name arguments) net) = [req] ->
  net req = Reply resp ->
  ok resp = true ->
  exists block,
    snd (run (CallTool rt domain apiKey name arguments) net) = inr [block].
Proof.
  intros Hname Hlog Hnet Hok.
  destruct (falsy_string domain) eqn:Hd;
    [rewrite CallTool_unconfigured in Hlog by (left; exact Hd);
     simpl in Hlog; discriminate Hlog|].
  destruct (falsy_string apiKey) eqn:Hk;
    [rewrite CallTool_unconfigured in Hlog by (right; exact Hk);
     simpl in Hlog; discriminate Hlog|].
  destruct (normalizeDomain_total domain Hd) as [url Hurl].
  revert Hlog.
  destruct Hname as [<- | [<- | [<- | [<- | [<- | []]]]]].
  - rewrite (update_run rt domain apiKey url arguments net Hd Hk Hurl).
    destruct (js_Number rt (arg arguments "noteId")) as [e|noteId];
      [discriminate|].
    destruct (truthy_number noteId); [|discriminate].
    destruct (build_updates rt arguments) as [e|updates]; [discriminate|].
    unfold after_request. cbn [fst snd].
    intros Hlog. injection Hlog as Hlog. rewrite Hlog, Hnet, Hok.
    eexists; reflexivity.
  - rewrite (delete_run rt domain apiKey url arguments net Hd Hk Hurl).
    destruct (js_Number rt (arg arguments "noteId")) as [e|noteId];
      [discriminate|].
    destruct (truthy_number noteId); [|discriminate].
    unfold after_request. cbn [fst snd].
    intros Hlog. injection Hlog as Hlog. rewrite Hlog, Hnet, Hok.
    eexists; reflexivity.
  - rewrite (archive_run rt domain apiKey url arguments net Hd Hk Hurl).
    destruct (js_Number rt (arg arguments "noteId")) as [e|noteId];
      [discriminate|].
    unfold archive_outcome.
    destruct (truthy_number noteId); [|discriminate].
    cbn [fst snd].
    intros Hlog. injection Hlog as Hlog. rewrite Hlog, Hnet, Hok.
    eexists; reflexivity.
  - rewrite (complete_run rt domain apiKey url arguments net Hd Hk Hurl).
    destruct (js_Number rt (arg arguments "noteId")) as [e|noteId];
      [discriminate|].
    unfold archive_outcome.
    destruct (truthy_number noteId); [|discriminate].
    cbn [fst snd].
    intros Hlog. injection Hlog as Hlog. rewrite Hlog, Hnet, Hok.
    eexists; reflexivity.
  - rewrite (clear_run rt domain apiKey url arguments net Hd Hk Hurl).
    unfold after_request. cbn [fst snd].
    intros Hlog. injection Hlog as Hlog. rewrite Hlog, Hnet, Hok.
    eexists; reflexivity.
Qed.

(** [mutation_succeeds_on_status] at work: an update answered 200 with a
    body that is no JSON. *)
Lemma mutation_succeeds_on_status_witness :
  In "update_blinko_note"
     [ "update_blinko_note"; "delete_blinko_note"; "archive_blinko_note";
       "complete_blinko_todo"; "clear_blinko_recycle_bin" ]
  /\ exists req,
       fst (run (CallTool (example_share_runtime
                             (mkShareNoteResult (num 5) false None None))
                   "notes.example.com" "key" "update_blinko_note"
                   (Some [("noteId", JNum (num 5)); ("content", JStr "hi")]))
              (answering 200 "<html>")) = [req]
       /\ answering 200 "<html>" req = Reply (mkResponse 200 "<html>")
       /\ ok (mkResponse 200 "<html>") = true
       /\ json_note (example_share_runtime
                       (mkShareNoteResult (num 5) false None None)) "<html>" = None
       /\ exists block,
            snd (run (CallTool (example_share_runtime
                                  (mkShareNoteResult (num 5) false None None))
                        "notes.example.com" "key" "update_blinko_note"
                        (Some [("noteId", JNum (num 5)); ("content", JStr "hi")]))
                   (answering 200 "<html>")) = inr [block].
Proof.
  assert (Hn : In "update_blinko_note"
                 [ "update_blinko_note"; "delete_blinko_note";
                   "archive_blinko_note"; "complete_blinko_todo";
                   "clear_blinko_recycle_bin" ]) by (left; reflexivity).
  refine (conj Hn _).
  eexists. split; [reflexivity|]. split; [reflexivity|]. split; [reflexivity|].
  split; [reflexivity|].
  exact (mutation_succeeds_on_status
           (example_share_runtime (mkShareNoteResult (num 5) false None None))
           "notes.example.com" "key" "update_blinko_note"
           (Some [("noteId", JNum (num 5)); ("content", JStr "hi")])
           (answering 200 "<html>") _ (mkResponse 200 "<html>")
           Hn eq_refl eq_refl eq_refl).
Defined.
